(** * MindMirror backend: reflection analysis pipeline and weekly cache

    A shallow embedding of [gemini.js] (the Analysis Client, the Usage
    Recorder and the three analysis functions) and of the routes of
    [routes/analysis.js] (with the weekly route of [routes/analysis_cached.js]
    beside it), followed by the properties of the pipeline.

    Asynchronous code is written in a state-and-exception monad over a
    [World]: the document store, the clock, the answers of the generative
    service, the faults of the store, the console and the queue of
    background tasks. *)

From Stdlib Require Import ZArith Lia Ascii.
From Corelib Require Import SpecFloat.
From stdpp Require Import prelude strings gmap sorting pretty.

Local Open Scope Z_scope.
#[local] Set Warnings "-register-all,-clear-no-such-hyp".

(** ** JavaScript strings

    A string is a sequence of code units; the model covers code units
    below 256. *)

Module JsString.

(** The white space [String.prototype.trim] removes: TAB, LF, VT, FF, CR,
    SPACE and NBSP. *)
Definition is_white_space (c : ascii) : bool :=
  match Ascii.N_of_ascii c with
  | 9 | 10 | 11 | 12 | 13 | 32 | 160 => true
  | _ => false
  end%N.

Fixpoint trimStart (s : string) : string :=
  match s with
  | String c s' => if is_white_space c then trimStart s' else s
  | EmptyString => EmptyString
  end.

Fixpoint trimEnd (s : string) : string :=
  match s with
  | String c s' =>
      match trimEnd s' with
      | EmptyString => if is_white_space c then EmptyString else String c EmptyString
      | t => String c t
      end
  | EmptyString => EmptyString
  end.

Definition trim (s : string) : string := trimEnd (trimStart s).

(** [s.replace(/pat/g, rep)] for a literal, non-empty [pat]: the matches
    are found from left to right and do not overlap.  [skip] counts the
    code units of the current match that are still to be dropped. *)
Fixpoint replace_from (pat rep : string) (skip : nat) (s : string) : string :=
  match s with
  | EmptyString => EmptyString
  | String c s' =>
      match skip with
      | S k => replace_from pat rep k s'
      | O =>
          if String.prefix pat s
          then rep +:+ replace_from pat rep (Nat.pred (String.length pat)) s'
          else String c (replace_from pat rep O s')
      end
  end.

Definition replaceAll (pat rep s : string) : string := replace_from pat rep O s.

(** [s.indexOf(c)] and [s.lastIndexOf(c)] for a one-character [c]; -1 when
    [c] does not occur. *)
Fixpoint indexOf_from (c : ascii) (i : Z) (s : string) : Z :=
  match s with
  | EmptyString => -1
  | String d s' => if Ascii.eqb d c then i else indexOf_from c (i + 1) s'
  end.

Definition indexOf (c : ascii) (s : string) : Z := indexOf_from c 0 s.

Fixpoint lastIndexOf_from (c : ascii) (i : Z) (found : Z) (s : string) : Z :=
  match s with
  | EmptyString => found
  | String d s' =>
      lastIndexOf_from c (i + 1) (if Ascii.eqb d c then i else found) s'
  end.

Definition lastIndexOf (c : ascii) (s : string) : Z := lastIndexOf_from c 0 (-1) s.

(** [s.substring(a, b)]: both ends are clamped to [0 .. length] and swapped
    when [a > b]. *)
Definition substring (a b : Z) (s : string) : string :=
  let len := Z.of_nat (String.length s) in
  let a' := Z.min (Z.max a 0) len in
  let b' := Z.min (Z.max b 0) len in
  let lo := Z.min a' b' in
  let hi := Z.max a' b' in
  String.substring (Z.to_nat lo) (Z.to_nat (hi - lo)) s.

(** [s.includes(pat)]. *)
Fixpoint includes (pat s : string) : bool :=
  String.prefix pat s ||
  match s with
  | EmptyString => false
  | String _ s' => includes pat s'
  end.

(** [parts.join(sep)]. *)
Fixpoint join (sep : string) (parts : list string) : string :=
  match parts with
  | [] => ""
  | [p] => p
  | p :: ps => p +:+ sep +:+ join sep ps
  end.

End JsString.

(** The double quote and the line feed, which have no literal of their
    own. *)
Definition dquote : string := String (Ascii.ascii_of_nat 34) EmptyString.
Definition newline : string := String (Ascii.ascii_of_nat 10) EmptyString.

(** ** JavaScript numbers

    A number is an IEEE 754 double ([binary64]): a zero, an infinity,
    [NaN], or [m × 2^e] with a mantissa of at most 53 bits. *)

Module Number.

Definition prec : Z := 53.
Definition emax : Z := 1024.

(** The double nearest to an integer. *)
Definition of_Z (n : Z) : spec_float := binary_normalize prec emax n 0 false.

(** The double nearest to [digits × 10^exponent], ties going to the even
    mantissa: the value of a decimal numeral.  A numeral beyond 10^400 is
    infinite and one below 10^-400 is zero, whatever its digits. *)
Definition of_decimal (negative : bool) (digits exponent : Z) : spec_float :=
  match digits with
  | Zpos m =>
      let magnitude := Z.of_nat (String.length (pretty digits)) + exponent in
      if 400 <? magnitude then S754_infinity negative
      else if magnitude <? -400 then S754_zero negative
      else if 0 <=? exponent then
        binary_round prec emax negative (Z.to_pos (digits * 10 ^ exponent)) 0
      else
        SFdiv prec emax (S754_finite negative m 0)
          (S754_finite false (Z.to_pos (10 ^ (- exponent))) 0)
  | _ => S754_zero negative
  end.

(** Whether [num / den < 10^n]. *)
Definition below_power (num den n : Z) : bool :=
  if 0 <=? n then num <? den * 10 ^ n else num * 10 ^ (- n) <? den.

(** The [n] with [10^(n-1) ≤ num / den < 10^n], searched from [n]. *)
Fixpoint magnitude (fuel : nat) (num den n : Z) : Z :=
  match fuel with
  | O => n
  | S fuel' =>
      if below_power num den n then
        if below_power num den (n - 1) then magnitude fuel' num den (n - 1) else n
      else magnitude fuel' num den (n + 1)
  end.

(** The integer nearest to [num / den], the even one of two. *)
Definition nearest (num den : Z) : Z :=
  let q := num / den in
  let r := num mod den in
  match 2 * r ?= den with
  | Lt => q
  | Gt => q + 1
  | Eq => if Z.even q then q else q + 1
  end.

(** The shortest digits that read back as [m × 2^e]: [(s, k, n)] with [k]
    the number of digits of [s] and [s × 10^(n-k)] the decimal. *)
Fixpoint shortest (fuel : nat) (m : positive) (e : Z) (num den n k : Z) : Z * Z * Z :=
  let s :=
    if 0 <=? k - n then nearest (num * 10 ^ (k - n)) den
    else nearest num (den * 10 ^ (n - k)) in
  match fuel with
  | O => (s, k, n)
  | S fuel' =>
      match of_decimal false s (n - k) with
      | S754_finite _ m' e' =>
          if bool_decide (m' = m) && bool_decide (e' = e) then
            if s =? 10 ^ k then (1, 1, n + 1) else (s, k, n)
          else shortest fuel' m e num den n (k + 1)
      | _ => shortest fuel' m e num den n (k + 1)
      end
  end.

Fixpoint zeros (n : nat) : string :=
  match n with
  | O => ""
  | S n' => String "0" (zeros n')
  end.

(** [Number::toString] for a positive finite number. *)
Definition positive_to_string (m : positive) (e : Z) : string :=
  let num := if 0 <=? e then Z.pos m * 2 ^ e else Z.pos m in
  let den := if 0 <=? e then 1 else 2 ^ (- e) in
  let n0 := magnitude 700 num den 0 in
  let '(s, k, n) := shortest 17 m e num den n0 1 in
  let digits := pretty s in
  if (k <=? n) && (n <=? 21) then digits +:+ zeros (Z.to_nat (n - k))
  else if (0 <? n) && (n <=? 21) then
    String.substring 0 (Z.to_nat n) digits +:+ "."
    +:+ String.substring (Z.to_nat n) (Z.to_nat (k - n)) digits
  else if (-6 <? n) && (n <=? 0) then "0." +:+ zeros (Z.to_nat (- n)) +:+ digits
  else
    let exponent := (if n - 1 <? 0 then "-" else "+") +:+ pretty (Z.abs (n - 1)) in
    if k =? 1 then digits +:+ "e" +:+ exponent
    else String.substring 0 1 digits +:+ "."
         +:+ String.substring 1 (Z.to_nat (k - 1)) digits +:+ "e" +:+ exponent.

(** [Number::toString] *)
Definition to_string (x : spec_float) : string :=
  match x with
  | S754_nan => "NaN"
  | S754_zero _ => "0"
  | S754_infinity false => "Infinity"
  | S754_infinity true => "-Infinity"
  | S754_finite false m e => positive_to_string m e
  | S754_finite true m e => "-" +:+ positive_to_string m e
  end.

(** [ToBoolean]: the zeros and [NaN] are falsy. *)
Definition truthy (x : spec_float) : bool :=
  match x with
  | S754_zero _ | S754_nan => false
  | _ => true
  end.

End Number.

Coercion Number.of_Z : Z >-> spec_float.

(** ** JSON values *)

Inductive json : Type :=
| JNull
| JBool (b : bool)
| JNum (x : spec_float)
| JStr (s : string)
| JArr (items : list json)
| JObj (fields : list (string * json)).

(** A JavaScript value that may be [undefined]. *)
Definition jsval : Type := option json.

(** ** The own properties of an object

    An object lists its own properties ([Object.entries], [Object.keys],
    [JSON.stringify]) with the array indices first, by ascending value,
    and the other names after them in the order of their creation.  An
    object is the list of its properties in this order. *)

Definition is_digit (c : ascii) : bool :=
  let n := Ascii.N_of_ascii c in (48 <=? n)%N && (n <=? 57)%N.

(** The value of the decimal digits of [s], most significant first;
    other characters are passed over. *)
Fixpoint decimal (acc : Z) (s : string) : Z :=
  match s with
  | EmptyString => acc
  | String c s' =>
      decimal (if is_digit c then 10 * acc + (Z.of_N (Ascii.N_of_ascii c) - 48) else acc) s'
  end.

(** A property name is an array index when it is the numeral of an
    integer from 0 to 2^32 - 2. *)
Definition array_index (k : string) : option Z :=
  let n := decimal 0 k in
  if bool_decide (pretty n = k) && (n <=? 4294967294) then Some n else None.

(** Whether the name [k] is listed before the name [k'], [k] being the
    later property: only an array index is, before a greater index and
    before every other name. *)
Definition listed_first (k k' : string) : bool :=
  match array_index k, array_index k' with
  | Some i, Some j => i <? j
  | Some _, None => true
  | None, _ => false
  end.

Section Properties.
Context {V : Type}.
Implicit Types (o : list (string * V)).

(** [o[k]], for an own property. *)
Fixpoint property_get (k : string) o : option V :=
  match o with
  | [] => None
  | (k', v) :: o' => if String.eqb k' k then Some v else property_get k o'
  end.

(** [o[k] = v] for a property that is there: it keeps its place. *)
Fixpoint property_update (k : string) (v : V) o : list (string * V) :=
  match o with
  | [] => []
  | (k', v') :: o' =>
      if String.eqb k' k then (k, v) :: o' else (k', v') :: property_update k v o'
  end.

(** [o[k] = v] for a new property. *)
Fixpoint property_create (k : string) (v : V) o : list (string * V) :=
  match o with
  | [] => [(k, v)]
  | (k', v') :: o' =>
      if listed_first k k' then (k, v) :: o else (k', v') :: property_create k v o'
  end.

(** [o[k] = v] *)
Definition property_set (k : string) (v : V) o : list (string * V) :=
  match property_get k o with
  | Some _ => property_update k v o
  | None => property_create k v o
  end.
End Properties.

(** ** gemini.js, the text part of [callGemini]

    Step 1 removes the code fences, step 2 cuts the object out of the text
    that is left. *)

Definition strip_fences (text : string) : string :=
  JsString.trim
    (JsString.replaceAll "```" ""
       (JsString.replaceAll "```json" "" (JsString.trim text))).

Definition extract_json (text : string) : string :=
  let jsonStr := strip_fences text in
  let firstBrace := JsString.indexOf "{" jsonStr in
  let lastBrace := JsString.lastIndexOf "}" jsonStr in
  if bool_decide (firstBrace ≠ -1) && bool_decide (lastBrace ≠ -1)
     && bool_decide (lastBrace > firstBrace)
  then JsString.substring firstBrace (lastBrace + 1) jsonStr
  else jsonStr.


(** ** The platform

    What the code takes from the JavaScript engine and does not define:
    [JSON.parse] with the message of the [SyntaxError] it throws, and the
    two renderings of a [Date] the routes use.  The properties below hold
    for every platform. *)

Inductive ParseResult : Type :=
| Parsed (value : json)
| SyntaxError (message : string).

Class Platform : Type := {
  (** [JSON.parse(text)] *)
  JSON_parse : string → ParseResult;
  (** [new Date(ms).toISOString().split("T")[0]] *)
  isoDate : Z → string;
  (** [new Date(ms).toTimeString().split(' ')[0]] *)
  timeOfDay : Z → string
}.

(** ** A reference platform

    [JSON.parse] as the V8 of Node.js 22 has it, with the messages of its
    [SyntaxError]s, for texts and strings of code units below 256, and a
    clock in UTC.  It instantiates the platform in the closed examples. *)

Module Reference.

(** Where the parser stopped, and what it says there. *)
Inductive Failure : Type :=
(** the token at the cursor is not one the parser can take *)
| UnexpectedToken (rest : string) (pos : Z)
(** [what] in JSON at position [pos] *)
| At (what : string) (pos : Z)
(** a code unit above 255 *)
| WideCodeUnit.

Inductive PR (A : Type) : Type :=
| POk (a : A) (rest : string) (pos : Z)
| PErr (failure : Failure).
Arguments POk {A} a rest pos.
Arguments PErr {A} failure.

Definition char (c : ascii) : string := String c EmptyString.

(** JSON white space: TAB, LF, CR and SPACE. *)
Definition is_json_space (c : ascii) : bool :=
  match Ascii.N_of_ascii c with
  | 9 | 10 | 13 | 32 => true
  | _ => false
  end%N.

Fixpoint skip_ws (s : string) (pos : Z) : string * Z :=
  match s with
  | String c s' => if is_json_space c then skip_ws s' (pos + 1) else (s, pos)
  | EmptyString => (s, pos)
  end.

(** The rest of a literal ([true], [false], [null]) after its first letter. *)
Fixpoint literal (expected : string) (v : json) (s : string) (pos : Z) : PR json :=
  match expected with
  | EmptyString => POk v s pos
  | String e expected' =>
      match s with
      | String c s' =>
          if Ascii.eqb c e then literal expected' v s' (pos + 1)
          else PErr (UnexpectedToken s pos)
      | EmptyString => PErr (UnexpectedToken s pos)
      end
  end.

(** The digits [s] begins with: their value after [acc], their number,
    and what follows them. *)
Fixpoint digits (acc : Z) (count : Z) (s : string) : Z * Z * string :=
  match s with
  | String c s' =>
      if is_digit c
      then digits (10 * acc + (Z.of_N (Ascii.N_of_ascii c) - 48)) (count + 1) s'
      else (acc, count, s)
  | EmptyString => (acc, count, s)
  end.

Definition starts_with_digit (s : string) : bool :=
  match s with
  | String c _ => is_digit c
  | EmptyString => false
  end.

(** The exponent of a number, [s] beginning after the integer part and
    the fraction; [mantissa] and [scale] are the digits read and the
    number of them that stand after the point. *)
Definition exponent_part (negative : bool) (mantissa scale : Z) (s : string) (pos : Z)
  : PR json :=
  let finish (exponent : Z) rest pos' :=
    POk (JNum (Number.of_decimal negative mantissa (exponent - scale))) rest pos' in
  match s with
  | String c s1 =>
      if Ascii.eqb c "e" || Ascii.eqb c "E" then
        let '(minus, s2, pos2) :=
          match s1 with
          | String "-" s2 => (true, s2, pos + 2)
          | String "+" s2 => (false, s2, pos + 2)
          | _ => (false, s1, pos + 1)
          end in
        if starts_with_digit s2 then
          let '(e, n, rest) := digits 0 0 s2 in
          finish (if minus then - e else e) rest (pos2 + n)
        else PErr (At "Exponent part is missing a number" pos2)
      else finish 0 s pos
  | EmptyString => finish 0 s pos
  end.

(** The fraction and the exponent, [s] beginning after the integer part. *)
Definition fraction_part (negative : bool) (integer : Z) (s : string) (pos : Z) : PR json :=
  match s with
  | String "." s1 =>
      if starts_with_digit s1 then
        let '(mantissa, n, rest) := digits integer 0 s1 in
        exponent_part negative mantissa n rest (pos + 1 + n)
      else PErr (At "Unterminated fractional number" (pos + 1))
  | _ => exponent_part negative integer 0 s pos
  end.

(** A number, [s] beginning after its sign. *)
Definition number (negative : bool) (s : string) (pos : Z) : PR json :=
  match s with
  | String "0" s1 =>
      if starts_with_digit s1 then PErr (At "Unexpected number" (pos + 1))
      else fraction_part negative 0 s1 (pos + 1)
  | _ =>
      if starts_with_digit s then
        let '(integer, n, rest) := digits 0 0 s in
        fraction_part negative integer rest (pos + n)
      else PErr (At "No number after minus sign" pos)
  end.

Definition unescape (c : ascii) : option ascii :=
  if Ascii.eqb c (Ascii.ascii_of_nat 34) then Some c
  else if Ascii.eqb c "\" then Some c
  else if Ascii.eqb c "/" then Some c
  else if Ascii.eqb c "b" then Some (Ascii.ascii_of_nat 8)
  else if Ascii.eqb c "f" then Some (Ascii.ascii_of_nat 12)
  else if Ascii.eqb c "n" then Some (Ascii.ascii_of_nat 10)
  else if Ascii.eqb c "r" then Some (Ascii.ascii_of_nat 13)
  else if Ascii.eqb c "t" then Some (Ascii.ascii_of_nat 9)
  else None.

Definition hex_value (c : ascii) : option Z :=
  let n := Z.of_N (Ascii.N_of_ascii c) in
  if (48 <=? n) && (n <=? 57) then Some (n - 48)
  else if (97 <=? n) && (n <=? 102) then Some (n - 87)
  else if (65 <=? n) && (n <=? 70) then Some (n - 55)
  else None.

(** The four hexadecimal digits of a [\u] escape. *)
Fixpoint hex_digits (count : nat) (acc : Z) (s : string) (pos : Z) : PR Z :=
  match count with
  | O => POk acc s pos
  | S count' =>
      match s with
      | String c s' =>
          match hex_value c with
          | Some d => hex_digits count' (16 * acc + d) s' (pos + 1)
          | None => PErr (At "Bad Unicode escape" pos)
          end
      | EmptyString => PErr (At "Bad Unicode escape" pos)
      end
  end.

(** A string, [s] beginning after the opening quote; [acc] holds the
    characters read so far, last first. *)
Fixpoint string_body (fuel : nat) (acc : string) (s : string) (pos : Z) : PR string :=
  match fuel with
  | O => PErr (At "Unterminated string" pos)
  | S fuel' =>
      match s with
      | EmptyString => PErr (At "Unterminated string" pos)
      | String c s' =>
          if Ascii.eqb c (Ascii.ascii_of_nat 34) then POk (String.rev acc) s' (pos + 1)
          else if Ascii.eqb c "\" then
            match s' with
            | EmptyString => PErr (At "Bad escaped character" (pos + 1))
            | String e s'' =>
                match unescape e with
                | Some d => string_body fuel' (String d acc) s'' (pos + 2)
                | None =>
                    if Ascii.eqb e "u" then
                      match hex_digits 4 0 s'' (pos + 2) with
                      | POk unit rest pos' =>
                          if unit <? 256
                          then string_body fuel'
                                 (String (Ascii.ascii_of_N (Z.to_N unit)) acc) rest pos'
                          else PErr WideCodeUnit
                      | PErr failure => PErr failure
                      end
                    else PErr (At "Bad escaped character" (pos + 1))
                end
            end
          else if (Ascii.N_of_ascii c <? 32)%N then
            PErr (At "Bad control character in string literal" pos)
          else string_body fuel' (String c acc) s' (pos + 1)
      end
  end.

Definition quote : ascii := Ascii.ascii_of_nat 34.

Definition string_literal (s : string) (pos : Z) : PR string :=
  string_body (String.length s) EmptyString s pos.

Fixpoint value (fuel : nat) (s : string) (pos : Z) {struct fuel} : PR json :=
  match fuel with
  | O => PErr (UnexpectedToken s pos)
  | S fuel' =>
      let '(s, pos) := skip_ws s pos in
      match s with
      | EmptyString => PErr (UnexpectedToken s pos)
      | String c s' =>
          if Ascii.eqb c "{" then
            let '(s1, pos1) := skip_ws s' (pos + 1) in
            match s1 with
            | String "}" s2 => POk (JObj []) s2 (pos1 + 1)
            | _ => members fuel' true [] s1 pos1
            end
          else if Ascii.eqb c "[" then
            let '(s1, pos1) := skip_ws s' (pos + 1) in
            match s1 with
            | String "]" s2 => POk (JArr []) s2 (pos1 + 1)
            | _ => items fuel' [] s1 pos1
            end
          else if Ascii.eqb c quote then
            match string_literal s' (pos + 1) with
            | POk str rest pos' => POk (JStr str) rest pos'
            | PErr failure => PErr failure
            end
          else if Ascii.eqb c "-" then number true s' (pos + 1)
          else if is_digit c then number false s pos
          else if Ascii.eqb c "t" then literal "rue" (JBool true) s' (pos + 1)
          else if Ascii.eqb c "f" then literal "alse" (JBool false) s' (pos + 1)
          else if Ascii.eqb c "n" then literal "ull" JNull s' (pos + 1)
          else PErr (UnexpectedToken s pos)
      end
  end
with members (fuel : nat) (first : bool) (acc : list (string * json)) (s : string) (pos : Z)
  {struct fuel} : PR json :=
  match fuel with
  | O => PErr (UnexpectedToken s pos)
  | S fuel' =>
      let '(s, pos) := skip_ws s pos in
      match s with
      | String (Ascii false true false false false true false false) s' =>
          match string_literal s' (pos + 1) with
          | PErr failure => PErr failure
          | POk k s1 pos1 =>
              let '(s2, pos2) := skip_ws s1 pos1 in
              match s2 with
              | String ":" s3 =>
                  match value fuel' s3 (pos2 + 1) with
                  | PErr failure => PErr failure
                  | POk v s4 pos4 =>
                      let '(s5, pos5) := skip_ws s4 pos4 in
                      match s5 with
                      | String "," s6 =>
                          members fuel' false (property_set k v acc) s6 (pos5 + 1)
                      | String "}" s6 => POk (JObj (property_set k v acc)) s6 (pos5 + 1)
                      | _ => PErr (At "Expected ',' or '}' after property value" pos5)
                      end
                  end
              | _ => PErr (At "Expected ':' after property name" pos2)
              end
          end
      | _ =>
          PErr (At (if first then "Expected property name or '}'"
                    else "Expected double-quoted property name") pos)
      end
  end
with items (fuel : nat) (acc : list json) (s : string) (pos : Z)
  {struct fuel} : PR json :=
  match fuel with
  | O => PErr (UnexpectedToken s pos)
  | S fuel' =>
      match value fuel' s pos with
      | PErr failure => PErr failure
      | POk v s1 pos1 =>
          let '(s2, pos2) := skip_ws s1 pos1 in
          match s2 with
          | String "," s3 => items fuel' (acc ++ [v]) s3 (pos2 + 1)
          | String "]" s3 => POk (JArr (acc ++ [v])) s3 (pos2 + 1)
          | _ => PErr (At "Expected ',' or ']' after array element" pos2)
          end
      end
  end.

(** The line and the column of the position [pos]: a line ends with CR,
    LF or CR LF. *)
Fixpoint location (s : string) (count : nat) (line column : Z) : Z * Z :=
  match count, s with
  | S count', String c s' =>
      if Ascii.eqb c (Ascii.ascii_of_nat 13) then
        match count', s' with
        | S count'', String (Ascii false true false true false false false false) s'' =>
            location s'' count'' (line + 1) 1
        | _, _ => location s' count' (line + 1) 1
        end
      else if Ascii.eqb c (Ascii.ascii_of_nat 10) then location s' count' (line + 1) 1
      else location s' count' line (column + 1)
  | _, _ => (line, column)
  end.

Definition positioned (source what : string) (pos : Z) : string :=
  let '(line, column) := location source (Z.to_nat pos) 1 1 in
  what +:+ " at position " +:+ pretty pos
  +:+ " (line " +:+ pretty line +:+ " column " +:+ pretty column +:+ ")".

(** The texts [JSON.parse] is given for a value that is no text. *)
Definition special_strings : list string :=
  ["[object Object]"; "undefined"; "Infinity"; "NaN"].

Definition substring (from to : Z) (s : string) : string :=
  String.substring (Z.to_nat from) (Z.to_nat (to - from)) s.

Definition unexpected_token (source : string) (c : ascii) (pos : Z) : string :=
  let length := Z.of_nat (String.length source) in
  if bool_decide (source ∈ special_strings) then
    dquote +:+ source +:+ dquote +:+ " is not valid JSON"
  else
    "Unexpected token '" +:+ char c +:+ "', "
    +:+ (if length <? 21 then dquote +:+ source +:+ dquote
         else if pos <? 10 then dquote +:+ substring 0 (pos + 10) source +:+ dquote +:+ "..."
         else if pos <? length - 10 then
           "..." +:+ dquote +:+ substring (pos - 10) (pos + 10) source +:+ dquote +:+ "..."
         else "..." +:+ dquote +:+ substring (pos - 10) length source +:+ dquote)
    +:+ " is not valid JSON".

(** The message of the [SyntaxError]. *)
Definition describe (source : string) (failure : Failure) : string :=
  match failure with
  | UnexpectedToken EmptyString _ => "Unexpected end of JSON input"
  | UnexpectedToken (String c _) pos =>
      if is_digit c || Ascii.eqb c "-" then
        positioned source "Unexpected number in JSON" pos
      else if Ascii.eqb c quote then positioned source "Unexpected string in JSON" pos
      else unexpected_token source c pos
  | At what pos => positioned source (what +:+ " in JSON") pos
  | WideCodeUnit => "A code unit above 255"
  end.

Definition parse (text : string) : ParseResult :=
  match value (2 * String.length text + 2) text 0 with
  | PErr failure => SyntaxError (describe text failure)
  | POk v rest pos =>
      let '(rest', pos') := skip_ws rest pos in
      match rest' with
      | EmptyString => Parsed v
      | _ =>
          SyntaxError
            (positioned text "Unexpected non-whitespace character after JSON" pos')
      end
  end.

(** Two decimal digits, and at least four. *)
Definition pad2 (n : Z) : string :=
  if n <? 10 then "0" +:+ pretty n else pretty n.

Definition pad4 (n : Z) : string :=
  if n <? 10 then "000" +:+ pretty n
  else if n <? 100 then "00" +:+ pretty n
  else if n <? 1000 then "0" +:+ pretty n
  else pretty n.

(** The calendar date, in UTC, of a time in milliseconds since the epoch
    (the proleptic Gregorian calendar, by eras of 400 years). *)
Definition utcDate (ms : Z) : string :=
  let z := ms / 86400000 + 719468 in
  let era := z / 146097 in
  let doe := z - era * 146097 in
  let yoe := (doe - doe / 1460 + doe / 36524 - doe / 146096) / 365 in
  let doy := doe - (365 * yoe + yoe / 4 - yoe / 100) in
  let mp := (5 * doy + 2) / 153 in
  let d := doy - (153 * mp + 2) / 5 + 1 in
  let m := if mp <? 10 then mp + 3 else mp - 9 in
  let y := yoe + era * 400 + (if m <=? 2 then 1 else 0) in
  pad4 y +:+ "-" +:+ pad2 m +:+ "-" +:+ pad2 d.

(** The time of day, for a server whose local time is UTC. *)
Definition utcTime (ms : Z) : string :=
  let secs := (ms / 1000) mod 86400 in
  pad2 (secs / 3600) +:+ ":" +:+ pad2 (secs mod 3600 / 60) +:+ ":" +:+ pad2 (secs mod 60).

#[local] Instance platform : Platform :=
  {| JSON_parse := parse; isoDate := utcDate; timeOfDay := utcTime |}.

End Reference.

(** ** JavaScript values in conditions, keys and templates *)

(** [ToBoolean]: [null], [false], the zeros, [NaN] and the empty string
    are falsy. *)
Definition json_truthy (v : json) : bool :=
  match v with
  | JNull => false
  | JBool b => b
  | JNum x => Number.truthy x
  | JStr s => negb (String.eqb s "")
  | JArr _ | JObj _ => true
  end.

Definition jsval_truthy (v : jsval) : bool :=
  match v with
  | Some j => json_truthy j
  | None => false
  end.

(** [v || d] *)
Definition jsval_or (v : jsval) (d : json) : json :=
  match v with
  | Some j => if json_truthy j then j else d
  | None => d
  end.

(** A field of a request body: absent, or a string. *)
Definition truthy (field : option string) : bool :=
  match field with
  | Some s => negb (String.eqb s "")
  | None => false
  end.

(** [field || d] *)
Definition or_else (field : option string) (d : string) : string :=
  match field with
  | Some s => if String.eqb s "" then d else s
  | None => d
  end.

(** [ToString], as a property key or a template substitution takes it. *)
Fixpoint js_to_string (v : json) : string :=
  match v with
  | JNull => "null"
  | JBool true => "true"
  | JBool false => "false"
  | JNum x => Number.to_string x
  | JStr s => s
  | JArr items =>
      JsString.join ","
        (List.map (λ i, match i with JNull => "" | _ => js_to_string i end) items)
  | JObj _ => "[object Object]"
  end.

(** [value.name], for the value of a [JSON.parse]: reading a property of
    [null] throws a [TypeError], a value without the property gives
    [undefined]. *)
Fixpoint lookup_field (name : string) (fields : list (string * json)) : jsval :=
  match fields with
  | [] => None
  | (k, v) :: fields' => if String.eqb k name then Some v else lookup_field name fields'
  end.

(** ** A JavaScript object used as a counter

    [counts[k] = (counts[k] || 0) + 1] on an object that starts as [{}].
    A property of the counter holds a number, or, under a name that
    [Object.prototype] gives to a method, a text: the source text of that
    method with a digit 1 behind it for every time the name was counted. *)

Inductive CountValue : Type :=
| Count (n : Z)
| NativeText (name : string) (ones : nat).

Definition Counter : Type := list (string * CountValue).

(** The methods an object inherits from [Object.prototype]. *)
Definition prototype_methods : list string :=
  ["constructor"; "__defineGetter__"; "__defineSetter__"; "hasOwnProperty";
   "__lookupGetter__"; "__lookupSetter__"; "isPrototypeOf"; "propertyIsEnumerable";
   "toString"; "valueOf"; "toLocaleString"].

(** [(counts[k] || 0) + 1]: one more than the number that is there; 1 for
    a name that is not there; and for a text or an inherited method, which
    are truthy, the text with a 1 behind it. *)
Definition counter_next (k : string) (counts : Counter) : CountValue :=
  match property_get k counts with
  | Some (Count n) => Count (n + 1)
  | Some (NativeText name ones) => NativeText name (S ones)
  | None => if bool_decide (k ∈ prototype_methods) then NativeText k 1 else Count 1
  end.

(** [counts[k] = (counts[k] || 0) + 1].  The name [__proto__] is an
    accessor of [Object.prototype]: it reads as that object, and its
    setter ignores the text that the sum is, so the counter stays as it
    is. *)
Definition counter_add (counts : Counter) (k : string) : Counter :=
  if String.eqb k "__proto__" then counts
  else property_set k (counter_next k counts) counts.

(** [values.forEach(v => counts[v] = (counts[v] || 0) + 1)] *)
Definition countOccurrences (values : list json) : Counter :=
  fold_left (λ counts v, counter_add counts (js_to_string v)) values [].

(** [(a, b) => b[1] - a[1]] as the sort takes it: a difference that is
    [NaN], as every difference with a text is, counts as 0. *)
Definition by_count (a b : string * CountValue) : Z :=
  match a.2, b.2 with
  | Count x, Count y => y - x
  | _, _ => 0
  end.

(** [Array.prototype.sort(compare)] as V8 has it for an array of fewer
    than 64 elements: the run the array begins with is found, and turned
    round if it descends; then the elements after it are inserted one by
    one, each at the place a binary search finds. *)
Section Sort.
Context {A : Type} (compare : A → A → Z).

(** How far the run goes on after [previous]. *)
Fixpoint run_length (descending : bool) (previous : A) (l : list A) : nat :=
  match l with
  | [] => O
  | current :: l' =>
      let order := compare current previous in
      if (if descending then order <? 0 else 0 <=? order)
      then S (run_length descending current l')
      else O
  end.

(** The place of [pivot] in [l], between [left] and [right]. *)
Fixpoint binary_search (pivot : A) (l : list A) (fuel left right : nat) : nat :=
  match fuel with
  | O => left
  | S fuel' =>
      if (left <? right)%nat then
        let mid := (left + (right - left) / 2)%nat in
        match l !! mid with
        | Some x =>
            if compare pivot x <? 0 then binary_search pivot l fuel' left mid
            else binary_search pivot l fuel' (S mid) right
        | None => left
        end
      else left
  end.

Definition binary_insert (sorted : list A) (pivot : A) : list A :=
  let left := binary_search pivot sorted (length sorted) 0 (length sorted) in
  take left sorted ++ pivot :: drop left sorted.

Definition js_sort (l : list A) : list A :=
  match l with
  | x0 :: x1 :: rest =>
      let descending := compare x1 x0 <? 0 in
      let n := S (S (run_length descending x1 rest)) in
      let run := if descending then reverse (take n l) else take n l in
      fold_left binary_insert (drop n l) run
  | _ => l
  end.
End Sort.

(** [Object.entries(counts).sort((a, b) => b[1] - a[1]).slice(0, 2).map(([k]) => k)] *)
Definition topTwo (counts : Counter) : list string :=
  List.map fst (take 2 (js_sort by_count counts)).

(** ** Documents of the store *)

Inductive AnalysisStatus : Type := pending | completed | failed.

(** [users/{userId}/reflections/{docId}].  A field of type [option] may be
    absent from the document. *)
Record Reflection : Type := mkReflection {
  date : string;
  transcript : json;
  createdAt : Z;
  inputType : string;
  analysisStatus : option AnalysisStatus;
  dailyInsight : option json;
  primaryEmotion : option json;
  secondaryEmotion : option json;
  emotionalIntensity : option json;
  theme : option json;
  analysisError : option string
}.

Record CacheEntry : Type := mkCacheEntry {
  timestamp : Z;
  reflectionCount : nat;
  analysis : json
}.

Record ApiLog : Type := mkApiLog {
  logTimestamp : Z;
  operation : string;
  details : string
}.

(** The [apiLogs] field as a document can hold it: an array, or a value
    that has no [slice] method. *)
Inductive ApiLogs : Type :=
| LogsArray (logs : list ApiLog)
| LogsNotArray.

Record ApiUsage : Type := mkApiUsage {
  byDate : gmap string Z;
  byType : gmap string Z;
  lastUpdated : Z
}.

(** [users/{userId}].  [weeklyAnalysisCache] is absent, [null] or an
    entry. *)
Record UserDoc : Type := mkUserDoc {
  name : option string;
  email : option string;
  lastActive : option Z;
  weeklyAnalysisCache : option (option CacheEntry);
  apiRequestCount : option Z;
  apiLogs : option ApiLogs;
  apiUsage : option ApiUsage
}.

(** The data of [userRef.set(data, { merge: true })]: a user document
    with the fields the call does not name left out. *)
Definition no_fields : UserDoc :=
  mkUserDoc None None None None None None None.

Definition profile_fields (name email : string) (lastActive : Z) : UserDoc :=
  mkUserDoc (Some name) (Some email) (Some lastActive) None None None None.

Definition cache_field (cache : option CacheEntry) : UserDoc :=
  mkUserDoc None None None (Some cache) None None None.

Definition usage_fields (count : Z) (logs : list ApiLog) (usage : ApiUsage) : UserDoc :=
  mkUserDoc None None None None (Some count) (Some (LogsArray logs)) (Some usage).

(** A field of a map of the store is set: a field that is there keeps
    its place and takes the value, a new field comes last. *)
Fixpoint field_set (k : string) (v : json) (fields : list (string * json))
  : list (string * json) :=
  match fields with
  | [] => [(k, v)]
  | (k', v') :: fields' =>
      if String.eqb k' k then (k, v) :: fields' else (k', v') :: field_set k v fields'
  end.

(** A merging [set] replaces the leaves its data names and keeps every
    other field, also inside nested maps; an empty map replaces the map it
    meets. *)
Fixpoint merge_json (new old : json) {struct new} : json :=
  match new, old with
  | JObj ((_ :: _) as nf), JObj old_fields =>
      JObj
        ((fix go (nf : list (string * json)) (acc : list (string * json)) :=
            match nf with
            | [] => acc
            | (k, v) :: nf' =>
                go nf'
                  (field_set k
                     (match lookup_field k acc with
                      | Some o => merge_json v o
                      | None => v
                      end) acc)
            end) nf old_fields)
  | _, _ => new
  end.

Definition merge_field {A} (new old : option A) : option A :=
  match new with
  | Some _ => new
  | None => old
  end.

Definition merge_cache (new old : option (option CacheEntry)) : option (option CacheEntry) :=
  match new, old with
  | Some (Some e), Some (Some e0) =>
      Some (Some (mkCacheEntry (timestamp e) (reflectionCount e)
                    (merge_json (analysis e) (analysis e0))))
  | Some c, _ => Some c
  | None, _ => old
  end.

Definition merge_usage (new old : option ApiUsage) : option ApiUsage :=
  match new, old with
  | Some u, Some u0 =>
      Some (mkApiUsage (byDate u ∪ byDate u0) (byType u ∪ byType u0) (lastUpdated u))
  | Some u, None => Some u
  | None, _ => old
  end.

Definition merge_user (data : UserDoc) (old : UserDoc) : UserDoc :=
  {| name := merge_field (name data) (name old);
     email := merge_field (email data) (email old);
     lastActive := merge_field (lastActive data) (lastActive old);
     weeklyAnalysisCache := merge_cache (weeklyAnalysisCache data) (weeklyAnalysisCache old);
     apiRequestCount := merge_field (apiRequestCount data) (apiRequestCount old);
     apiLogs := merge_field (apiLogs data) (apiLogs old);
     apiUsage := merge_usage (apiUsage data) (apiUsage old) |}.

(** ** The generative service *)

(** What a prompt is built from; the wording around it is fixed. *)
Record Summary : Type := mkSummary {
  summaryDate : string;
  summaryPrimaryEmotion : jsval;
  summarySecondaryEmotion : jsval;
  summaryTheme : jsval;
  summaryEmotionalIntensity : jsval
}.

Inductive Prompt : Type :=
| TextPrompt (textInput : string)
| TranscriptPrompt (transcript : string)
| WeeklyPrompt (summary : list Summary).

(** [model.generateContent(prompt)] followed by [result.response.text()]:
    the text, or the message of the error thrown. *)
Inductive Reply : Type :=
| ReplyText (text : string)
| ReplyError (message : string).

(** An answer arrives [latency] milliseconds after the call. *)
Record GeminiOutcome : Type := mkOutcome {
  latency : Z;
  reply : Reply
}.

(** ** The console *)

Record JsError : Type := mkError { message : string }.

Inductive ConsoleLine : Type :=
| ApiCount (count : Z) (operation operationType : string)
| RecorderFailed (message : string)
| RawResponse (text : string)
| ParsedJson (parsed : json)
| JsonParseError (text cleaned message : string)
| TextAnalysisError (message : string)
| BackgroundStarting (userId docId : string)
| BackgroundCompleted (docId : string)
| BackgroundFailed (docId message : string)
| BackgroundStatusUpdateFailed (err : JsError)
| WeeklyAnalysisError (message : string)
| SaveTranscriptReqBody
| TranscriptSaved (docId : string)
| AnalysisCompleted (docId : string)
| AnalysisFailed (docId error : string)
| BackgroundAnalysisError (docId : string) (err : JsError)
| UnhandledRejection (err : JsError)
| SaveTranscriptRouteError (err : JsError)
| DailyReqBody
| DailyAnalysisRouteError (err : JsError)
| CachedWeekly (minutes : Z)
| GeneratingFresh
| GeminiTimeoutSynthetic
| CachedNew
| WeeklyAnalysisRouteError (err : JsError)
| GetReflectionByIdError (err : JsError).

(** ** The world *)

(** A promise the route has started and does not await. *)
Inductive Task : Type :=
| TranscriptAnalysis (userId docId transcript : string).

Record World : Type := mkWorld {
  (** [users/{userId}] *)
  users : gmap string UserDoc;
  (** [users/{userId}/reflections/{docId}] *)
  reflections : gmap string (gmap string Reflection);
  (** [Date.now()] *)
  clock : Z;
  (** the answer of the service to its n-th call *)
  gemini : nat → Prompt → GeminiOutcome;
  (** the calls made so far *)
  generated : list Prompt;
  (** whether the n-th operation on the store fails *)
  storeFault : nat → bool;
  (** the operations on the store so far *)
  storeOps : nat;
  console : list ConsoleLine;
  background : list Task
}.

Definition with_users (u : gmap string UserDoc) (w : World) : World :=
  mkWorld u (reflections w) (clock w) (gemini w) (generated w) (storeFault w)
    (storeOps w) (console w) (background w).

Definition with_reflections (r : gmap string (gmap string Reflection)) (w : World) : World :=
  mkWorld (users w) r (clock w) (gemini w) (generated w) (storeFault w)
    (storeOps w) (console w) (background w).

Definition with_clock (t : Z) (w : World) : World :=
  mkWorld (users w) (reflections w) t (gemini w) (generated w) (storeFault w)
    (storeOps w) (console w) (background w).

Definition with_generated (g : list Prompt) (w : World) : World :=
  mkWorld (users w) (reflections w) (clock w) (gemini w) g (storeFault w)
    (storeOps w) (console w) (background w).

Definition with_storeOps (n : nat) (w : World) : World :=
  mkWorld (users w) (reflections w) (clock w) (gemini w) (generated w) (storeFault w)
    n (console w) (background w).

Definition with_console (c : list ConsoleLine) (w : World) : World :=
  mkWorld (users w) (reflections w) (clock w) (gemini w) (generated w) (storeFault w)
    (storeOps w) c (background w).

Definition with_background (b : list Task) (w : World) : World :=
  mkWorld (users w) (reflections w) (clock w) (gemini w) (generated w) (storeFault w)
    (storeOps w) (console w) b.

(** ** Asynchronous code: state and exceptions *)

Inductive Result (A : Type) : Type :=
| Ok (a : A)
| Throw (err : JsError).
Arguments Ok {A} a.
Arguments Throw {A} err.

Definition M (A : Type) : Type := World → Result A * World.

Definition ret {A} (a : A) : M A := λ w, (Ok a, w).

Definition bind {A B} (m : M A) (k : A → M B) : M B :=
  λ w, match m w with
       | (Ok a, w') => k a w'
       | (Throw e, w') => (Throw e, w')
       end.

Definition throw {A} (err : JsError) : M A := λ w, (Throw err, w).

(** [try { m } catch (err) { handler }] *)
Definition try_catch {A} (m : M A) (handler : JsError → M A) : M A :=
  λ w, match m w with
       | (Ok a, w') => (Ok a, w')
       | (Throw e, w') => handler e w'
       end.

Declare Scope js_scope.
Delimit Scope js_scope with js.
Notation "x ← m ; k" := (bind m (λ x, k))
  (at level 20, m at level 100, k at level 200, only parsing) : js_scope.
Notation "m ;; k" := (bind m (λ _, k))
  (at level 100, k at level 200, only parsing, right associativity) : js_scope.
Local Open Scope js_scope.

Definition console_log (line : ConsoleLine) : M unit :=
  λ w, (Ok tt, with_console (console w ++ [line]) w).

Definition dateNow : M Z := λ w, (Ok (clock w), w).

(** A promise that is started and not awaited; its rejection is nobody's
    to catch. *)
Definition not_awaited (m : M unit) : M unit :=
  try_catch m (λ err, console_log (UnhandledRejection err)).

Definition start_background (t : Task) : M unit :=
  λ w, (Ok tt, with_background (background w ++ [t]) w).

(** *** The document store

    Every operation is one request to the store, which the store may
    fail. *)
Definition store_unavailable : JsError := mkError "store unavailable".

Definition store_op {A} (op : M A) : M A :=
  λ w, let w' := with_storeOps (S (storeOps w)) w in
       if storeFault w (storeOps w) then (Throw store_unavailable, w') else op w'.

(** [db.collection("users").doc(userId).get()], then [.data()] *)
Definition user_get (userId : string) : M (option UserDoc) :=
  store_op (λ w, (Ok (users w !! userId), w)).

(** [userRef.set(data, { merge: true })] *)
Definition user_set_merge (userId : string) (data : UserDoc) : M unit :=
  store_op (λ w,
    let doc := match users w !! userId with
               | Some old => merge_user data old
               | None => data
               end in
    (Ok tt, with_users (<[userId := doc]> (users w)) w)).

Definition reflections_of (userId : string) (w : World) : gmap string Reflection :=
  default ∅ (reflections w !! userId).

(** [userRef.collection("reflections").doc(docId).set(doc)] *)
Definition reflection_set (userId docId : string) (doc : Reflection) : M unit :=
  store_op (λ w,
    (Ok tt,
     with_reflections
       (<[userId := <[docId := doc]> (reflections_of userId w)]> (reflections w)) w)).

(** [docRef.update(fields)]: fails when the document does not exist. *)
Definition reflection_update (userId docId : string) (f : Reflection → Reflection) : M unit :=
  store_op (λ w,
    match reflections_of userId w !! docId with
    | Some doc =>
        (Ok tt,
         with_reflections
           (<[userId := <[docId := f doc]> (reflections_of userId w)]> (reflections w)) w)
    | None => (Throw (mkError "NOT_FOUND: no document to update"), w)
    end).

(** [docRef.get()] *)
Definition reflection_get (userId docId : string) : M (option Reflection) :=
  store_op (λ w, (Ok (reflections_of userId w !! docId), w)).

(** The order of [orderBy("createdAt", "desc")]: later documents first,
    documents of one instant by descending name. *)
Definition newer_first (a b : string * Reflection) : Prop :=
  createdAt b.2 < createdAt a.2 ∨ (createdAt a.2 = createdAt b.2 ∧ String.le b.1 a.1).

#[global] Instance newer_first_dec : RelDecision newer_first.
Proof. intros a b. unfold newer_first. apply _. Defined.

Definition query_recent (limit : nat) (docs : gmap string Reflection)
  : list (string * Reflection) :=
  take limit (merge_sort newer_first (map_to_list docs)).

(** [userRef.collection("reflections").orderBy("createdAt", "desc").limit(n).get()],
    then [snapshot.docs.map(doc => ({ id: doc.id, ...doc.data() }))] *)
Definition reflections_recent (userId : string) (limit : nat)
  : M (list (string * Reflection)) :=
  store_op (λ w, (Ok (query_recent limit (reflections_of userId w)), w)).

(** A value the store is asked to write: [undefined] is refused. *)
Definition firestore_value (field : string) (v : jsval) : M json :=
  match v with
  | Some j => ret j
  | None =>
      throw (mkError ("Cannot use undefined as a Firestore value (found in field "
                      +:+ field +:+ ")"))
  end.

(** [value.name] *)
Definition prop (value : json) (name : string) : M jsval :=
  match value with
  | JNull =>
      throw (mkError ("Cannot read properties of null (reading '" +:+ name +:+ "')"))
  | JObj fields => ret (lookup_field name fields)
  | _ => ret None
  end.

(** *** The service and the timer *)

(** [await model.generateContent(prompt)] and the text of the response. *)
Definition generateContent (prompt : Prompt) : M string :=
  λ w, let outcome := gemini w (length (generated w)) prompt in
       let w' := with_clock (clock w + Z.max 0 (latency outcome))
                   (with_generated (generated w ++ [prompt]) w) in
       match reply outcome with
       | ReplyText text => (Ok text, w')
       | ReplyError msg => (Throw (mkError msg), w')
       end.

(** [Promise.race([m, timeout])] with a timeout that rejects after [ms]:
    [m] wins when it settles before the timer fires; if not, the race
    rejects at the timer's instant, and what [m] did stays done. *)
Definition race_timeout {A} (ms : Z) (err : JsError) (m : M A) : M A :=
  λ w, match m w with
       | (r, w') =>
           if bool_decide (clock w' - clock w < ms) then (r, w')
           else (Throw err, with_clock (clock w + ms) w')
       end.

(** ** gemini.js *)

Inductive AnalysisResult : Type :=
| Success (data : json)
| Failure (error : string).

Definition incomplete_response : JsError :=
  mkError "Gemini response was incomplete - try again".

Definition malformed_response : JsError :=
  mkError "Invalid AI response format - could not parse JSON".

(** [operation.includes('text') ? 'text' : ...] *)
Definition operationTypeOf (operation : string) : string :=
  if JsString.includes "text" operation then "text"
  else if JsString.includes "voice" operation then "voice"
  else if JsString.includes "weekly" operation then "weekly"
  else "other".

(** [[...currentLogs.slice(-99), newLog]] *)
Definition append_log (currentLogs : ApiLogs) (newLog : ApiLog) : M (list ApiLog) :=
  match currentLogs with
  | LogsArray logs => ret (drop (length logs - 99)%nat logs ++ [newLog])
  | LogsNotArray => throw (mkError "currentLogs.slice is not a function")
  end.

(** The fields the background analysis writes on success and on failure. *)
Definition completed_fields (insight primary secondary intensity theme : json)
    (doc : Reflection) : Reflection :=
  {| date := date doc; transcript := transcript doc; createdAt := createdAt doc;
     inputType := inputType doc;
     analysisStatus := Some completed;
     dailyInsight := Some insight;
     primaryEmotion := Some primary;
     secondaryEmotion := Some secondary;
     emotionalIntensity := Some intensity;
     theme := Some theme;
     analysisError := analysisError doc |}.

Definition failed_fields (error : string) (doc : Reflection) : Reflection :=
  {| date := date doc; transcript := transcript doc; createdAt := createdAt doc;
     inputType := inputType doc;
     analysisStatus := Some failed;
     dailyInsight := dailyInsight doc;
     primaryEmotion := primaryEmotion doc;
     secondaryEmotion := secondaryEmotion doc;
     emotionalIntensity := emotionalIntensity doc;
     theme := theme doc;
     analysisError := Some error |}.

Definition summarize (r : string * Reflection) : Summary :=
  mkSummary (date r.2) (primaryEmotion r.2) (secondaryEmotion r.2) (theme r.2)
    (emotionalIntensity r.2).

Section Gemini.
Context `{Platform}.

(** The Usage Recorder. *)
Definition incrementAPICount (userId : option string) (operation details : string)
  : M unit :=
  if negb (truthy userId) then ret tt
  else
    let userId := or_else userId "" in
    try_catch
      (userDoc ← user_get userId;
       let userData := default no_fields userDoc in
       let currentCount := default 0 (apiRequestCount userData) in
       let currentLogs := default (LogsArray []) (apiLogs userData) in
       let byDate := from_option byDate ∅ (apiUsage userData) in
       let byType := from_option byType ∅ (apiUsage userData) in
       now ← dateNow;
       let today := isoDate now in
       let operationType := operationTypeOf operation in
       let newLog := mkApiLog now operation details in
       updatedLogs ← append_log currentLogs newLog;
       user_set_merge userId
         (usage_fields (currentCount + 1) updatedLogs
            (mkApiUsage
               (<[today := default 0 (byDate !! today) + 1]> byDate)
               (<[operationType := default 0 (byType !! operationType) + 1]> byType)
               now));;
       console_log (ApiCount (currentCount + 1) operation operationType))
      (λ err, console_log (RecorderFailed (message err))).

(** The Analysis Client. *)
Definition callGemini (prompt : Prompt) (userId : option string)
    (operation details : string) : M json :=
  (if truthy userId then incrementAPICount userId operation details else ret tt);;
  text ← generateContent prompt;
  console_log (RawResponse text);;
  let jsonStr := extract_json text in
  match JSON_parse jsonStr with
  | Parsed parsed =>
      console_log (ParsedJson parsed);;
      ret parsed
  | SyntaxError msg =>
      console_log (JsonParseError text jsonStr msg);;
      if JsString.includes "Unterminated" msg || JsString.includes "Unexpected end" msg
      then throw incomplete_response
      else throw malformed_response
  end.

Definition analyzeTextReflection (textInput : string) (userId : option string)
  : M AnalysisResult :=
  try_catch
    (data ← callGemini (TextPrompt textInput) userId "text-analysis" "Daily text reflection";
     ret (Success data))
    (λ error,
       console_log (TextAnalysisError (message error));;
       ret (Failure (message error))).

Definition analyzeTranscriptBackground (userId docId transcript : string)
  : M AnalysisResult :=
  console_log (BackgroundStarting userId docId);;
  try_catch
    (data ← callGemini (TranscriptPrompt transcript) (Some userId) "voice-analysis"
              "Voice transcript analysis";
     insight ← prop data "dailyInsight";
     primary ← prop data "primaryEmotion";
     secondary ← prop data "secondaryEmotion";
     intensity ← prop data "emotionalIntensity";
     theme ← prop data "theme";
     insight ← firestore_value "dailyInsight" insight;
     primary ← firestore_value "primaryEmotion" primary;
     secondary ← firestore_value "secondaryEmotion" secondary;
     intensity ← firestore_value "emotionalIntensity" intensity;
     theme ← firestore_value "theme" theme;
     reflection_update userId docId
       (completed_fields insight primary secondary intensity theme);;
     console_log (BackgroundCompleted docId);;
     ret (Success data))
    (λ error,
       console_log (BackgroundFailed docId (message error));;
       try_catch
         (reflection_update userId docId (failed_fields (message error)))
         (λ updateError, console_log (BackgroundStatusUpdateFailed updateError));;
       ret (Failure (message error))).

Definition analyzeWeeklyPatterns (reflections : list (string * Reflection))
    (userId : option string) : M AnalysisResult :=
  if bool_decide (length reflections < 3)%nat then
    ret (Failure "Not enough reflections for weekly analysis")
  else
    let summary := List.map summarize reflections in
    try_catch
      (data ← callGemini (WeeklyPrompt summary) userId "weekly-analysis"
                "Weekly pattern analysis";
       ret (Success data))
      (λ error,
         console_log (WeeklyAnalysisError (message error));;
         ret (Failure (message error))).

End Gemini.

(** ** Requests and responses *)

(** [req.body]: the fields the routes read, each absent or a string. *)
Module Body.
Record t : Type := make {
  userId : option string;
  userName : option string;
  userEmail : option string;
  date : option string;
  transcript : option string;
  textInput : option string
}.
End Body.

(** The body of [POST /analyze-weekly]'s answer; a field of type [option]
    may be left out. *)
Record WeeklyAnswer : Type := mkWeeklyAnswer {
  hasEnoughData : bool;
  answerReflectionCount : option nat;
  answerAnalysis : option json;
  answerMessage : option string;
  cached : option bool
}.

Inductive ResponseBody : Type :=
(** [{ success: false, error }] *)
| ErrorBody (error : string)
(** [{ success: true, reflection: { id, userId, ...reflectionData } }] *)
| ReflectionBody (id userId : string) (reflectionData : Reflection)
(** [{ success: true, analysis: { id, userId, ...reflectionData } }] *)
| AnalysisBody (id userId : string) (reflectionData : Reflection)
(** [{ success: true, hasEnoughData, ... }] *)
| WeeklyBody (answer : WeeklyAnswer)
(** [{ success: true, found: false, message }] *)
| NotFoundBody
(** [{ success: true, found: true, reflection: { id, ...doc.data() } }] *)
| FoundBody (id : string) (doc : Reflection).

Record Response : Type := respond {
  status : nat;
  body : ResponseBody
}.

(** ** The Synthetic Fallback Generator (routes/analysis.js) *)

Definition emotionsOf (reflections : list (string * Reflection)) : list json :=
  List.filter json_truthy
    (List.map (λ r, jsval_or (primaryEmotion r.2) (JStr "neutral")) reflections).

Definition themesOf (reflections : list (string * Reflection)) : list json :=
  List.filter json_truthy
    (List.map (λ r, jsval_or (theme r.2) (JStr "self")) reflections).

(** [list.length ? list : [d]] *)
Definition or_single (l : list string) (d : string) : list string :=
  match l with
  | [] => [d]
  | _ => l
  end.

(** [s || d] *)
Definition string_or (s d : string) : string :=
  if String.eqb s "" then d else s.

Definition weeklyInsightOf (count : nat) (sortedThemes : list string) : string :=
  "This week you've reflected " +:+ pretty count +:+ " times, exploring themes of "
  +:+ string_or (JsString.join " and " sortedThemes) "personal growth" +:+ ".".

Definition syntheticAnalysis (reflections : list (string * Reflection)) : AnalysisResult :=
  let emotions := emotionsOf reflections in
  let themes := themesOf reflections in
  let emotionCounts := countOccurrences emotions in
  let themeCounts := countOccurrences themes in
  let sortedEmotions := topTwo emotionCounts in
  let sortedThemes := topTwo themeCounts in
  Success
    (JObj
       [("dominantEmotions", JArr (List.map JStr (or_single sortedEmotions "neutral")));
        ("dominantThemes", JArr (List.map JStr (or_single sortedThemes "self")));
        ("emotionalPattern",
         JStr "Your reflections show a consistent pattern of self-awareness.");
        ("weeklyInsight", JStr (weeklyInsightOf (length reflections) sortedThemes));
        ("reflectiveQuestion",
         JStr "What would you like to explore more deeply in your next reflection?")]).

(** ** routes/analysis.js *)

(** 24 hours, in milliseconds. *)
Definition CACHE_DURATION : Z := 24 * 60 * 60 * 1000.

(** 15 seconds, in milliseconds. *)
Definition GEMINI_TIMEOUT : Z := 15000.

(** [userData?.weeklyAnalysisCache], when it is an entry. *)
Definition cache_of (userData : option UserDoc) : option CacheEntry :=
  match userData with
  | Some data =>
      match weeklyAnalysisCache data with
      | Some (Some entry) => Some entry
      | _ => None
      end
  | None => None
  end.

Module Analysis.
Section Routes.
Context `{Platform}.

(** What the promise [analyzeTranscriptBackground(...).then(...).catch(...)]
    does once it runs. *)
Definition run_background (t : Task) : M unit :=
  match t with
  | TranscriptAnalysis userId docId transcript =>
      try_catch
        (result ← analyzeTranscriptBackground userId docId transcript;
         match result with
         | Success _ =>
             console_log (AnalysisCompleted docId);;
             not_awaited (user_set_merge userId (cache_field None))
         | Failure error => console_log (AnalysisFailed docId error)
         end)
        (λ err, console_log (BackgroundAnalysisError docId err))
  end.

(** [POST /api/save-transcript] *)
Definition save_transcript (body : Body.t) : M Response :=
  try_catch
    (console_log SaveTranscriptReqBody;;
     if negb (truthy (Body.userId body)) || negb (truthy (Body.transcript body)) then
       ret (respond 400 (ErrorBody "userId and transcript are required"))
     else
       let userId := or_else (Body.userId body) "" in
       let transcript := or_else (Body.transcript body) "" in
       today ← dateNow;
       let dateStr := or_else (Body.date body) (isoDate today) in
       now ← dateNow;
       let timeStr := JsString.replaceAll ":" "-" (timeOfDay now) in
       let docId := dateStr +:+ "_" +:+ timeStr in
       let reflectionData :=
         {| date := dateStr;
            transcript := JStr (JsString.trim transcript);
            createdAt := now;
            inputType := "voice";
            analysisStatus := Some pending;
            dailyInsight := None; primaryEmotion := None; secondaryEmotion := None;
            emotionalIntensity := None; theme := None; analysisError := None |} in
       user_set_merge userId
         (profile_fields (or_else (Body.userName body) "Anonymous")
            (or_else (Body.userEmail body) "") now);;
       reflection_set userId docId reflectionData;;
       console_log (TranscriptSaved docId);;
       start_background (TranscriptAnalysis userId docId (JsString.trim transcript));;
       ret (respond 200 (ReflectionBody docId userId reflectionData)))
    (λ error,
       console_log (SaveTranscriptRouteError error);;
       ret (respond 500 (ErrorBody "Failed to save transcript"))).

(** [POST /api/analyze-daily] *)
Definition analyze_daily (body : Body.t) : M Response :=
  try_catch
    (console_log DailyReqBody;;
     if negb (truthy (Body.userId body)) || negb (truthy (Body.textInput body)) then
       ret (respond 400 (ErrorBody "userId and textInput are required"))
     else
       let userId := or_else (Body.userId body) "" in
       let textInput := or_else (Body.textInput body) "" in
       today ← dateNow;
       let dateStr := or_else (Body.date body) (isoDate today) in
       analysis ← analyzeTextReflection textInput (Some userId);
       match analysis with
       | Failure error => ret (respond 500 (ErrorBody error))
       | Success data =>
           now ← dateNow;
           let timeStr := JsString.replaceAll ":" "-" (timeOfDay now) in
           let docId := dateStr +:+ "_" +:+ timeStr in
           transcript ← prop data "transcript";
           primary ← prop data "primaryEmotion";
           secondary ← prop data "secondaryEmotion";
           theme ← prop data "theme";
           intensity ← prop data "emotionalIntensity";
           insight ← prop data "dailyInsight";
           user_set_merge userId
             (profile_fields (or_else (Body.userName body) "Anonymous")
                (or_else (Body.userEmail body) "") now);;
           transcript ← firestore_value "transcript" transcript;
           primary ← firestore_value "primaryEmotion" primary;
           secondary ← firestore_value "secondaryEmotion" secondary;
           theme ← firestore_value "theme" theme;
           intensity ← firestore_value "emotionalIntensity" intensity;
           insight ← firestore_value "dailyInsight" insight;
           let reflectionData :=
             {| date := dateStr;
                transcript := transcript;
                primaryEmotion := Some primary;
                secondaryEmotion := Some secondary;
                theme := Some theme;
                emotionalIntensity := Some intensity;
                dailyInsight := Some insight;
                createdAt := now;
                inputType := "text";
                analysisStatus := None; analysisError := None |} in
           reflection_set userId docId reflectionData;;
           user_set_merge userId (cache_field None);;
           ret (respond 200 (AnalysisBody docId userId reflectionData))
       end)
    (λ error,
       console_log (DailyAnalysisRouteError error);;
       ret (respond 500 (ErrorBody "Failed to analyze reflection"))).

(** The timeout of the weekly analysis and its fallback. *)
Definition analyze_with_fallback (reflections : list (string * Reflection))
    (userId : string) : M AnalysisResult :=
  try_catch
    (race_timeout GEMINI_TIMEOUT (mkError "Gemini timeout")
       (analyzeWeeklyPatterns reflections (Some userId)))
    (λ timeoutErr,
       console_log GeminiTimeoutSynthetic;;
       ret (syntheticAnalysis reflections)).

(** The weekly route after the cache check: the analysis is generated
    afresh and cached. *)
Definition generate_weekly (userId : string) : M Response :=
  console_log GeneratingFresh;;
  reflections ← reflections_recent userId 7;
  match reflections with
  | [] =>
      ret (respond 200
             (WeeklyBody
                (mkWeeklyAnswer false None None (Some "Not enough reflections") None)))
  | _ =>
      if bool_decide (length reflections < 3)%nat then
        ret (respond 200
               (WeeklyBody
                  (mkWeeklyAnswer false (Some (length reflections)) None None None)))
      else
        analysis ← analyze_with_fallback reflections userId;
        match analysis with
        | Failure error => ret (respond 500 (ErrorBody error))
        | Success data =>
            now ← dateNow;
            user_set_merge userId
              (cache_field (Some (mkCacheEntry now (length reflections) data)));;
            console_log CachedNew;;
            ret (respond 200
                   (WeeklyBody
                      (mkWeeklyAnswer true (Some (length reflections)) (Some data)
                         None None)))
        end
  end.

(** [POST /api/analyze-weekly] *)
Definition analyze_weekly (body : Body.t) : M Response :=
  try_catch
    (if negb (truthy (Body.userId body)) then
       ret (respond 400 (ErrorBody "User ID is required"))
     else
       let userId := or_else (Body.userId body) "" in
       userData ← user_get userId;
       now ← dateNow;
       match cache_of userData with
       | Some entry =>
           let cacheAge := now - timestamp entry in
           if bool_decide (cacheAge < CACHE_DURATION) then
             console_log (CachedWeekly (cacheAge / 60000));;
             ret (respond 200
                    (WeeklyBody
                       (mkWeeklyAnswer true (Some (reflectionCount entry))
                          (Some (analysis entry)) None None)))
           else generate_weekly userId
       | None => generate_weekly userId
       end)
    (λ error,
       console_log (WeeklyAnalysisRouteError error);;
       ret (respond 500 (ErrorBody "Weekly analysis failed"))).

(** [GET /api/reflection-by-id/:userId/:docId] *)
Definition reflection_by_id (userId docId : string) : M Response :=
  try_catch
    (doc ← reflection_get userId docId;
     match doc with
     | None => ret (respond 200 NotFoundBody)
     | Some data => ret (respond 200 (FoundBody docId data))
     end)
    (λ error,
       console_log (GetReflectionByIdError error);;
       ret (respond 500 (ErrorBody "Failed to fetch reflection"))).

End Routes.
End Analysis.

(** ** routes/analysis_cached.js

    The weekly route as this file has it: the analysis is awaited without
    a timeout, and both answers say whether they come from the cache. *)

Module AnalysisCached.
Section Routes.
Context `{Platform}.

Definition generate_weekly (userId : string) : M Response :=
  console_log GeneratingFresh;;
  reflections ← reflections_recent userId 7;
  match reflections with
  | [] =>
      ret (respond 200
             (WeeklyBody
                (mkWeeklyAnswer false None None (Some "Not enough reflections") None)))
  | _ =>
      if bool_decide (length reflections < 3)%nat then
        ret (respond 200
               (WeeklyBody
                  (mkWeeklyAnswer false (Some (length reflections)) None None None)))
      else
        analysis ← analyzeWeeklyPatterns reflections None;
        match analysis with
        | Failure error => ret (respond 500 (ErrorBody error))
        | Success data =>
            now ← dateNow;
            user_set_merge userId
              (cache_field (Some (mkCacheEntry now (length reflections) data)));;
            console_log CachedNew;;
            ret (respond 200
                   (WeeklyBody
                      (mkWeeklyAnswer true (Some (length reflections)) (Some data)
                         None (Some false))))
        end
  end.

(** [POST /api/analyze-weekly] *)
Definition analyze_weekly (body : Body.t) : M Response :=
  try_catch
    (if negb (truthy (Body.userId body)) then
       ret (respond 400 (ErrorBody "User ID is required"))
     else
       let userId := or_else (Body.userId body) "" in
       userData ← user_get userId;
       now ← dateNow;
       match cache_of userData with
       | Some entry =>
           let cacheAge := now - timestamp entry in
           if bool_decide (cacheAge < CACHE_DURATION) then
             console_log (CachedWeekly (cacheAge / 1000 / 60));;
             ret (respond 200
                    (WeeklyBody
                       (mkWeeklyAnswer true (Some (reflectionCount entry))
                          (Some (analysis entry)) None (Some true))))
           else generate_weekly userId
       | None => generate_weekly userId
       end)
    (λ error,
       console_log (WeeklyAnalysisRouteError error);;
       ret (respond 500 (ErrorBody "Weekly analysis failed"))).

End Routes.
End AnalysisCached.

(** ** The extraction of section 4.1, in the specification's words

    Whether the character [c] occurs in [s], and whether [s] begins with
    it. *)
Fixpoint has_char (c : ascii) (s : string) : bool :=
  match s with
  | EmptyString => false
  | String d s' => Ascii.eqb d c || has_char c s'
  end.

Definition starts_with (c : ascii) (s : string) : bool :=
  match s with
  | String d _ => bool_decide (c = d)
  | EmptyString => false
  end.

(** ** The ranking of section 4.5, in the specification's words

    The labels of a sample are counted; a label ranks before another when
    it occurs more often, or as often and is met first. *)

Fixpoint occurrences (k : string) (labels : list string) : Z :=
  match labels with
  | [] => 0
  | x :: labels' => (if decide (x = k) then 1 else 0) + occurrences k labels'
  end.

(** The position at which [k] is first met. *)
Fixpoint first_index (k : string) (labels : list string) : nat :=
  match labels with
  | [] => O
  | x :: labels' => if decide (x = k) then O else S (first_index k labels')
  end.

Definition ranks_before (labels : list string) (a b : string) : Prop :=
  occurrences b labels < occurrences a labels
  ∨ (occurrences a labels = occurrences b labels
     ∧ (first_index a labels < first_index b labels)%nat).

(** [ranking] lists every label of the sample once, best first. *)
Definition is_ranking (labels ranking : list string) : Prop :=
  NoDup ranking
  ∧ (∀ k, k ∈ ranking ↔ k ∈ labels)
  ∧ StronglySorted (ranks_before labels) ranking.

(** ** The ranking as the counter object gives it

    An object lists the labels it has as property names with the array
    indices first, by ascending value, and the other labels after them as
    they are first met; for equal counts this is the order of the
    ranking.  The label [__proto__] is not counted. *)

Definition listed_before (labels : list string) (a b : string) : Prop :=
  match array_index a, array_index b with
  | Some i, Some j => i < j
  | Some _, None => True
  | None, Some _ => False
  | None, None => (first_index a labels < first_index b labels)%nat
  end.

Definition ranks_before_listed (labels : list string) (a b : string) : Prop :=
  occurrences b labels < occurrences a labels
  ∨ (occurrences a labels = occurrences b labels ∧ listed_before labels a b).

Definition is_listed_ranking (labels ranking : list string) : Prop :=
  NoDup ranking
  ∧ (∀ k, k ∈ ranking ↔ k ∈ labels)
  ∧ StronglySorted (ranks_before_listed labels) ranking.

(** The labels that are counted: every one but [__proto__]. *)
Definition counted (labels : list string) : list string :=
  filter (λ k, k ≠ "__proto__") labels.

(** The label a field of a reflection gives: the field as a text, or the
    default when the field is absent or is [null], [false], a zero, [NaN]
    or the empty string. *)
Definition label_of (default : string) (field : jsval) : string :=
  match field with
  | None | Some JNull | Some (JBool false) | Some (JStr EmptyString)
  | Some (JNum (S754_zero _)) | Some (JNum S754_nan) => default
  | Some v => js_to_string v
  end.

Definition emotionLabels (reflections : list (string * Reflection)) : list string :=
  List.map (λ r, label_of "neutral" (primaryEmotion r.2)) reflections.

Definition themeLabels (reflections : list (string * Reflection)) : list string :=
  List.map (λ r, label_of "self" (theme r.2)) reflections.

(** The counting of [countOccurrences], on the property names. *)
Definition count_labels (labels : list string) : Counter :=
  fold_left counter_add labels [].

(** The names of the counter, as it lists them. *)
Fixpoint key_create (k : string) (keys : list string) : list string :=
  match keys with
  | [] => [k]
  | k' :: keys' => if listed_first k k' then k :: keys else k' :: key_create k keys'
  end.

Definition listed (labels : list string) : list string :=
  fold_left (λ keys k, if decide (k ∈ keys) then keys else key_create k keys) labels [].

(** The order a stable sort by descending key leaves: a larger key first,
    and for equal keys the order of the input. *)
Definition key_then_input {A} (key : A → Z) (R0 : relation A) (a b : A) : Prop :=
  key b < key a ∨ (key a = key b ∧ R0 a b).

(** Where the binary search for [pivot] stops in [l]: before it no key is
    smaller than the pivot's, from it on every key is. *)
Definition search_result {A} (key : A → Z) (pivot : A) (l : list A) (r : nat) : Prop :=
  (r ≤ length l)%nat
  ∧ (∀ i a, (i < r)%nat → l !! i = Some a → key pivot ≤ key a)
  ∧ (∀ i a, (r ≤ i)%nat → l !! i = Some a → key a < key pivot).

(** ** What the properties speak of *)

(** The outcome of [callGemini] for an answer of the service. *)
Definition client_outcome `{Platform} (answer : Reply) : Result json :=
  match answer with
  | ReplyError msg => Throw (mkError msg)
  | ReplyText text =>
      match JSON_parse (extract_json text) with
      | Parsed parsed => Ok parsed
      | SyntaxError msg =>
          if JsString.includes "Unterminated" msg || JsString.includes "Unexpected end" msg
          then Throw incomplete_response
          else Throw malformed_response
      end
  end.

(** What the Usage Recorder leaves as it is. *)
Definition recorder_frame (userId : string) (w w' : World) : Prop :=
  gemini w' = gemini w ∧ generated w' = generated w ∧ clock w' = clock w
  ∧ reflections w' = reflections w ∧ background w' = background w
  ∧ storeFault w' = storeFault w
  ∧ (∀ other, other ≠ userId → users w' !! other = users w !! other)
  ∧ cache_of (users w' !! userId) = cache_of (users w !! userId).

(** What a call of the Analysis Client leaves as it is, but for one more
    prompt and what the recorder wrote. *)
Definition call_frame (userId : string) (prompt : Prompt) (w w' : World) : Prop :=
  gemini w' = gemini w
  ∧ generated w' = generated w ++ [prompt]
  ∧ reflections w' = reflections w ∧ background w' = background w
  ∧ storeFault w' = storeFault w
  ∧ (∀ other, other ≠ userId → users w' !! other = users w !! other)
  ∧ cache_of (users w' !! userId) = cache_of (users w !! userId).

(** How a world moves on: the service and the faults of the store are
    given once and for all; the console, the prompts and the background
    queue grow at their ends; time and the count of store operations do
    not go back. *)
Definition evolves (w w' : World) : Prop :=
  gemini w' = gemini w
  ∧ storeFault w' = storeFault w
  ∧ (∃ l, console w' = console w ++ l)
  ∧ (∃ l, generated w' = generated w ++ l)
  ∧ (∃ l, background w' = background w ++ l)
  ∧ (storeOps w ≤ storeOps w')%nat
  ∧ clock w ≤ clock w'.

(** A computation that takes every world to one related to it by [R]. *)
Definition keeps (R : relation World) {A} (m : M A) : Prop := ∀ w, R w (m w).2.

(** A computation under which every world moves on. *)
Abbreviation steady := (keeps evolves).

(** The reflections are the same. *)
Definition same_reflections (w w' : World) : Prop := reflections w' = reflections w.

(** Every reflection of [w'] is one of [w] or satisfies [P]. *)
Definition adds_only (P : Reflection → Prop) (w w' : World) : Prop :=
  ∀ userId docId doc,
    reflections_of userId w' !! docId = Some doc →
    reflections_of userId w !! docId = Some doc ∨ P doc.

(** The Weekly Cache Entry of a user document, when it is fresh at [now]. *)
Definition fresh_cache (now : Z) (userData : option UserDoc) : option CacheEntry :=
  match cache_of userData with
  | Some entry => if bool_decide (now - timestamp entry < CACHE_DURATION) then Some entry else None
  | None => None
  end.

(** The result of an analysis function for an outcome of the client. *)
Definition analysis_of (outcome : Result json) : AnalysisResult :=
  match outcome with
  | Ok data => Success data
  | Throw error => Failure (message error)
  end.

(** What the weekly route answers when nothing is served from the cache. *)
Definition weekly_answer (reflections : list (string * Reflection))
    (analysis : AnalysisResult) : Response :=
  match reflections with
  | [] =>
      respond 200
        (WeeklyBody (mkWeeklyAnswer false None None (Some "Not enough reflections") None))
  | _ =>
      if bool_decide (length reflections < 3)%nat then
        respond 200
          (WeeklyBody (mkWeeklyAnswer false (Some (length reflections)) None None None))
      else
        match analysis with
        | Failure error => respond 500 (ErrorBody error)
        | Success data =>
            respond 200
              (WeeklyBody
                 (mkWeeklyAnswer true (Some (length reflections)) (Some data) None None))
        end
  end.

(** The shape of a document written by the synchronous text analysis. *)
Definition daily_shape (doc : Reflection) : Prop :=
  analysisStatus doc = None
  ∧ inputType doc = "text"
  ∧ is_Some (primaryEmotion doc)
  ∧ is_Some (secondaryEmotion doc)
  ∧ is_Some (theme doc)
  ∧ is_Some (emotionalIntensity doc)
  ∧ is_Some (dailyInsight doc)
  ∧ analysisError doc = None.

Module Sample.
Definition object_a1 : string := "{" +:+ dquote +:+ "a" +:+ dquote +:+ ":1}".
Definition fenced : string :=
  "```json" +:+ newline +:+ object_a1 +:+ newline +:+ "```".
Definition truncated : string := "{" +:+ dquote +:+ "a" +:+ dquote +:+ ":1".
Definition unterminated : string :=
  "{" +:+ dquote +:+ "a" +:+ dquote +:+ ":" +:+ dquote +:+ "b".

(** A service that answers every call with [text] after 100 ms, one that
    fails, and one that answers after 20 s. *)
Definition answering (text : string) : nat → Prompt → GeminiOutcome :=
  λ _ _, mkOutcome 100 (ReplyText text).
Definition failing (msg : string) : nat → Prompt → GeminiOutcome :=
  λ _ _, mkOutcome 100 (ReplyError msg).
Definition slow (text : string) : nat → Prompt → GeminiOutcome :=
  λ _ _, mkOutcome 20000 (ReplyText text).

(** A store that never fails, and one that fails every operation. *)
Definition reliable : nat → bool := λ _, false.
Definition unavailable : nat → bool := λ _, true.

(** 2026-01-18T11:30:45Z *)
Definition noon : Z := 1768735845000.

Definition world (users : gmap string UserDoc)
    (reflections : gmap string (gmap string Reflection))
    (gemini : nat → Prompt → GeminiOutcome) (storeFault : nat → bool) : World :=
  mkWorld users reflections noon gemini [] storeFault O [] [].

Definition reflection (createdAt : Z) (emotion theme : option json) : Reflection :=
  mkReflection "2026-01-18" (JStr "a day") createdAt "voice" (Some completed)
    None emotion None None theme None.

(** Three reflections of user [u1]. *)
Definition three : gmap string (gmap string Reflection) :=
  {[ "u1" :=
     {[ "2026-01-16_09-00-00" := reflection 1768554000000 (Some (JStr "sad")) None;
        "2026-01-17_09-00-00" := reflection 1768640400000 (Some (JStr "calm"))
                                   (Some (JStr "work"));
        "2026-01-18_09-00-00" := reflection 1768726800000 (Some (JStr "calm"))
                                   (Some (JStr "work")) ]} ]}.

(** Two of them. *)
Definition two : gmap string (gmap string Reflection) :=
  {[ "u1" :=
     {[ "2026-01-16_09-00-00" := reflection 1768554000000 (Some (JStr "sad")) None;
        "2026-01-17_09-00-00" := reflection 1768640400000 (Some (JStr "calm"))
                                   (Some (JStr "work")) ]} ]}.

(** User [u1] with a Weekly Cache Entry written at [noon]. *)
Definition cached_entry : CacheEntry :=
  mkCacheEntry noon 3 (JObj [("weeklyInsight", JStr "A calm week.")]).
Definition cached_user : gmap string UserDoc :=
  {[ "u1" := cache_field (Some cached_entry) ]}.

Definition weekly_request : Body.t := Body.make (Some "u1") None None None None None.

(** The cache is fresh: written at [noon], read at [noon]. *)
Definition cached_world : World :=
  world cached_user three (answering object_a1) reliable.

(** The cache is stale: read 24 hours after it was written. *)
Definition stale_world : World :=
  with_clock (noon + 24 * 60 * 60 * 1000) cached_world.

(** Nothing is cached; the service answers with a text that is no JSON. *)
Definition garbled_world : World :=
  world ∅ three (answering "I am sorry, I cannot do that.") reliable.

(** Nothing is cached; the service is slow. *)
Definition slow_world : World :=
  world ∅ three (slow object_a1) reliable.

(** Nothing is cached; the user has two reflections. *)
Definition two_world : World :=
  world ∅ two (answering object_a1) reliable.

(** ["k":"v"] *)
Definition field (k v : string) : string :=
  dquote +:+ k +:+ dquote +:+ ":" +:+ dquote +:+ v +:+ dquote.

(** The answer of the service to the analysis of one reflection. *)
Definition analysis_text : string :=
  "{" +:+ field "transcript" "had a hard day"
  +:+ "," +:+ field "dailyInsight" "A heavy day."
  +:+ "," +:+ field "primaryEmotion" "tired"
  +:+ "," +:+ field "secondaryEmotion" "sad"
  +:+ "," +:+ field "emotionalIntensity" "medium"
  +:+ "," +:+ field "theme" "work" +:+ "}".

Definition analysis_data : json :=
  JObj [("transcript", JStr "had a hard day"); ("dailyInsight", JStr "A heavy day.");
        ("primaryEmotion", JStr "tired"); ("secondaryEmotion", JStr "sad");
        ("emotionalIntensity", JStr "medium"); ("theme", JStr "work")].

Definition submit_request : Body.t :=
  Body.make (Some "u1") None None None (Some "  had a hard day ") None.

Definition daily_request : Body.t :=
  Body.make (Some "u1") None None None None (Some "had a hard day").

(** An empty store, and a service that analyses. *)
Definition empty_world : World := world ∅ ∅ (answering analysis_text) reliable.

(** User [u1] with a fresh Weekly Cache Entry and a reflection that waits
    for its analysis. *)
Definition pending_reflection : Reflection :=
  mkReflection "2026-01-18" (JStr "had a hard day") noon "voice" (Some pending)
    None None None None None None.
Definition pending_world : World :=
  world cached_user {[ "u1" := {[ "2026-01-18_11-30-45" := pending_reflection ]} ]}
    (answering analysis_text) reliable.

(** A week with a tie: [sad], [calm], [calm] and an absent emotion;
    [work], an absent theme, [work] and an empty theme. *)
Definition tied : list (string * Reflection) :=
  [("2026-01-15_09-00-00", reflection 1768467600000 (Some (JStr "sad")) (Some (JStr "work")));
   ("2026-01-16_09-00-00", reflection 1768554000000 (Some (JStr "calm")) None);
   ("2026-01-17_09-00-00", reflection 1768640400000 (Some (JStr "calm")) (Some (JStr "work")));
   ("2026-01-18_09-00-00", reflection 1768726800000 None (Some (JStr "")))].

(** A week in which an emotion is named by a numeral. *)
Definition numbered : list (string * Reflection) :=
  [("2026-01-16_09-00-00", reflection 1768554000000 (Some (JStr "happy")) None);
   ("2026-01-17_09-00-00", reflection 1768640400000 (Some (JStr "2")) None);
   ("2026-01-18_09-00-00", reflection 1768726800000 (Some (JStr "sad")) None)].
End Sample.

(** ** routes/analysis.js, the routes that read

    What a route writes with [console.error] when it answers 500 is
    returned beside its answer. *)

Inductive ErrorLine : Type :=
| TodayReflectionError (err : JsError)
| GetReflectionError (err : JsError)
| GetUserStatsError (err : JsError).

(** The order of a query that names none: by document name. *)
Definition by_name (a b : string * Reflection) : Prop := String.le a.1 b.1.

#[global] Instance by_name_dec : RelDecision by_name.
Proof. intros a b. unfold by_name. apply _. Defined.

Definition query_by_date (day : string) (limit : nat) (docs : gmap string Reflection)
  : list (string * Reflection) :=
  take limit (filter (λ r, date r.2 = day) (merge_sort by_name (map_to_list docs))).

(** [userRef.collection("reflections").where("date", "==", day).limit(n).get()] *)
Definition reflections_where_date (userId day : string) (limit : nat)
  : M (list (string * Reflection)) :=
  store_op (λ w, (Ok (query_by_date day limit (reflections_of userId w)), w)).

Inductive ReadBody : Type :=
(** [{ success: true, hasReflection: false, message }] *)
| TodayNone
(** [{ success: true, hasReflection: true, reflection: { id, ...doc.data() } }] *)
| TodayFound (id : string) (doc : Reflection)
(** [{ success: true, stats: { apiRequestCount, apiLogs, apiUsage } }] *)
| StatsBody (count : Z) (logs : ApiLogs) (usageByDate usageByType : gmap string Z)
    (usageLastUpdated : option Z)
(** [{ success: false, error }] *)
| ReadError (error : string).

Record ReadResponse : Type := respondRead {
  readStatus : nat;
  readBody : ReadBody
}.

Module Reading.
Section Routes.
Context `{Platform}.

(** [GET /api/today-reflection/:userId] *)
Definition today_reflection (userId : string) : M (ReadResponse * list ErrorLine) :=
  try_catch
    (now ← dateNow;
     let today := isoDate now in
     docs ← reflections_where_date userId today 1;
     match docs with
     | [] => ret (respondRead 200 TodayNone, [])
     | (id, doc) :: _ => ret (respondRead 200 (TodayFound id doc), [])
     end)
    (λ error,
       ret (respondRead 500 (ReadError "Failed to fetch today's reflection"),
            [TodayReflectionError error])).

(** [GET /api/reflection/:userId/:date] *)
Definition reflection_by_date (userId day : string) : M (Response * list ErrorLine) :=
  try_catch
    (docs ← reflections_where_date userId day 1;
     match docs with
     | [] => ret (respond 200 NotFoundBody, [])
     | (id, doc) :: _ => ret (respond 200 (FoundBody id doc), [])
     end)
    (λ error,
       ret (respond 500 (ErrorBody "Failed to fetch reflection"), [GetReflectionError error])).

(** [GET /api/user-stats/:userId] *)
Definition user_stats (userId : string) : M (ReadResponse * list ErrorLine) :=
  try_catch
    (userDoc ← user_get userId;
     match userDoc with
     | None => ret (respondRead 200 (StatsBody 0 (LogsArray []) ∅ ∅ None), [])
     | Some userData =>
         ret (respondRead 200
                (StatsBody (default 0 (apiRequestCount userData))
                   (default (LogsArray []) (apiLogs userData))
                   (from_option byDate ∅ (apiUsage userData))
                   (from_option byType ∅ (apiUsage userData))
                   (lastUpdated <$> apiUsage userData)),
              [])
     end)
    (λ error,
       ret (respondRead 500 (ReadError "Failed to fetch user stats"),
            [GetUserStatsError error])).

End Routes.
End Reading.

(** ** server.js: the origins the server answers *)

Module Server.

(** [\d] *)
Definition is_digit (c : ascii) : bool :=
  (48 <=? Ascii.N_of_ascii c)%N && (Ascii.N_of_ascii c <=? 57)%N.

Fixpoint all_digits (s : string) : bool :=
  match s with
  | EmptyString => true
  | String c s' => is_digit c && all_digits s'
  end.

(** What follows the prefix [p] in [s], when [s] begins with [p]. *)
Fixpoint after_prefix (p s : string) : option string :=
  match p, s with
  | EmptyString, _ => Some s
  | String a p', String b s' => if Ascii.eqb a b then after_prefix p' s' else None
  | String _ _, EmptyString => None
  end.

(** [/^http:\/\/localhost:\d+$/.test(origin)] *)
Definition is_localhost (origin : string) : bool :=
  match after_prefix "http://localhost:" origin with
  | Some port => negb (String.eqb port "") && all_digits port
  | None => false
  end.

(** [[process.env.FRONTEND_URL, 'http://localhost:3000',
    'http://localhost:5173'].filter(Boolean)] *)
Definition allowedOrigins (FRONTEND_URL : option string) : list (option string) :=
  List.filter truthy
    [FRONTEND_URL; Some "http://localhost:3000"; Some "http://localhost:5173"].

(** [callback(null, true)], or [console.error] of the origin and
    [callback(new Error('Not allowed by CORS'))]. *)
Inductive CorsDecision : Type :=
| CorsAllowed
| CorsBlocked (origin : string).

(** [corsOptions.origin] *)
Definition cors_origin (FRONTEND_URL origin : option string) : CorsDecision :=
  if negb (truthy origin) then CorsAllowed
  else
    let origin := or_else origin "" in
    if is_localhost origin then CorsAllowed
    else if bool_decide (Some origin ∈ allowedOrigins FRONTEND_URL) then CorsAllowed
    else CorsBlocked origin.

End Server.

(** ** firebase-admin.js *)

Module FirebaseAdmin.

Record Env : Type := mkEnv {
  FIREBASE_PROJECT_ID : option string;
  FIREBASE_CLIENT_EMAIL : option string;
  FIREBASE_PRIVATE_KEY : option string;
  FIREBASE_STORAGE_BUCKET : option string
}.

(** The argument of [admin.initializeApp]. *)
Record AppOptions : Type := mkAppOptions {
  projectId : string;
  clientEmail : string;
  privateKey : string;
  storageBucket : option string
}.

(** A backslash followed by [n], as a key has its line ends in a variable
    of the environment. *)
Definition escaped_newline : string := String (Ascii.ascii_of_nat 92) "n".

Inductive InitOutcome : Type :=
(** [admin.apps.length] is not zero *)
| AlreadyInitialized
(** [throw new Error('Missing Firebase Admin environment variables')] *)
| MissingVariables
| Initialized (options : AppOptions).

(** The body of the module, [apps] being [admin.apps.length]. *)
Definition initialize (apps : nat) (env : Env) : InitOutcome :=
  if negb (bool_decide (apps = O)) then AlreadyInitialized
  else if negb (truthy (FIREBASE_PROJECT_ID env))
          || negb (truthy (FIREBASE_CLIENT_EMAIL env))
          || negb (truthy (FIREBASE_PRIVATE_KEY env))
  then MissingVariables
  else
    Initialized
      {| projectId := or_else (FIREBASE_PROJECT_ID env) "";
         clientEmail := or_else (FIREBASE_CLIENT_EMAIL env) "";
         privateKey :=
           JsString.replaceAll escaped_newline newline
             (or_else (FIREBASE_PRIVATE_KEY env) "");
         storageBucket := FIREBASE_STORAGE_BUCKET env |}.

End FirebaseAdmin.

(** ** More sample worlds *)

Module Sample2.

(** User [u1] has spoken twice on 2026-01-18, at 09:00:00 and at 11:30:45. *)
Definition morning : Reflection :=
  mkReflection "2026-01-18" (JStr "an early start") 1768726800000 "voice" (Some completed)
    (Some (JStr "A brisk morning.")) (Some (JStr "calm")) (Some (JStr "glad"))
    (Some (JStr "low")) (Some (JStr "work")) None.

Definition day_world : World :=
  Sample.world ∅
    {[ "u1" := {[ "2026-01-18_09-00-00" := morning;
                  "2026-01-18_11-30-45" := Sample.pending_reflection ]} ]}
    (Sample.answering Sample.analysis_text) Sample.reliable.

(** User [u1] has made 150 requests, 7 of them on 2026-01-18. *)
Definition busy_user : UserDoc :=
  mkUserDoc (Some "Ada") (Some "ada@example.org") (Some 0) (Some (Some Sample.cached_entry))
    (Some 150)
    (Some (LogsArray (replicate 150 (mkApiLog 0 "text-analysis" "Daily text reflection"))))
    (Some (mkApiUsage {[ "2026-01-18" := 7; "2026-01-17" := 143 ]} {[ "text" := 150 ]} 0)).

Definition busy_world : World :=
  Sample.world {[ "u1" := busy_user ]} Sample.three
    (Sample.answering Sample.analysis_text) Sample.reliable.

(** The logs of user [u1] are no array. *)
Definition odd_user : UserDoc :=
  mkUserDoc (Some "Ada") None None None (Some 3) (Some LogsNotArray) None.

Definition odd_world : World :=
  Sample.world {[ "u1" := odd_user ]} ∅
    (Sample.answering Sample.analysis_text) Sample.reliable.

(** The reflection of [u1] waits for its analysis, the weekly cache is
    fresh, and the service answers with a text that is no JSON. *)
Definition garbled_pending_world : World :=
  Sample.world Sample.cached_user
    {[ "u1" := {[ "2026-01-18_11-30-45" := Sample.pending_reflection ]} ]}
    (Sample.answering "I am sorry, I cannot do that.") Sample.reliable.

(** User [u1] has three reflections and no cache entry; the service
    answers with the object [{a: 1}]. *)
Definition uncached_world : World :=
  Sample.world ∅ Sample.three (Sample.answering Sample.object_a1) Sample.reliable.

(** An empty store; the service answers with a text that is no JSON,
    or with the object [{a: 1}]. *)
Definition garbled_empty_world : World :=
  Sample.world ∅ ∅ (Sample.answering "I am sorry, I cannot do that.") Sample.reliable.

Definition meagre_world : World :=
  Sample.world ∅ ∅ (Sample.answering Sample.object_a1) Sample.reliable.

End Sample2.

(** ** What the further properties speak of *)

(** A computation that returns in every world. *)
Definition never_throws {A} (m : M A) : Prop := ∀ w, ∃ a w', m w = (Ok a, w').

(** A computation that, where it returns, returns a value with [P]. *)
Definition returns {A} (P : A → Prop) (m : M A) : Prop :=
  ∀ w a w', m w = (Ok a, w') → P a.

(** Of the reflections, at most the document [docId] of [userId] differs,
    and if it does it was there before and has kept what the submit route
    wrote into it. *)
Definition touches_only (userId docId : string) (w w' : World) : Prop :=
  ∀ u d,
    reflections_of u w' !! d = reflections_of u w !! d
    ∨ (u = userId ∧ d = docId
       ∧ ∃ doc doc',
           reflections_of u w !! d = Some doc
           ∧ reflections_of u w' !! d = Some doc'
           ∧ date doc' = date doc ∧ transcript doc' = transcript doc
           ∧ createdAt doc' = createdAt doc ∧ inputType doc' = inputType doc).

(** The weekly cache of every user is as it was. *)
Definition same_caches (w w' : World) : Prop :=
  ∀ userId, cache_of (users w' !! userId) = cache_of (users w !! userId).

(** * Properties *)

(** ** Strings *)

Lemma string_eqb_decide (a b : string) : String.eqb a b = bool_decide (a = b).
Proof.
  destruct (String.eqb_spec a b) as [->|Hne].
  - by rewrite bool_decide_eq_true_2.
  - by rewrite bool_decide_eq_false_2.
Qed.

Lemma string_app_cons (c : ascii) (s t : string) :
  String c s +:+ t = String c (s +:+ t).
Proof. done. Qed.

Lemma string_app_nil (t : string) : "" +:+ t = t.
Proof. done. Qed.

Ltac string_simpl :=
  repeat first [rewrite string_app_cons | rewrite string_app_nil]; simpl.

Section StringProps.
Implicit Types (s t : string) (c d : ascii).

Lemma string_app_assoc s t u : (s +:+ t) +:+ u = s +:+ t +:+ u.
Proof. induction s as [|c s IH]; string_simpl; [done|]. by rewrite IH. Qed.

Lemma string_app_length s t :
  String.length (s +:+ t) = (String.length s + String.length t)%nat.
Proof. induction s as [|c s IH]; string_simpl; [done|]. by rewrite IH. Qed.

Lemma indexOf_from_found c s i0 i :
  JsString.indexOf_from c i0 s = i → i ≠ -1 → 0 ≤ i0 →
  ∃ before rest,
    s = before +:+ String c rest ∧ has_char c before = false
    ∧ i = i0 + Z.of_nat (String.length before).
Proof.
  revert i0. induction s as [|d s IH]; simpl; intros i0 Hi Hfound Hi0; [congruence|].
  destruct (Ascii.eqb_spec d c) as [->|Hne].
  - exists EmptyString, s. simpl. split_and!; [done..|lia].
  - destruct (IH (i0 + 1) Hi Hfound ltac:(lia)) as (before & rest & -> & Hno & ->).
    exists (String d before), rest. simpl. split_and!; [done| |lia].
    rewrite Hno. by destruct (Ascii.eqb_spec d c).
Qed.

Lemma lastIndexOf_from_found c s i0 found j :
  JsString.lastIndexOf_from c i0 found s = j →
  (has_char c s = false ∧ j = found)
  ∨ ∃ before after,
      s = before +:+ String c after ∧ has_char c after = false
      ∧ j = i0 + Z.of_nat (String.length before).
Proof.
  revert i0 found. induction s as [|d s IH]; simpl; intros i0 found Hj; [by left|].
  destruct (IH _ _ Hj) as [[Hno ->]|(before & after & -> & Hno & ->)].
  - destruct (Ascii.eqb_spec d c) as [->|Hne]; simpl.
    + right. exists EmptyString, s. simpl. split_and!; [done..|lia].
    + by left.
  - right. exists (String d before), after. simpl. split_and!; [done..|lia].
Qed.

Lemma substring_app_skip s t n :
  String.substring (String.length s) n (s +:+ t) = String.substring 0 n t.
Proof. induction s as [|c s IH]; simpl; [done|]. apply IH. Qed.

Lemma substring_app_take s t :
  String.substring 0 (String.length s) (s +:+ t) = s.
Proof.
  induction s as [|c s IH]; simpl; [by destruct t|]. by rewrite IH.
Qed.

(** Two ways to cut one string: the shorter head is a head of the longer. *)
Lemma string_app_split s1 t1 s2 t2 :
  s1 +:+ t1 = s2 +:+ t2 → (String.length s1 < String.length s2)%nat →
  ∃ c m, s2 = s1 +:+ String c m ∧ t1 = String c m +:+ t2.
Proof.
  revert s2. induction s1 as [|c s1 IH]; intros [|d s2]; simpl; intros Heq Hlen;
    try lia.
  - exists d, s2. by subst.
  - injection Heq as -> Heq. destruct (IH s2 Heq ltac:(lia)) as (e & m & -> & ->).
    by exists e, m.
Qed.

End StringProps.

(** The text between the first [{] and the last [}], both included. *)
Lemma extract_json_braces (text : string) :
  JsString.indexOf "{" (strip_fences text) ≠ -1 →
  JsString.lastIndexOf "}" (strip_fences text) ≠ -1 →
  JsString.lastIndexOf "}" (strip_fences text) > JsString.indexOf "{" (strip_fences text) →
  ∃ before inner after,
    strip_fences text = before +:+ "{" +:+ inner +:+ "}" +:+ after
    ∧ has_char "{" before = false
    ∧ has_char "}" after = false
    ∧ extract_json text = "{" +:+ inner +:+ "}".
Proof.
  unfold extract_json. generalize (strip_fences text). intros s Hfirst Hlast Horder.
  rewrite !bool_decide_eq_true_2 by done. simpl.
  destruct (indexOf_from_found "{" s 0 _ eq_refl Hfirst ltac:(done))
    as (before & rest & Hs1 & Hbefore & Hi).
  destruct (lastIndexOf_from_found "}" s 0 (-1) _ eq_refl)
    as [[_ Hnone]|(before' & after & Hs2 & Hafter & Hj)];
    [by unfold JsString.lastIndexOf in Hlast|].
  unfold JsString.indexOf, JsString.lastIndexOf in *. rewrite Hi, Hj in *.
  assert (String.length before < String.length before')%nat as Hlt by lia.
  rewrite Hs1 in Hs2.
  destruct (string_app_split _ _ _ _ Hs2 Hlt) as (c & inner & -> & Hrest).
  injection Hrest as <- ->.
  exists before, inner, after. split_and!; [by rewrite Hs1|done..|].
  rewrite Hs1. unfold JsString.substring.
  rewrite !string_app_length. simpl. rewrite !string_app_length. simpl.
  set (n := String.length before). set (k := String.length inner).
  set (a := String.length after).
  replace (Z.to_nat _) with n by lia.
  replace (Z.to_nat _) with (S (k + 1)) by lia.
  subst n. rewrite substring_app_skip. simpl. f_equal.
  replace (k + 1)%nat with (String.length (inner +:+ "}"))
    by (rewrite string_app_length; simpl; lia).
  change (inner +:+ String "}" after) with (inner +:+ "}" +:+ after).
  rewrite <- string_app_assoc. apply substring_app_take.
Qed.

Section Fences.
Implicit Types (s t pat : string) (c d : ascii).

Lemma prefix_cons c pat d s :
  String.prefix (String c pat) (String d s)
  = bool_decide (c = d) && String.prefix pat s.
Proof. simpl. by destruct (Ascii.ascii_dec c d); case_bool_decide. Qed.

Lemma prefix_nil s : String.prefix "" s = true.
Proof. by destruct s. Qed.

Lemma prefix_app pat s t :
  String.prefix pat s = true → String.prefix pat (s +:+ t) = true.
Proof.
  revert s. induction pat as [|c pat IH]; intros s.
  - intros _. apply prefix_nil.
  - destruct s as [|d s]; [done|]. rewrite string_app_cons, !prefix_cons.
    intros [-> ?]%andb_true_iff. by rewrite IH.
Qed.

Lemma includes_cons pat c s :
  JsString.includes pat (String c s)
  = String.prefix pat (String c s) || JsString.includes pat s.
Proof. done. Qed.

Lemma includes_app_l pat s t :
  JsString.includes pat s = true → JsString.includes pat (s +:+ t) = true.
Proof.
  induction s as [|c s IH].
  - simpl. rewrite orb_false_r. intros Hpat. destruct pat; [|done].
    rewrite string_app_nil. destruct t; [done|].
    by rewrite includes_cons, prefix_nil.
  - rewrite string_app_cons, !includes_cons.
    intros [Hpre|Hin]%orb_true_iff.
    + apply (prefix_app _ _ t) in Hpre. rewrite string_app_cons in Hpre.
      by rewrite Hpre.
    + rewrite IH by done. apply orb_true_r.
Qed.

Lemma prefix_split pat s : String.prefix pat s = true → ∃ after, s = pat +:+ after.
Proof.
  revert s. induction pat as [|c pat IH]; intros s Hp.
  - exists s. by rewrite string_app_nil.
  - destruct s as [|d s]; [done|]. rewrite prefix_cons in Hp.
    apply andb_true_iff in Hp as [Hc Hp]. apply bool_decide_eq_true_1 in Hc as ->.
    destruct (IH s Hp) as [after ->]. exists after. by rewrite string_app_cons.
Qed.

Lemma prefix_refl pat : String.prefix pat pat = true.
Proof.
  induction pat as [|c pat IH]; [done|].
  by rewrite prefix_cons, IH, bool_decide_eq_true_2.
Qed.

Lemma includes_prefix pat s : String.prefix pat s = true → JsString.includes pat s = true.
Proof. destruct s; simpl; by intros ->. Qed.

(** [s.includes(pat)] says that [pat] stands somewhere in [s]. *)
Lemma includes_split pat s :
  JsString.includes pat s = true ↔ ∃ before after, s = before +:+ pat +:+ after.
Proof.
  split.
  - induction s as [|c s IH].
    + change (JsString.includes pat "") with (String.prefix pat "" || false).
      rewrite orb_false_r. intros [after Ha]%prefix_split.
      exists "", after. by rewrite string_app_nil.
    + rewrite includes_cons. intros [Hp|Hin]%orb_true_iff.
      * apply prefix_split in Hp as [after ->]. exists "", after. by rewrite string_app_nil.
      * destruct (IH Hin) as (before & after & ->).
        exists (String c before), after. by rewrite string_app_cons.
  - intros (before & after & ->). induction before as [|c before IH].
    + rewrite string_app_nil. apply includes_prefix, prefix_app, prefix_refl.
    + rewrite string_app_cons, includes_cons, IH. apply orb_true_r.
Qed.

Lemma includes_split_false pat s :
  JsString.includes pat s = false ↔ ∀ before after, s ≠ before +:+ pat +:+ after.
Proof.
  rewrite <- not_true_iff_false, includes_split. naive_solver.
Qed.

Lemma includes_trimStart pat s :
  JsString.includes pat (JsString.trimStart s) = true →
  JsString.includes pat s = true.
Proof.
  induction s as [|c s IH]; [done|].
  cbn [JsString.trimStart]. destruct (JsString.is_white_space c); [|done].
  intros Hin. rewrite includes_cons, IH by done. apply orb_true_r.
Qed.

Lemma trimEnd_prefix s : ∃ t, s = JsString.trimEnd s +:+ t.
Proof.
  induction s as [|c s [t IH]]; [by exists ""|].
  cbn [JsString.trimEnd]. destruct (JsString.trimEnd s) as [|d u] eqn:Hend.
  - destruct (JsString.is_white_space c).
    + by exists (String c s).
    + exists t. by rewrite IH at 1.
  - exists t. by rewrite IH at 1.
Qed.

Lemma includes_trim pat s :
  JsString.includes pat (JsString.trim s) = true →
  JsString.includes pat s = true.
Proof.
  unfold JsString.trim. intros Hin. apply includes_trimStart.
  destruct (trimEnd_prefix (JsString.trimStart s)) as [t ->].
  by apply includes_app_l.
Qed.

Lemma replace_fence_start s :
  starts_with "`" (JsString.replace_from "```" "" 0 s) = true →
  starts_with "`" s = true.
Proof.
  destruct s as [|c s]; [done|]. cbn [JsString.replace_from].
  destruct (String.prefix "```" (String c s)) eqn:Hpre.
  - rewrite prefix_cons in Hpre. by apply andb_true_iff in Hpre as [? _].
  - done.
Qed.

Lemma replace_fence_prefix c s :
  String.prefix "```" (String c (JsString.replace_from "```" "" 0 s)) = true →
  String.prefix "```" (String c s) = true.
Proof.
  rewrite !prefix_cons. intros [Hc Hrest]%andb_true_iff. rewrite Hc. simpl.
  destruct s as [|d s]; [done|]. revert Hrest. cbn [JsString.replace_from].
  destruct (String.prefix "```" (String d s)) eqn:Hpre.
  - intros _. rewrite !prefix_cons in Hpre |- *.
    apply andb_true_iff in Hpre as [-> Hpre].
    destruct s as [|e s]; [done|]. rewrite prefix_cons in Hpre |- *.
    apply andb_true_iff in Hpre as [-> _]. by rewrite prefix_nil.
  - rewrite !prefix_cons. intros [-> Hrest]%andb_true_iff. simpl.
    destruct (JsString.replace_from "```" "" 0 s) as [|e u] eqn:Hu; [done|].
    rewrite prefix_cons in Hrest. apply andb_true_iff in Hrest as [He _].
    assert (starts_with "`" s = true) as Hs
      by (apply replace_fence_start; rewrite Hu; done).
    destruct s as [|e' s]; [done|]. rewrite prefix_cons. simpl in Hs.
    by rewrite Hs, prefix_nil.
Qed.

(** No fence is left once the fences are replaced by nothing. *)
Lemma replace_fence_free skip s :
  JsString.includes "```" (JsString.replace_from "```" "" skip s) = false.
Proof.
  revert skip. induction s as [|c s IH]; intros skip; [done|].
  cbn [JsString.replace_from]. destruct skip as [|k]; [|apply IH].
  destruct (String.prefix "```" (String c s)) eqn:Hpre.
  - rewrite string_app_nil. apply IH.
  - rewrite includes_cons, IH, orb_false_r.
    apply not_true_is_false. intros Hpre'.
    apply replace_fence_prefix in Hpre'. congruence.
Qed.

Lemma strip_fences_free (text : string) :
  JsString.includes "```" (strip_fences text) = false.
Proof.
  apply not_true_is_false. intros Hin. apply includes_trim in Hin.
  unfold JsString.replaceAll in Hin. by rewrite replace_fence_free in Hin.
Qed.

End Fences.

Section Slice.
Implicit Types (s t : string) (c d : ascii).

Lemma indexOf_from_app c before rest i0 :
  has_char c before = false →
  JsString.indexOf_from c i0 (before +:+ String c rest)
  = i0 + Z.of_nat (String.length before).
Proof.
  revert i0. induction before as [|d before IH]; intros i0; string_simpl.
  - intros _. rewrite Ascii.eqb_refl. lia.
  - intros [-> Hno]%orb_false_iff. rewrite IH by done. lia.
Qed.

Lemma lastIndexOf_from_absent c s i0 found :
  has_char c s = false → JsString.lastIndexOf_from c i0 found s = found.
Proof.
  revert i0 found. induction s as [|d s IH]; intros i0 found; simpl; [done|].
  intros [-> Hno]%orb_false_iff. by apply IH.
Qed.

Lemma lastIndexOf_from_app c before after i0 found :
  has_char c after = false →
  JsString.lastIndexOf_from c i0 found (before +:+ String c after)
  = i0 + Z.of_nat (String.length before).
Proof.
  intros Hno. revert i0 found.
  induction before as [|d before IH]; intros i0 found; string_simpl.
  - rewrite Ascii.eqb_refl, lastIndexOf_from_absent by done. lia.
  - rewrite IH. lia.
Qed.

(** When the text left by [strip_fences] is cut at its first [{] and at
    its last [}], [extract_json] is the middle part with its braces. *)
Lemma extract_json_slice (text before inner after : string) :
  strip_fences text = before +:+ "{" +:+ inner +:+ "}" +:+ after →
  has_char "{" before = false →
  has_char "}" after = false →
  extract_json text = "{" +:+ inner +:+ "}".
Proof.
  intros Hcut Hbefore Hafter.
  change (strip_fences text
          = before +:+ String "{" (inner +:+ String "}" after)) in Hcut.
  assert (JsString.indexOf "{" (strip_fences text)
          = Z.of_nat (String.length before)) as Hfirst.
  { rewrite Hcut. unfold JsString.indexOf.
    by rewrite (indexOf_from_app "{" before _ 0 Hbefore). }
  assert (JsString.lastIndexOf "}" (strip_fences text)
          = Z.of_nat (String.length before + S (String.length inner))) as Hlast.
  { rewrite Hcut. unfold JsString.lastIndexOf.
    change (before +:+ String "{" (inner +:+ String "}" after))
      with (before +:+ String "{" inner +:+ String "}" after).
    rewrite <- string_app_assoc.
    rewrite (lastIndexOf_from_app "}" _ after 0 (-1) Hafter).
    rewrite string_app_length. simpl. lia. }
  unfold extract_json. cbv zeta. rewrite Hfirst, Hlast.
  rewrite !bool_decide_eq_true_2 by lia. simpl andb. cbv iota.
  rewrite Hcut. unfold JsString.substring.
  rewrite !string_app_length. string_simpl. rewrite !string_app_length. simpl.
  set (n := String.length before). set (k := String.length inner).
  set (a := String.length after).
  replace (Z.to_nat (Z.min _ _)) with n by lia.
  replace (Z.to_nat _) with (S (k + 1)) by lia.
  subst n. rewrite substring_app_skip. simpl. f_equal.
  replace (k + 1)%nat with (String.length (inner +:+ "}"))
    by (rewrite string_app_length; simpl; lia).
  change (inner +:+ String "}" after) with (inner +:+ "}" +:+ after).
  rewrite <- string_app_assoc. apply substring_app_take.
Qed.

End Slice.

(** ** Counting and ranking *)

Section Ranking.
Implicit Types (labels ranking keys : list string) (k : string) (o : Counter).

Lemma occurrences_snoc k labels x :
  occurrences k (labels ++ [x]) = occurrences k labels + (if decide (x = k) then 1 else 0).
Proof. induction labels as [|a labels IH]; simpl; [lia|rewrite IH; lia]. Qed.

Lemma occurrences_not_elem k labels : k ∉ labels → occurrences k labels = 0.
Proof.
  induction labels as [|a labels IH]; simpl; [done|].
  rewrite not_elem_of_cons. intros [? ?]. rewrite decide_False by done. rewrite IH by done. lia.
Qed.

Lemma first_index_app_l k labels more :
  k ∈ labels → first_index k (labels ++ more) = first_index k labels.
Proof.
  induction labels as [|a labels IH]; simpl; [by intros ?%elem_of_nil|].
  intros Hin. case_decide; [done|]. f_equal. apply IH. set_solver.
Qed.

Lemma first_index_lt k labels : k ∈ labels → (first_index k labels < length labels)%nat.
Proof.
  induction labels as [|a labels IH]; simpl; [by intros ?%elem_of_nil|].
  intros Hin. case_decide; [lia|]. apply elem_of_cons in Hin as [->|Hin]; [done|].
  specialize (IH Hin). lia.
Qed.

Lemma first_index_snoc_new k labels :
  k ∉ labels → first_index k (labels ++ [k]) = length labels.
Proof.
  induction labels as [|a labels IH]; simpl.
  - intros _. by rewrite decide_True.
  - rewrite not_elem_of_cons. intros [? ?]. rewrite decide_False by done. by rewrite IH.
Qed.

Lemma first_index_lookup k labels : k ∈ labels → labels !! first_index k labels = Some k.
Proof.
  induction labels as [|a labels IH]; simpl; [by intros ?%elem_of_nil|].
  intros Hin. case_decide as Ha; [by subst|]. simpl. apply IH.
  apply elem_of_cons in Hin as [->|Hin]; done.
Qed.

Lemma first_index_inj a b labels :
  a ∈ labels → b ∈ labels → first_index a labels = first_index b labels → a = b.
Proof.
  intros Ha%first_index_lookup Hb%first_index_lookup Heq. rewrite Heq in Ha. congruence.
Qed.

(** An array index is written in one way. *)
Lemma array_index_Some k i : array_index k = Some i → k = pretty i.
Proof.
  unfold array_index. destruct (bool_decide _ && _) eqn:Hc; [|done].
  intros [= <-]. apply andb_prop in Hc as [Hc _]. by apply bool_decide_eq_true_1 in Hc.
Qed.

Lemma array_index_inj a b i : array_index a = Some i → array_index b = Some i → a = b.
Proof. intros ->%array_index_Some ->%array_index_Some. done. Qed.

#[local] Instance listed_before_trans labels : Transitive (listed_before labels).
Proof.
  intros a b c. unfold listed_before.
  destruct (array_index a), (array_index b), (array_index c); try done; lia.
Qed.

Lemma listed_before_asym labels a b :
  listed_before labels a b → listed_before labels b a → False.
Proof.
  unfold listed_before. destruct (array_index a), (array_index b); try done; lia.
Qed.

Lemma listed_before_total labels a b :
  a ∈ labels → b ∈ labels → a ≠ b →
  listed_before labels a b ∨ listed_before labels b a.
Proof.
  intros Ha Hb Hne. unfold listed_before.
  destruct (array_index a) as [i|] eqn:Hi, (array_index b) as [j|] eqn:Hj; auto.
  - destruct (decide (i = j)) as [->|]; [|lia].
    destruct Hne. by apply (array_index_inj _ _ j).
  - destruct (decide (first_index a labels = first_index b labels)) as [Heq|]; [|lia].
    destruct Hne. by apply (first_index_inj _ _ labels).
Qed.

Lemma listed_before_app labels more a b :
  a ∈ labels → b ∈ labels →
  listed_before (labels ++ more) a b ↔ listed_before labels a b.
Proof.
  intros Ha Hb. unfold listed_before. by rewrite !first_index_app_l.
Qed.

Lemma key_create_Permutation k keys : key_create k keys ≡ₚ k :: keys.
Proof.
  induction keys as [|k' keys IH]; simpl; [done|].
  destruct (listed_first k k'); [done|]. rewrite IH. apply Permutation_swap.
Qed.

Lemma listed_snoc_fold labels x :
  listed (labels ++ [x])
  = if decide (x ∈ listed labels) then listed labels else key_create x (listed labels).
Proof. unfold listed. by rewrite fold_left_app. Qed.

Lemma elem_of_listed labels k : k ∈ listed labels ↔ k ∈ labels.
Proof.
  revert k. induction labels as [|x labels IH] using rev_ind; intros k; [done|].
  rewrite listed_snoc_fold, elem_of_app, list_elem_of_singleton.
  case_decide as Hx.
  - rewrite IH in Hx. rewrite IH. naive_solver.
  - rewrite key_create_Permutation, elem_of_cons, IH. naive_solver.
Qed.

Lemma listed_elem labels k : k ∈ listed labels → k ∈ labels.
Proof. apply elem_of_listed. Qed.

Lemma listed_snoc labels x :
  listed (labels ++ [x])
  = if decide (x ∈ labels) then listed labels else key_create x (listed labels).
Proof.
  rewrite listed_snoc_fold.
  destruct (decide (x ∈ labels)) as [Hin|Hnin].
  - by rewrite decide_True by (by apply elem_of_listed).
  - by rewrite decide_False by (by rewrite elem_of_listed).
Qed.

Lemma NoDup_listed labels : NoDup (listed labels).
Proof.
  induction labels as [|x labels IH] using rev_ind; [constructor|].
  rewrite listed_snoc. case_decide as Hx; [done|].
  rewrite key_create_Permutation. constructor; [by rewrite elem_of_listed|done].
Qed.

Lemma StronglySorted_weaken {A} (R R' : relation A) (l : list A) :
  (∀ a b, a ∈ l → b ∈ l → R a b → R' a b) →
  StronglySorted R l → StronglySorted R' l.
Proof.
  intros Himpl Hs. induction Hs as [|a l Hl IH Ha]; constructor.
  - apply IH. intros x y Hx Hy. apply Himpl; by right.
  - rewrite Forall_forall in Ha |- *. intros b Hb. apply Himpl; [by left|by right|by apply Ha].
Qed.

Lemma key_create_sorted (R : relation string) `{!Transitive R} x keys :
  StronglySorted R keys →
  (∀ k', k' ∈ keys → if listed_first x k' then R x k' else R k' x) →
  StronglySorted R (key_create x keys).
Proof.
  induction 1 as [|k' keys Hs IH Hk']; simpl; intros Hx.
  - repeat constructor.
  - pose proof (Hx k' ltac:(by left)) as Hxk'.
    destruct (listed_first x k').
    + constructor; [by constructor|].
      constructor; [done|]. rewrite Forall_forall in Hk' |- *.
      intros r Hr. by trans k'; [|apply Hk'].
    + constructor.
      * apply IH. intros r Hr. apply Hx. by right.
      * rewrite key_create_Permutation. by constructor.
Qed.

(** The names are listed as an object lists them. *)
Lemma listed_sorted labels : StronglySorted (listed_before labels) (listed labels).
Proof.
  induction labels as [|x labels IH] using rev_ind; [constructor|].
  assert (Hmono : StronglySorted (listed_before (labels ++ [x])) (listed labels)).
  { revert IH. apply StronglySorted_weaken.
    intros a b Ha Hb Hab. apply listed_before_app; [by apply elem_of_listed..|done]. }
  rewrite listed_snoc. case_decide as Hx; [done|].
  apply key_create_sorted; [apply _|done|].
  intros k' Hk'%listed_elem.
  assert (k' ≠ x) as Hne by (by intros ->).
  unfold listed_first, listed_before.
  destruct (array_index x) as [i|] eqn:Hi, (array_index k') as [j|] eqn:Hj; try done.
  - destruct (i <? j) eqn:Hij; [lia|].
    destruct (decide (i = j)) as [->|]; [|lia].
    destruct Hne. by apply (array_index_inj _ _ j).
  - rewrite first_index_app_l, first_index_snoc_new by done. by apply first_index_lt.
Qed.

Section tabulate.
Context {V : Type} (g : string → V).

Lemma property_get_tabulate k (l : list string) :
  property_get k (List.map (λ k', (k', g k')) l)
  = if decide (k ∈ l) then Some (g k) else None.
Proof.
  induction l as [|a l IH]; simpl; [done|].
  destruct (String.eqb_spec a k) as [->|Hne].
  - by rewrite decide_True by set_solver.
  - rewrite IH. destruct (decide (k ∈ l)).
    + by rewrite decide_True by set_solver.
    + by rewrite decide_False by set_solver.
Qed.

Lemma property_update_tabulate k v (l : list string) :
  NoDup l → k ∈ l →
  property_update k v (List.map (λ k', (k', g k')) l)
  = List.map (λ k', (k', if decide (k' = k) then v else g k')) l.
Proof.
  induction 1 as [|a l Ha Hl IH]; simpl; [by intros ?%elem_of_nil|].
  intros Hin. destruct (String.eqb_spec a k) as [->|Hne].
  - rewrite decide_True by done. f_equal.
    apply map_ext_in. intros b Hb%list_elem_of_In.
    rewrite decide_False; [done|]. intros ->. done.
  - rewrite decide_False by done. f_equal. apply IH. set_solver.
Qed.

Lemma property_create_tabulate k (l : list string) :
  property_create k (g k) (List.map (λ k', (k', g k')) l)
  = List.map (λ k', (k', g k')) (key_create k l).
Proof.
  induction l as [|a l IH]; simpl; [done|].
  destruct (listed_first k a); simpl; [done|]. by rewrite IH.
Qed.
End tabulate.

Lemma count_labels_counted labels : count_labels labels = count_labels (counted labels).
Proof.
  unfold count_labels, counted. generalize (@nil (string * CountValue)).
  induction labels as [|x labels IH]; intros acc; simpl; [done|].
  rewrite IH. unfold counter_add at 2.
  destruct (String.eqb_spec x "__proto__") as [->|Hne].
  - by rewrite filter_cons_False by naive_solver.
  - rewrite filter_cons_True by done. simpl. unfold counter_add at 3.
    destruct (String.eqb_spec x "__proto__"); done.
Qed.

Lemma elem_of_counted labels k : k ∈ counted labels ↔ k ∈ labels ∧ k ≠ "__proto__".
Proof. unfold counted. rewrite list_elem_of_filter. naive_solver. Qed.

(** The counter holds, for every label in the order an object lists its
    names, the number of its occurrences. *)
Lemma count_labels_spec labels :
  (∀ k, k ∈ labels → k ∉ prototype_methods ∧ k ≠ "__proto__") →
  count_labels labels
  = List.map (λ k, (k, Count (occurrences k labels))) (listed labels).
Proof.
  induction labels as [|x labels IH] using rev_ind; intros Hplain; [done|].
  unfold count_labels in *. rewrite fold_left_app. simpl.
  rewrite IH by (intros k Hk; apply Hplain; set_solver). clear IH.
  destruct (Hplain x ltac:(set_solver)) as [Hmeth Hproto].
  unfold counter_add. destruct (String.eqb_spec x "__proto__"); [done|].
  unfold property_set, counter_next.
  rewrite property_get_tabulate, listed_snoc.
  destruct (decide (x ∈ labels)) as [Hin|Hnin].
  - rewrite decide_True by (by apply elem_of_listed).
    rewrite property_update_tabulate
      by (by apply NoDup_listed || by apply elem_of_listed).
    apply map_ext. intros k. rewrite occurrences_snoc.
    case_decide; subst; [by rewrite decide_True|].
    rewrite decide_False by done. do 2 f_equal. lia.
  - rewrite decide_False by (by rewrite elem_of_listed).
    rewrite bool_decide_eq_false_2 by done.
    rewrite <- (property_create_tabulate (λ k, Count (occurrences k (labels ++ [x])))).
    f_equal.
    + by rewrite occurrences_snoc, decide_True, occurrences_not_elem.
    + apply map_ext_in. intros k Hk%list_elem_of_In%listed_elem.
      rewrite occurrences_snoc, decide_False; [do 2 f_equal; lia|]. by intros ->.
Qed.

End Ranking.

(** ** The sort *)

Section SortNatural.
Context {A B : Type} (f : A → B) (cmpA : A → A → Z) (cmpB : B → B → Z).
Hypothesis Hcmp : ∀ a b, cmpB (f a) (f b) = cmpA a b.

Lemma run_length_fmap d prev (l : list A) :
  run_length cmpB d (f prev) (f <$> l) = run_length cmpA d prev l.
Proof.
  revert prev. induction l as [|x l IH]; intros prev; simpl; [done|].
  by rewrite Hcmp, IH.
Qed.

Lemma binary_search_fmap p (l : list A) fuel left right :
  binary_search cmpB (f p) (f <$> l) fuel left right
  = binary_search cmpA p l fuel left right.
Proof.
  revert left right. induction fuel as [|fuel IH]; intros left right; simpl; [done|].
  destruct (left <? right)%nat; [|done]. rewrite list_lookup_fmap.
  destruct (l !! _) as [x|]; simpl; [|done]. by rewrite Hcmp, !IH.
Qed.

Lemma binary_insert_fmap (sorted : list A) p :
  binary_insert cmpB (f <$> sorted) (f p) = f <$> binary_insert cmpA sorted p.
Proof.
  unfold binary_insert.
  by rewrite length_fmap, binary_search_fmap, fmap_app, fmap_cons, fmap_take, fmap_drop.
Qed.

Lemma fold_binary_insert_fmap (rest run : list A) :
  fold_left (binary_insert cmpB) (f <$> rest) (f <$> run)
  = f <$> fold_left (binary_insert cmpA) rest run.
Proof.
  revert run. induction rest as [|p rest IH]; intros run; simpl; [done|].
  rewrite binary_insert_fmap. apply IH.
Qed.

Lemma js_sort_fmap (l : list A) : js_sort cmpB (f <$> l) = f <$> js_sort cmpA l.
Proof.
  destruct l as [|x0 [|x1 rest]]; [done..|].
  unfold js_sort. rewrite !fmap_cons, Hcmp, run_length_fmap.
  rewrite <- !fmap_cons, <- fmap_drop, <- fmap_take.
  destruct (cmpA x1 x0 <? 0).
  - rewrite <- fmap_reverse. apply fold_binary_insert_fmap.
  - apply fold_binary_insert_fmap.
Qed.
End SortNatural.

Section SortProps.
Context {A : Type}.

Lemma binary_insert_Permutation (compare : A → A → Z) (sorted : list A) pivot :
  binary_insert compare sorted pivot ≡ₚ pivot :: sorted.
Proof.
  unfold binary_insert. rewrite <- Permutation_middle. by rewrite take_drop.
Qed.

Lemma fold_binary_insert_Permutation (compare : A → A → Z) (rest run : list A) :
  fold_left (binary_insert compare) rest run ≡ₚ run ++ rest.
Proof.
  revert run. induction rest as [|p rest IH]; intros run; simpl.
  - by rewrite app_nil_r.
  - rewrite IH, binary_insert_Permutation. by rewrite <- Permutation_middle.
Qed.

Lemma js_sort_Permutation (compare : A → A → Z) (l : list A) : js_sort compare l ≡ₚ l.
Proof.
  destruct l as [|x0 [|x1 rest]]; [done..|].
  unfold js_sort. rewrite fold_binary_insert_Permutation.
  destruct (compare x1 x0 <? 0); [rewrite reverse_Permutation|]; by rewrite take_drop.
Qed.

Lemma StronglySorted_reverse (R : relation A) (l : list A) :
  StronglySorted R l → StronglySorted (flip R) (reverse l).
Proof.
  induction 1 as [|x l Hl IH Hx]; [constructor|].
  rewrite reverse_cons. apply StronglySorted_app_2; [|done|repeat constructor].
  intros a b Ha ->%list_elem_of_singleton. rewrite elem_of_reverse in Ha.
  rewrite Forall_forall in Hx. by apply Hx.
Qed.

Context (key : A → Z) (R0 : relation A).
Notation compare := (λ a b : A, key b - key a).
Notation RR := (key_then_input key R0).

Lemma key_then_input_le a b : RR a b → key b ≤ key a.
Proof. intros [?|[? _]]; lia. Qed.

Lemma sorted_keys (l : list A) i j a b :
  StronglySorted RR l → (i ≤ j)%nat → l !! i = Some a → l !! j = Some b →
  key b ≤ key a.
Proof.
  intros Hs. revert i j. induction Hs as [|x l Hl IH Hx]; intros i j Hij Hi Hj; [done|].
  destruct i as [|i], j as [|j]; simpl in *; try lia.
  - injection Hi as <-. injection Hj as <-. lia.
  - injection Hi as <-. apply key_then_input_le.
    rewrite Forall_forall in Hx. apply Hx. by eapply list_elem_of_lookup_2.
  - apply (IH i j); [lia|done..].
Qed.

Lemma binary_search_S (cmp : A → A → Z) pivot (l : list A) fuel left right :
  binary_search cmp pivot l (S fuel) left right
  = if (left <? right)%nat then
      match l !! (left + (right - left) / 2)%nat with
      | Some x =>
          if cmp pivot x <? 0 then binary_search cmp pivot l fuel left (left + (right - left) / 2)
          else binary_search cmp pivot l fuel (S (left + (right - left) / 2)) right
      | None => left
      end
    else left.
Proof. done. Qed.

Lemma binary_search_spec pivot (l : list A) :
  StronglySorted RR l →
  ∀ fuel left right,
    (left ≤ right)%nat → (right ≤ length l)%nat → (right - left ≤ fuel)%nat →
    (∀ i a, (i < left)%nat → l !! i = Some a → key pivot ≤ key a) →
    (∀ i a, (right ≤ i)%nat → l !! i = Some a → key a < key pivot) →
    search_result key pivot l (binary_search compare pivot l fuel left right).
Proof.
  intros Hs. induction fuel as [|fuel IH]; intros left right Hlr Hrl Hfuel Hlo Hhi.
  - simpl. split_and!; [lia|done|]. intros i a Hi. apply Hhi. lia.
  - rewrite binary_search_S. destruct (left <? right)%nat eqn:Hlt.
    2:{ apply Nat.ltb_ge in Hlt. split_and!; [lia|done|]. intros i a Hi. apply Hhi. lia. }
    apply Nat.ltb_lt in Hlt.
    assert ((right - left) / 2 < right - left)%nat as Hhalf
      by (apply Nat.div_lt; lia).
    set (mid := (left + (right - left) / 2)%nat) in *.
    destruct (l !! mid) as [x|] eqn:Hx.
    2:{ apply lookup_ge_None in Hx. lia. }
    destruct (key x - key pivot <? 0) eqn:Hc.
    + apply Z.ltb_lt in Hc. apply IH; [lia..|done|].
      intros i a Hi Ha. pose proof (sorted_keys l mid i x a Hs Hi Hx Ha). lia.
    + apply Z.ltb_ge in Hc. apply IH; [lia..| |done].
      intros i a Hi Ha.
      pose proof (sorted_keys l i mid a x Hs ltac:(lia) Ha Hx). lia.
Qed.

Lemma binary_insert_sorted (sorted : list A) pivot :
  StronglySorted RR sorted → Forall (λ x, R0 x pivot) sorted →
  StronglySorted RR (binary_insert compare sorted pivot).
Proof.
  intros Hs Hbefore. unfold binary_insert.
  destruct (binary_search_spec pivot sorted Hs (length sorted) 0 (length sorted))
    as (Hr & Hlo & Hhi); [lia..| | |].
  { intros i a Hi. lia. }
  { intros i a Hi Ha%lookup_lt_Some. lia. }
  set (r := binary_search _ _ _ _ _ _) in *.
  pose proof Hs as Hsplit. rewrite <- (take_drop r sorted) in Hsplit.
  apply StronglySorted_app_2.
  - intros a b [i [Ha Hi]%lookup_take_Some]%list_elem_of_lookup_1 Hb.
    apply elem_of_cons in Hb as [->|Hb].
    + rewrite Forall_forall in Hbefore.
      pose proof (Hlo i a Hi Ha) as Hle.
      assert (R0 a pivot) by (apply Hbefore; by eapply list_elem_of_lookup_2).
      unfold key_then_input. destruct (decide (key a = key pivot)); [by right|left; lia].
    + apply (StronglySorted_app_1_elem_of _ _ _ _ _ Hsplit); [|done].
      apply list_elem_of_lookup_2 with i. by apply lookup_take_Some.
  - by apply StronglySorted_app_1_l in Hsplit.
  - constructor; [by apply StronglySorted_app_1_r in Hsplit|].
    apply Forall_forall. intros a [i Ha]%list_elem_of_lookup_1.
    rewrite lookup_drop in Ha. left. apply (Hhi (r + i)%nat); [lia|done].
Qed.

Lemma fold_binary_insert_sorted (rest : list A) :
  ∀ run,
    StronglySorted RR run → StronglySorted R0 rest →
    (∀ x y, x ∈ run → y ∈ rest → R0 x y) →
    StronglySorted RR (fold_left (binary_insert compare) rest run).
Proof.
  induction rest as [|p rest IH]; intros run Hrun Hrest Hcross; simpl; [done|].
  apply StronglySorted_inv in Hrest as [Hrest Hp].
  apply IH; [|done|].
  - apply binary_insert_sorted; [done|].
    apply Forall_forall. intros x Hx. apply Hcross; [done|by left].
  - intros x y Hx Hy. rewrite binary_insert_Permutation in Hx.
    apply elem_of_cons in Hx as [->|Hx].
    + rewrite Forall_forall in Hp. by apply Hp.
    + apply Hcross; [done|by right].
Qed.

Lemma run_ascending prev (l : list A) :
  StronglySorted R0 (prev :: l) →
  StronglySorted RR (prev :: take (run_length compare false prev l) l).
Proof.
  revert prev. induction l as [|cur l IH]; intros prev Hs; simpl.
  { repeat constructor. }
  destruct (0 <=? key prev - key cur) eqn:Hc; simpl; [|repeat constructor].
  apply Z.leb_le in Hc.
  apply StronglySorted_inv in Hs as [Hs Hprev].
  specialize (IH cur Hs). constructor; [done|].
  apply StronglySorted_inv in IH as [_ Hcur].
  rewrite Forall_forall in Hprev, Hcur |- *.
  intros y Hy. assert (R0 prev y) as Hy0.
  { apply Hprev. apply elem_of_cons in Hy as [->|Hy]; [by left|right].
    by eapply subseteq_take. }
  assert (key y ≤ key prev).
  { apply elem_of_cons in Hy as [->|Hy]; [lia|].
    pose proof (key_then_input_le _ _ (Hcur y Hy)). lia. }
  unfold key_then_input. destruct (decide (key prev = key y)); [by right|left; lia].
Qed.

Lemma run_descending prev (l : list A) :
  StronglySorted (λ a b, key a < key b)
    (prev :: take (run_length compare true prev l) l).
Proof.
  revert prev. induction l as [|cur l IH]; intros prev; simpl.
  { repeat constructor. }
  destruct (key prev - key cur <? 0) eqn:Hc; simpl; [|repeat constructor].
  apply Z.ltb_lt in Hc. specialize (IH cur). constructor; [done|].
  apply StronglySorted_inv in IH as [_ Hcur].
  rewrite Forall_forall in Hcur |- *.
  intros y [->|Hy]%elem_of_cons; [lia|]. specialize (Hcur y Hy). simpl in Hcur. lia.
Qed.

(** For a comparison by a key, the sort is the stable sort by descending
    key. *)
Lemma js_sort_sorted (l : list A) :
  StronglySorted R0 l → StronglySorted RR (js_sort compare l).
Proof.
  destruct l as [|x0 [|x1 rest]]; intros Hs; [constructor|repeat constructor|].
  unfold js_sort.
  set (descending := key x0 - key x1 <? 0).
  assert (S (run_length compare descending x1 rest)
          = run_length compare descending x0 (x1 :: rest)) as ->.
  { simpl. fold descending. destruct descending eqn:Hd; [done|].
    unfold descending in Hd. apply Z.ltb_ge in Hd.
    by rewrite (proj2 (Z.leb_le _ _)) by lia. }
  set (m := run_length compare descending x0 (x1 :: rest)).
  change (take (S m) (x0 :: x1 :: rest)) with (x0 :: take m (x1 :: rest)).
  change (drop (S m) (x0 :: x1 :: rest)) with (drop m (x1 :: rest)).
  assert (Hsplit : StronglySorted R0
                     ((x0 :: take m (x1 :: rest)) ++ drop m (x1 :: rest))).
  { rewrite <- app_comm_cons, take_drop. exact Hs. }
  apply fold_binary_insert_sorted.
  - destruct descending.
    + eapply StronglySorted_weaken; [|apply StronglySorted_reverse, run_descending].
      intros a b _ _ Hab. left. exact Hab.
    + apply run_ascending. exact Hs.
  - by apply StronglySorted_app_1_r in Hsplit.
  - intros x y Hx Hy. apply (StronglySorted_app_1_elem_of _ _ _ _ _ Hsplit); [|done].
    destruct descending; [by rewrite elem_of_reverse in Hx|done].
Qed.

End SortProps.

Section TopTwo.
Implicit Types (labels ranking : list string) (k : string).

Lemma countOccurrences_labels (values : list json) :
  countOccurrences values = count_labels (List.map js_to_string values).
Proof.
  unfold countOccurrences, count_labels. generalize (@nil (string * CountValue)).
  induction values as [|v values IH]; intros acc; simpl; [done|]. apply IH.
Qed.

Lemma counted_plain labels :
  (∀ k, k ∈ labels → k ≠ "__proto__") → counted labels = labels.
Proof.
  intros Hplain. unfold counted. induction labels as [|x labels IH]; [done|].
  rewrite filter_cons_True by (apply Hplain; by left).
  f_equal. apply IH. intros k Hk. apply Hplain. by right.
Qed.

(** The code's top two are the first two of the ranking of the labels
    that are counted. *)
Lemma topTwo_ranking labels :
  (∀ k, k ∈ labels → k ∉ prototype_methods) →
  ∃ ranking,
    is_listed_ranking (counted labels) ranking
    ∧ topTwo (count_labels labels) = take 2 ranking.
Proof.
  intros Hplain. rewrite count_labels_counted.
  set (ls := counted labels).
  rewrite count_labels_spec.
  2:{ intros k [Hk Hp]%elem_of_counted. split; [by apply Hplain|done]. }
  set (sorted := js_sort (λ a b : string, occurrences b ls - occurrences a ls) (listed ls)).
  exists sorted. split.
  - assert (Hperm : sorted ≡ₚ listed ls) by apply js_sort_Permutation.
    split_and!.
    + rewrite Hperm. apply NoDup_listed.
    + intros k. rewrite Hperm. apply elem_of_listed.
    + apply (js_sort_sorted (λ k, occurrences k ls) (listed_before ls)), listed_sorted.
  - unfold topTwo.
    change (List.map ?f (listed ls)) with (f <$> listed ls).
    rewrite (js_sort_fmap (λ k, (k, Count (occurrences k ls)))
               (λ a b : string, occurrences b ls - occurrences a ls) by_count) by done.
    fold sorted. rewrite <- fmap_take.
    change (List.map fst ?l) with (fst <$> l).
    rewrite <- list_fmap_compose. apply list_fmap_id.
Qed.

(** The labels that are counted have one ranking. *)
Lemma is_listed_ranking_unique labels ranking1 ranking2 :
  is_listed_ranking labels ranking1 → is_listed_ranking labels ranking2 →
  ranking1 = ranking2.
Proof.
  intros (Hnd1 & Hel1 & Hs1) (Hnd2 & Hel2 & Hs2).
  apply (StronglySorted_unique_strong (ranks_before_listed labels)); [|done..|].
  - unfold ranks_before_listed. intros a b _ _ [?|[? Hab]] [?|[? Hba]]; try lia.
    destruct (listed_before_asym _ _ _ Hab Hba).
  - apply NoDup_Permutation; [done..|]. intros k. by rewrite Hel1, Hel2.
Qed.

(** A sample has one ranking by first encounter. *)
Lemma is_ranking_unique labels ranking1 ranking2 :
  is_ranking labels ranking1 → is_ranking labels ranking2 → ranking1 = ranking2.
Proof.
  intros (Hnd1 & Hel1 & Hs1) (Hnd2 & Hel2 & Hs2).
  apply (StronglySorted_unique_strong (ranks_before labels)); [|done..|].
  - unfold ranks_before. intros a b _ _ [?|[? ?]] [?|[? ?]]; lia.
  - apply NoDup_Permutation; [done..|]. intros k. by rewrite Hel1, Hel2.
Qed.

(** When no label is an array index, the labels rank as they are first
    met. *)
Lemma is_listed_ranking_words labels ranking :
  (∀ k, k ∈ labels → array_index k = None) →
  is_listed_ranking labels ranking → is_ranking labels ranking.
Proof.
  intros Hwords (Hnd & Hel & Hs). split_and!; [done..|].
  revert Hs. apply StronglySorted_weaken.
  intros a b Ha%Hel Hb%Hel. unfold ranks_before_listed, ranks_before, listed_before.
  by rewrite (Hwords a), (Hwords b).
Qed.

End TopTwo.

(** ** The Usage Recorder and the Analysis Client *)

Section GeminiProps.
Context `{Platform}.

Lemma store_op_ok {A} (op : M A) w :
  storeFault w (storeOps w) = false →
  store_op op w = op (with_storeOps (S (storeOps w)) w).
Proof. unfold store_op. by intros ->. Qed.

Lemma store_op_fault {A} (op : M A) w :
  storeFault w (storeOps w) = true →
  store_op op w = (Throw store_unavailable, with_storeOps (S (storeOps w)) w).
Proof. unfold store_op. by intros ->. Qed.

Lemma recorder_frame_refl userId w : recorder_frame userId w w.
Proof. by repeat split. Qed.

Lemma incrementAPICount_returns userId operation details w :
  ∃ w', incrementAPICount userId operation details w = (Ok tt, w')
        ∧ recorder_frame (or_else userId "") w w'.
Proof.
  unfold incrementAPICount. destruct (truthy userId); simpl.
  2:{ eexists. split; [done|apply recorder_frame_refl]. }
  unfold try_catch, bind, user_get, store_op.
  destruct (storeFault w (storeOps w)) eqn:Hf1; simpl.
  { eexists. split; [done|]. by repeat split. }
  unfold append_log.
  destruct (default (LogsArray []) (apiLogs (default no_fields (users w !! or_else userId ""))));
    simpl.
  2:{ eexists. split; [done|]. by repeat split. }
  unfold user_set_merge, store_op; simpl.
  destruct (storeFault w (S (storeOps w))) eqn:Hf2; simpl.
  { eexists. split; [done|]. by repeat split. }
  eexists. split; [done|]. repeat split; simpl.
  - intros other Hne. by rewrite lookup_insert_ne.
  - rewrite lookup_insert_eq. destruct (users w !! or_else userId "") as [old|]; simpl; [|done].
    by destruct (weeklyAnalysisCache old) as [[?|]|].
Qed.

Lemma callGemini_anonymous prompt userId operation details w :
  truthy userId = false →
  ∃ w', callGemini prompt userId operation details w
        = (client_outcome (reply (gemini w (length (generated w)) prompt)), w')
        ∧ call_frame (or_else userId "") prompt w w'
        ∧ clock w' = clock w + Z.max 0 (latency (gemini w (length (generated w)) prompt))
        ∧ users w' = users w ∧ storeOps w' = storeOps w.
Proof.
  intros Hanon. unfold callGemini, bind, generateContent. rewrite Hanon. simpl.
  destruct (reply (gemini w (length (generated w)) prompt)) as [text|msg]; simpl.
  - destruct (JSON_parse (extract_json text)) as [parsed|msg]; simpl.
    + eexists. split; [done|]. by repeat split.
    + destruct (JsString.includes "Unterminated" msg || JsString.includes "Unexpected end" msg);
        simpl; eexists; (split; [done|]); by repeat split.
  - eexists. split; [done|]. by repeat split.
Qed.

(** With a user identity the recorder runs first, and the call goes on as
    a call without identity, whatever the recorder met. *)
Lemma callGemini_records_first prompt userId operation details w :
  truthy userId = true →
  ∃ w1, incrementAPICount userId operation details w = (Ok tt, w1)
        ∧ recorder_frame (or_else userId "") w w1
        ∧ callGemini prompt userId operation details w
          = callGemini prompt None operation details w1.
Proof.
  intros Hid. destruct (incrementAPICount_returns userId operation details w)
    as (w1 & Hrec & Hframe).
  exists w1. split_and!; [done..|].
  unfold callGemini at 1 2. unfold bind at 1 4. rewrite Hid, Hrec. done.
Qed.

Lemma callGemini_run prompt userId operation details w :
  ∃ w', callGemini prompt userId operation details w
        = (client_outcome (reply (gemini w (length (generated w)) prompt)), w')
        ∧ call_frame (or_else userId "") prompt w w'
        ∧ clock w' = clock w + Z.max 0 (latency (gemini w (length (generated w)) prompt)).
Proof.
  destruct (truthy userId) eqn:Hid.
  - destruct (callGemini_records_first prompt userId operation details w Hid)
      as (w1 & _ & Hframe & ->).
    destruct (callGemini_anonymous prompt None operation details w1 eq_refl)
      as (w' & -> & Hcall & Hclock' & Husers & _).
    destruct Hframe as (Hg & Hgen & Hclock & Hrefl & Hbg & Hfault & Hother & Hcache).
    destruct Hcall as (Hg' & Hgen' & Hrefl' & Hbg' & Hfault' & _ & _).
    exists w'. rewrite Hg, Hgen in *. split; [done|].
    repeat split; try congruence.
    intros other Hne. rewrite Husers. by apply Hother.
  - destruct (callGemini_anonymous prompt userId operation details w Hid)
      as (w' & -> & Hcall & Hclock & _). by exists w'.
Qed.


(** C8: the Usage Recorder returns normally in every world: either it has
    written the counters and logs the count, or it logs the failure it
    caught and has written nothing.  With a user identity the Analysis
    Client runs the recorder first, before any call of the service, and
    then goes on as it does without identity: its outcome is the answer of
    the service, whatever the store did to the recorder. *)
Theorem usage_recorder_absorbs_failures (prompt : Prompt) (userId : option string)
    (operation details : string) (w : World) :
  (∃ w', incrementAPICount userId operation details w = (Ok tt, w')
     ∧ (truthy userId = true →
        (∃ count type, console w' = console w ++ [ApiCount count operation type])
        ∨ (∃ msg, console w' = console w ++ [RecorderFailed msg] ∧ users w' = users w)))
  ∧ (truthy userId = true →
     ∃ w1, incrementAPICount userId operation details w = (Ok tt, w1)
       ∧ generated w1 = generated w
       ∧ callGemini prompt userId operation details w
         = callGemini prompt None operation details w1)
  ∧ (callGemini prompt userId operation details w).1
    = client_outcome (reply (gemini w (length (generated w)) prompt)).
Proof.
  split_and!.
  - unfold incrementAPICount. destruct (truthy userId); simpl; [|by eexists].
    unfold try_catch, bind, user_get, store_op.
    destruct (storeFault w (storeOps w)); simpl.
    { eexists. split; [done|]. intros _. right. by eexists. }
    unfold append_log.
    destruct (default (LogsArray []) (apiLogs (default no_fields (users w !! or_else userId ""))));
      simpl.
    2:{ eexists. split; [done|]. intros _. right. by eexists. }
    unfold user_set_merge, store_op; simpl.
    destruct (storeFault w (S (storeOps w))); simpl.
    { eexists. split; [done|]. intros _. right. by eexists. }
    eexists. split; [done|]. intros _. left. by do 2 eexists.
  - intros Hid.
    destruct (callGemini_records_first prompt userId operation details w Hid)
      as (w1 & Hrec & Hframe & Hcall).
    exists w1. split_and!; [done| |done]. apply Hframe.
  - by destruct (callGemini_run prompt userId operation details w) as (w' & -> & _).
Qed.


(** C5: the Analysis Client removes the code fences from the text of the
    model, so that no fence is left in it, and when the text that is left
    is cut at its first [{] and at its last [}], the client parses the
    part from the one to the other, braces included: it returns what
    [JSON.parse] makes of that part and throws when [JSON.parse] does.  On
    a platform whose [JSON.parse] reads [{"a":1}] as the object [{a: 1}],
    the fenced text of the specification's example yields that object. *)
Theorem callGemini_extraction (prompt : Prompt) (userId : option string)
    (operation details : string) (w : World) (text : string) :
  reply (gemini w (length (generated w)) prompt) = ReplyText text →
  JsString.includes "```" (strip_fences text) = false
  ∧ (∀ before inner after,
       strip_fences text = before +:+ "{" +:+ inner +:+ "}" +:+ after →
       has_char "{" before = false →
       has_char "}" after = false →
       match JSON_parse ("{" +:+ inner +:+ "}") with
       | Parsed parsed => (callGemini prompt userId operation details w).1 = Ok parsed
       | SyntaxError _ => ∃ err, (callGemini prompt userId operation details w).1 = Throw err
       end)
  ∧ (text = Sample.fenced →
     JSON_parse Sample.object_a1 = Parsed (JObj [("a", JNum 1)]) →
     (callGemini prompt userId operation details w).1 = Ok (JObj [("a", JNum 1)])).
Proof.
  intros Hreply.
  destruct (callGemini_run prompt userId operation details w) as (w' & -> & _).
  rewrite Hreply. simpl. split_and!.
  - apply strip_fences_free.
  - intros before inner after Hcut Hbefore Hafter.
    rewrite (extract_json_slice text before inner after Hcut Hbefore Hafter).
    destruct (JSON_parse _) as [parsed|msg]; [done|].
    destruct (_ || _); by eexists.
  - intros -> Hparse.
    replace (extract_json Sample.fenced) with Sample.object_a1 by (by vm_compute).
    by rewrite Hparse.
Qed.

(** Where [JSON.parse] reports an unexpected end for the truncated text
    [{"a":1], as the V8 of Node.js 18 and before does, the client reports
    the text as incomplete. *)
Lemma callGemini_truncated_legacy_wording (prompt : Prompt) (userId : option string)
    (operation details : string) (w : World) :
  reply (gemini w (length (generated w)) prompt) = ReplyText Sample.truncated →
  JSON_parse Sample.truncated = SyntaxError "Unexpected end of JSON input" →
  (callGemini prompt userId operation details w).1 = Throw incomplete_response.
Proof.
  intros Hreply Hparse.
  destruct (callGemini_run prompt userId operation details w) as (w' & -> & _).
  rewrite Hreply. simpl.
  replace (extract_json Sample.truncated) with Sample.truncated by (by vm_compute).
  by rewrite Hparse.
Qed.

(** The client calls the service once, whatever comes back. *)
Lemma callGemini_calls_once (prompt : Prompt) (userId : option string)
    (operation details : string) (w : World) :
  generated (callGemini prompt userId operation details w).2 = generated w ++ [prompt].
Proof.
  destruct (callGemini_run prompt userId operation details w) as (w' & -> & Hframe).
  apply Hframe.
Qed.

End GeminiProps.

(** C6, as the code has it: when [JSON.parse] rejects the extracted text,
    the Analysis Client throws [incomplete_response] if the word
    [Unterminated] or the words [Unexpected end] stand in the message of
    the parse error, and [malformed_response] if neither does.  So the
    class of a text that ends too early is the engine's to word.  On the
    reference platform, which words its errors as the V8 of Node.js 22
    does, a text that ends within a string ([Sample.unterminated]) is
    reported as incomplete, and the truncated text [{"a":1] as malformed:
    of that text the engine says which characters it expected after the
    property value.  Whatever the answer, the service has been called once: the
    client does not retry. *)
Theorem callGemini_classifies_parse_failure `{Platform} (prompt : Prompt)
    (userId : option string) (operation details : string) (w : World) (text msg : string) :
  reply (gemini w (length (generated w)) prompt) = ReplyText text →
  JSON_parse (extract_json text) = SyntaxError msg →
  ((∃ before after, msg = before +:+ "Unterminated" +:+ after)
   ∨ (∃ before after, msg = before +:+ "Unexpected end" +:+ after) →
   (callGemini prompt userId operation details w).1 = Throw incomplete_response)
  ∧ ((∀ before after, msg ≠ before +:+ "Unterminated" +:+ after) →
     (∀ before after, msg ≠ before +:+ "Unexpected end" +:+ after) →
     (callGemini prompt userId operation details w).1 = Throw malformed_response)
  ∧ (text = Sample.truncated →
     (@callGemini Reference.platform prompt userId operation details w).1
     = Throw malformed_response)
  ∧ (text = Sample.unterminated →
     (@callGemini Reference.platform prompt userId operation details w).1
     = Throw incomplete_response)
  ∧ generated (callGemini prompt userId operation details w).2 = generated w ++ [prompt].
Proof.
  intros Hreply Hparse. split_and!.
  - destruct (callGemini_run prompt userId operation details w) as (w' & -> & _).
    rewrite Hreply. simpl. rewrite Hparse.
    intros [Hword|Hword]; apply includes_split in Hword; rewrite Hword; [done|].
    by rewrite orb_true_r.
  - destruct (callGemini_run prompt userId operation details w) as (w' & -> & _).
    rewrite Hreply. simpl. rewrite Hparse.
    intros Hno1%includes_split_false Hno2%includes_split_false. by rewrite Hno1, Hno2.
  - intros ->.
    destruct (@callGemini_run Reference.platform prompt userId operation details w)
      as (w' & -> & _).
    rewrite Hreply. by vm_compute.
  - intros ->.
    destruct (@callGemini_run Reference.platform prompt userId operation details w)
      as (w' & -> & _).
    rewrite Hreply. by vm_compute.
  - destruct (callGemini_run prompt userId operation details w) as (w' & -> & Hframe).
    apply Hframe.
Qed.

(** The examples of the specification, on the reference platform. *)
Lemma callGemini_extraction_example :
  let w := Sample.world ∅ ∅ (Sample.answering Sample.fenced) Sample.reliable in
  (@callGemini Reference.platform (TextPrompt "hello") None "text-analysis" "" w).1
  = Ok (JObj [("a", JNum 1)]).
Proof.
  intros w.
  apply (@callGemini_extraction Reference.platform (TextPrompt "hello") None
           "text-analysis" "" w Sample.fenced eq_refl); reflexivity.
Defined.

(** The store is down and the client is called for user [u1]: the
    recorder logs its failure and the client returns the object of the
    service. *)
Lemma usage_recorder_failure_example :
  let w := Sample.world ∅ ∅ (Sample.answering Sample.object_a1) Sample.unavailable in
  console (@incrementAPICount Reference.platform (Some "u1") "text-analysis" "" w).2
  = [RecorderFailed "store unavailable"]
  ∧ (@callGemini Reference.platform (TextPrompt "hello") (Some "u1") "text-analysis" "" w).1
    = Ok (JObj [("a", JNum 1)]).
Proof.
  intros w. split; [by vm_compute|].
  rewrite (proj2 (proj2 (@usage_recorder_absorbs_failures Reference.platform
                           (TextPrompt "hello") (Some "u1") "text-analysis" "" w))).
  by vm_compute.
Defined.

(** The truncated text of the specification's example, on the reference
    platform: the parse error names what was expected after the property
    value, and the client reports the text as malformed. *)
Lemma callGemini_truncated_example :
  let w := Sample.world ∅ ∅ (Sample.answering Sample.truncated) Sample.reliable in
  @JSON_parse Reference.platform (extract_json Sample.truncated)
  = SyntaxError
      "Expected ',' or '}' after property value in JSON at position 6 (line 1 column 7)"
  ∧ (@callGemini Reference.platform (TextPrompt "hello") None "text-analysis" "" w).1
    = Throw malformed_response.
Proof.
  intros w.
  assert (@JSON_parse Reference.platform (extract_json Sample.truncated)
          = SyntaxError
              "Expected ',' or '}' after property value in JSON at position 6 (line 1 column 7)")
    as Hparse by (vm_compute; reflexivity).
  split; [exact Hparse|].
  exact (proj1 (proj2 (proj2
           (@callGemini_classifies_parse_failure Reference.platform (TextPrompt "hello") None
              "text-analysis" "" w Sample.truncated _ eq_refl Hparse)))
           eq_refl).
Defined.

(** A text that ends within a string, on the reference platform: the parse
    error speaks of an unterminated string. *)
Lemma unterminated_string_example :
  @JSON_parse Reference.platform (extract_json Sample.unterminated)
  = SyntaxError "Unterminated string in JSON at position 7 (line 1 column 8)".
Proof. by vm_compute. Qed.

(** ** How the world moves on *)

Ltac evolves_now :=
  repeat split; simpl; try done; try lia;
  first [by exists []; rewrite app_nil_r | by eexists].

#[global] Instance evolves_preorder : PreOrder evolves.
Proof.
  split.
  - intros w. evolves_now.
  - intros w1 w2 w3
      (Hg & Hf & [c Hc] & [p Hp] & [b Hb] & Hops & Hclock)
      (Hg' & Hf' & [c' Hc'] & [p' Hp'] & [b' Hb'] & Hops' & Hclock').
    repeat split; try congruence; try lia.
    + exists (c ++ c'). by rewrite Hc', Hc, app_assoc.
    + exists (p ++ p'). by rewrite Hp', Hp, app_assoc.
    + exists (b ++ b'). by rewrite Hb', Hb, app_assoc.
Qed.

#[global] Instance same_reflections_preorder : PreOrder same_reflections.
Proof. split; [done|]. intros w1 w2 w3. unfold same_reflections. congruence. Qed.

#[global] Instance adds_only_preorder P : PreOrder (adds_only P).
Proof.
  split; [by left|].
  intros w1 w2 w3 H12 H23 userId docId doc Hdoc.
  destruct (H23 _ _ _ Hdoc) as [Hdoc2|?]; [|by right]. by apply H12.
Qed.

Lemma same_reflections_adds_only P w w' : same_reflections w w' → adds_only P w w'.
Proof. intros Hsame userId docId doc. unfold reflections_of. rewrite Hsame. by left. Qed.

Section Keeps.
Context (R : relation World) `{!PreOrder R}.

Lemma keeps_ret {A} (a : A) : keeps R (ret a).
Proof. by intros w. Qed.

Lemma keeps_throw {A} err : keeps R (@throw A err).
Proof. by intros w. Qed.

Lemma keeps_dateNow : keeps R dateNow.
Proof. by intros w. Qed.

Lemma keeps_bind {A B} (m : M A) (k : A → M B) :
  keeps R m → (∀ a, keeps R (k a)) → keeps R (bind m k).
Proof.
  intros Hm Hk w. unfold bind. specialize (Hm w).
  destruct (m w) as [[a|e] w1]; simpl in *; [|done].
  etrans; [done|apply Hk].
Qed.

Lemma keeps_try_catch {A} (m : M A) (handler : JsError → M A) :
  keeps R m → (∀ e, keeps R (handler e)) → keeps R (try_catch m handler).
Proof.
  intros Hm Hh w. unfold try_catch. specialize (Hm w).
  destruct (m w) as [[a|e] w1]; simpl in *; [done|].
  etrans; [done|apply Hh].
Qed.

Lemma keeps_firestore_value field v : keeps R (firestore_value field v).
Proof. destruct v; [apply keeps_ret|apply keeps_throw]. Qed.

Lemma keeps_prop value name : keeps R (prop value name).
Proof. destruct value; first [apply keeps_ret|apply keeps_throw]. Qed.

Lemma keeps_store_op {A} (op : M A) :
  (∀ w, R w (with_storeOps (S (storeOps w)) w)) → keeps R op → keeps R (store_op op).
Proof.
  intros Hstep Hop w. unfold store_op.
  destruct (storeFault w (storeOps w)); simpl; [done|].
  etrans; [apply Hstep|apply Hop].
Qed.

End Keeps.

Section Steady.

Lemma steady_console_log line : steady (console_log line).
Proof. intros w. evolves_now. Qed.

Lemma steady_start_background t : steady (start_background t).
Proof. intros w. evolves_now. Qed.

Lemma steady_store_op {A} (op : M A) : steady op → steady (store_op op).
Proof. apply keeps_store_op; [apply _|]. intros w. evolves_now. Qed.

Lemma steady_user_get userId : steady (user_get userId).
Proof. apply steady_store_op. by intros w. Qed.

Lemma steady_user_set_merge userId data : steady (user_set_merge userId data).
Proof. apply steady_store_op. intros w. evolves_now. Qed.

Lemma steady_reflection_set userId docId doc : steady (reflection_set userId docId doc).
Proof. apply steady_store_op. intros w. evolves_now. Qed.

Lemma steady_reflection_update userId docId f : steady (reflection_update userId docId f).
Proof.
  apply steady_store_op. intros w.
  destruct (reflections_of userId w !! docId); evolves_now.
Qed.

Lemma steady_reflection_get userId docId : steady (reflection_get userId docId).
Proof. apply steady_store_op. by intros w. Qed.

Lemma steady_reflections_recent userId limit : steady (reflections_recent userId limit).
Proof. apply steady_store_op. by intros w. Qed.

Lemma steady_generateContent prompt : steady (generateContent prompt).
Proof.
  intros w. unfold generateContent.
  destruct (reply (gemini w (length (generated w)) prompt)); evolves_now.
Qed.

Lemma steady_race_timeout {A} ms err (m : M A) :
  0 ≤ ms → steady m → steady (race_timeout ms err m).
Proof.
  intros Hms Hm w. unfold race_timeout. specialize (Hm w).
  destruct (m w) as [r w1]; simpl in *. case_bool_decide; simpl; [done|].
  destruct Hm as (Hg & Hf & Hc & Hp & Hb & Hops & Hclock).
  repeat split; simpl; try done; lia.
Qed.

End Steady.

Section SameReflections.

Lemma unchanged_console_log line : keeps same_reflections (console_log line).
Proof. by intros w. Qed.

Lemma unchanged_start_background t : keeps same_reflections (start_background t).
Proof. by intros w. Qed.

Lemma unchanged_user_get userId : keeps same_reflections (user_get userId).
Proof. apply keeps_store_op; [apply _|done|by intros w]. Qed.

Lemma unchanged_user_set_merge userId data :
  keeps same_reflections (user_set_merge userId data).
Proof. apply keeps_store_op; [apply _|done|by intros w]. Qed.

Lemma unchanged_reflection_get userId docId :
  keeps same_reflections (reflection_get userId docId).
Proof. apply keeps_store_op; [apply _|done|by intros w]. Qed.

Lemma unchanged_reflections_recent userId limit :
  keeps same_reflections (reflections_recent userId limit).
Proof. apply keeps_store_op; [apply _|done|by intros w]. Qed.

Lemma unchanged_generateContent prompt : keeps same_reflections (generateContent prompt).
Proof.
  intros w. unfold generateContent.
  by destruct (reply (gemini w (length (generated w)) prompt)).
Qed.

Lemma unchanged_race_timeout {A} ms err (m : M A) :
  keeps same_reflections m → keeps same_reflections (race_timeout ms err m).
Proof.
  intros Hm w. unfold race_timeout. specialize (Hm w).
  destruct (m w) as [r w1]; simpl in *. by case_bool_decide.
Qed.

End SameReflections.

Lemma adds_only_unchanged P {A} (m : M A) :
  keeps same_reflections m → keeps (adds_only P) m.
Proof. intros Hm w. apply same_reflections_adds_only, Hm. Qed.

Lemma reflections_of_insert userId docId doc w other id :
  reflections_of other
    (with_reflections
       (<[userId := <[docId := doc]> (reflections_of userId w)]> (reflections w)) w) !! id
  = if decide (other = userId ∧ id = docId) then Some doc else reflections_of other w !! id.
Proof.
  unfold reflections_of. simpl. destruct (decide (other = userId)) as [->|Hne].
  - rewrite lookup_insert_eq. simpl. destruct (decide (id = docId)) as [->|Hne].
    + by rewrite lookup_insert_eq, decide_True.
    + rewrite lookup_insert_ne by done. rewrite decide_False by naive_solver. done.
  - rewrite lookup_insert_ne by done. rewrite decide_False by naive_solver. done.
Qed.

(** A [set] of a reflection adds that reflection and no other. *)
Lemma adds_only_reflection_set (P : Reflection → Prop) userId docId doc :
  P doc → keeps (adds_only P) (reflection_set userId docId doc).
Proof.
  intros HP. apply keeps_store_op; [apply _|by left|].
  intros w other id d. simpl. rewrite reflections_of_insert.
  case_decide; [|by left]. intros [= <-]. by right.
Qed.

Create HintDb keeps discriminated.
#[global] Hint Resolve keeps_ret keeps_throw keeps_dateNow keeps_firestore_value keeps_prop
  steady_console_log steady_start_background steady_user_get steady_user_set_merge
  steady_reflection_set steady_reflection_update steady_reflection_get
  steady_reflections_recent steady_generateContent
  unchanged_console_log unchanged_start_background unchanged_user_get
  unchanged_user_set_merge unchanged_reflection_get unchanged_reflections_recent
  unchanged_generateContent : keeps.
#[global] Hint Extern 1 (PreOrder _) => apply _ : keeps.

(** Goes through a computation along its binds, handlers and branches. *)
Ltac keeps_go :=
  repeat match goal with
    | |- ∀ _, _ => intro
    | |- keeps _ ((λ _, _) _) => cbv beta
    | |- keeps _ (bind _ _) => apply keeps_bind; [apply _| |]
    | |- keeps _ (try_catch _ _) => apply keeps_try_catch; [apply _| |]
    | |- keeps evolves (race_timeout _ _ _) => apply steady_race_timeout; [done|]
    | |- keeps same_reflections (race_timeout _ _ _) => apply unchanged_race_timeout
    | |- keeps _ (match ?x with _ => _ end) => destruct x
    | |- keeps _ (if ?b then _ else _) => destruct b
    | |- keeps (adds_only _) (reflection_set _ _ _) => apply adds_only_reflection_set
    | |- keeps _ _ => solve [eauto with keeps]
    | |- keeps (adds_only _) _ => apply adds_only_unchanged
    end.

Ltac steady := keeps_go.

Section KeepsGemini.
Context `{Platform}.
Context (R : relation World) `{!PreOrder R}.
Context (Rlog : ∀ line, keeps R (console_log line)).
Context (Rget : ∀ userId, keeps R (user_get userId)).
Context (Rmerge : ∀ userId data, keeps R (user_set_merge userId data)).
Context (Rgen : ∀ prompt, keeps R (generateContent prompt)).

Lemma keeps_incrementAPICount userId operation details :
  keeps R (incrementAPICount userId operation details).
Proof. unfold incrementAPICount, append_log. keeps_go. Qed.

Lemma keeps_callGemini prompt userId operation details :
  keeps R (callGemini prompt userId operation details).
Proof. unfold callGemini. pose proof keeps_incrementAPICount. keeps_go. Qed.

Lemma keeps_analyzeTextReflection textInput userId :
  keeps R (analyzeTextReflection textInput userId).
Proof. unfold analyzeTextReflection. pose proof keeps_callGemini. keeps_go. Qed.

Lemma keeps_analyzeWeeklyPatterns reflections userId :
  keeps R (analyzeWeeklyPatterns reflections userId).
Proof. unfold analyzeWeeklyPatterns. pose proof keeps_callGemini. keeps_go. Qed.

End KeepsGemini.

Section SteadyRoutes.
Context `{Platform}.

Lemma steady_callGemini prompt userId operation details :
  steady (callGemini prompt userId operation details).
Proof. apply keeps_callGemini; eauto with keeps. Qed.

Lemma steady_analyzeTextReflection textInput userId :
  steady (analyzeTextReflection textInput userId).
Proof. apply keeps_analyzeTextReflection; eauto with keeps. Qed.

Lemma steady_analyzeWeeklyPatterns reflections userId :
  steady (analyzeWeeklyPatterns reflections userId).
Proof. apply keeps_analyzeWeeklyPatterns; eauto with keeps. Qed.

Lemma unchanged_analyzeTextReflection textInput userId :
  keeps same_reflections (analyzeTextReflection textInput userId).
Proof. apply keeps_analyzeTextReflection; eauto with keeps. Qed.

Lemma steady_analyzeTranscriptBackground userId docId transcript :
  steady (analyzeTranscriptBackground userId docId transcript).
Proof. unfold analyzeTranscriptBackground. pose proof steady_callGemini. steady. Qed.

Lemma steady_analyze_with_fallback reflections userId :
  steady (Analysis.analyze_with_fallback reflections userId).
Proof.
  unfold Analysis.analyze_with_fallback. pose proof steady_analyzeWeeklyPatterns. steady.
Qed.

Lemma steady_generate_weekly userId : steady (Analysis.generate_weekly userId).
Proof.
  unfold Analysis.generate_weekly. pose proof steady_analyze_with_fallback. steady.
Qed.

Lemma steady_analyze_weekly body : steady (Analysis.analyze_weekly body).
Proof.
  unfold Analysis.analyze_weekly. pose proof steady_generate_weekly. steady.
Qed.

Lemma steady_run_background t : steady (Analysis.run_background t).
Proof.
  unfold Analysis.run_background, not_awaited.
  pose proof steady_analyzeTranscriptBackground. steady.
Qed.

Lemma steady_save_transcript body : steady (Analysis.save_transcript body).
Proof. unfold Analysis.save_transcript. steady. Qed.

Lemma steady_analyze_daily body : steady (Analysis.analyze_daily body).
Proof.
  unfold Analysis.analyze_daily. pose proof steady_analyzeTextReflection. steady.
Qed.

End SteadyRoutes.

(** ** The Synthetic Fallback Generator *)

Lemma jsval_or_truthy (v : jsval) (d : json) :
  json_truthy d = true → json_truthy (jsval_or v d) = true.
Proof.
  intros Hd. destruct v as [j|]; simpl; [|done].
  by destruct (json_truthy j) eqn:Hj.
Qed.

Lemma filter_truthy_defaults {A} (f : A → jsval) (d : json) (l : list A) :
  json_truthy d = true →
  List.filter json_truthy (List.map (λ r, jsval_or (f r) d) l)
  = List.map (λ r, jsval_or (f r) d) l.
Proof.
  intros Hd. induction l as [|a l IH]; simpl; [done|].
  by rewrite jsval_or_truthy, IH.
Qed.

(** The label of a field is the name under which the code counts it. *)
Lemma label_of_default (d : string) (field : jsval) :
  d ≠ "" → js_to_string (jsval_or field (JStr d)) = label_of d field.
Proof.
  intros Hd. destruct field as [[|[|]|[| | |]|[|c s]|items|fields]|]; try done.
Qed.

Lemma emotion_counts (reflections : list (string * Reflection)) :
  countOccurrences (emotionsOf reflections) = count_labels (emotionLabels reflections).
Proof.
  unfold emotionsOf, emotionLabels.
  rewrite countOccurrences_labels, filter_truthy_defaults, map_map by done.
  f_equal. apply map_ext. intros r. by apply label_of_default.
Qed.

Lemma theme_counts (reflections : list (string * Reflection)) :
  countOccurrences (themesOf reflections) = count_labels (themeLabels reflections).
Proof.
  unfold themesOf, themeLabels.
  rewrite countOccurrences_labels, filter_truthy_defaults, map_map by done.
  f_equal. apply map_ext. intros r. by apply label_of_default.
Qed.

Lemma string_app_nonempty (s t : string) : t ≠ "" → s +:+ t ≠ "".
Proof. destruct s; [done|]. by rewrite string_app_cons. Qed.

(** The themes the insight names. *)
Lemma insight_themes (top : list string) :
  (length top ≤ 2)%nat →
  string_or (JsString.join " and " top) "personal growth"
  = match top with
    | [] => "personal growth"
    | [a] => if decide (a = "") then "personal growth" else a
    | a :: b :: _ => a +:+ " and " +:+ b
    end.
Proof.
  destruct top as [|a [|b [|c top]]]; simpl; intros Hlen; [done| | |lia].
  - unfold string_or. rewrite string_eqb_decide.
    case_bool_decide; [by rewrite decide_True|by rewrite decide_False].
  - unfold string_or. rewrite string_eqb_decide, bool_decide_eq_false_2; [done|].
    apply string_app_nonempty. by rewrite string_app_cons.
Qed.


(** A sample with a tie: [calm] and [sad] are met once each before
    [calm] comes again; [work] and [self] tie, and [work] is met first. *)
Lemma synthetic_fallback_example :
  syntheticAnalysis Sample.tied
  = Success
      (JObj
         [("dominantEmotions", JArr [JStr "calm"; JStr "sad"]);
          ("dominantThemes", JArr [JStr "work"; JStr "self"]);
          ("emotionalPattern",
           JStr "Your reflections show a consistent pattern of self-awareness.");
          ("weeklyInsight",
           JStr "This week you've reflected 4 times, exploring themes of work and self.");
          ("reflectiveQuestion",
           JStr "What would you like to explore more deeply in your next reflection?")]).
Proof. vm_compute. reflexivity. Qed.



(** ** The query for the recent reflections *)

#[local] Instance newer_first_total : Total newer_first.
Proof.
  intros a b. unfold newer_first.
  destruct (Z.lt_trichotomy (createdAt a.2) (createdAt b.2)) as [?|[?|?]]; [by right; left| |by left; left].
  destruct (total String.le a.1 b.1); [right; right|left; right]; done.
Qed.

#[local] Instance newer_first_trans : Transitive newer_first.
Proof.
  intros a b c. unfold newer_first. intros [?|[? ?]] [?|[? ?]]; try (left; lia).
  right. split; [lia|]. by etrans.
Qed.

Lemma newer_first_createdAt a b : newer_first a b → createdAt b.2 ≤ createdAt a.2.
Proof. unfold newer_first. intros [?|[? ?]]; lia. Qed.

(** The query gives the [limit] latest documents of the collection,
    latest first: as many as there are up to [limit], each of them a
    document of the collection, in descending order of creation, and no
    document left out is later than one that is taken. *)
Lemma query_recent_spec (limit : nat) (docs : gmap string Reflection) :
  length (query_recent limit docs) = (limit `min` size docs)%nat
  ∧ (∀ id doc, (id, doc) ∈ query_recent limit docs → docs !! id = Some doc)
  ∧ StronglySorted (λ a b, createdAt b.2 ≤ createdAt a.2) (query_recent limit docs)
  ∧ (∀ id doc, docs !! id = Some doc → (id, doc) ∉ query_recent limit docs →
       ∀ taken, taken ∈ query_recent limit docs → createdAt doc ≤ createdAt taken.2).
Proof.
  unfold query_recent. set (sorted := merge_sort newer_first (map_to_list docs)).
  assert (Hperm : sorted ≡ₚ map_to_list docs) by apply merge_sort_Permutation.
  assert (Hsorted : StronglySorted newer_first sorted)
    by apply (StronglySorted_merge_sort _).
  split_and!.
  - rewrite length_take, Hperm, length_map_to_list. done.
  - intros id doc Hin%(subseteq_take limit sorted). rewrite Hperm in Hin.
    by apply elem_of_map_to_list in Hin.
  - rewrite <- (take_drop limit sorted) in Hsorted.
    apply StronglySorted_app_1_l in Hsorted.
    induction Hsorted as [|a l Hl IH Ha]; constructor; [done|].
    eapply Forall_impl; [done|]. intros b. apply newer_first_createdAt.
  - intros id doc Hdoc Hout taken Htaken.
    assert (Hin : (id, doc) ∈ sorted) by (by rewrite Hperm, elem_of_map_to_list).
    rewrite <- (take_drop limit sorted) in Hin, Hsorted.
    apply elem_of_app in Hin as [?|Hdrop]; [done|].
    apply (newer_first_createdAt taken (id, doc)).
    by apply (StronglySorted_app_1_elem_of _ _ _ _ _ Hsorted).
Qed.

(** ** The weekly route *)

Section WeeklyProps.
Context `{Platform}.

Lemma call_frame_console userId prompt w w' c :
  call_frame userId prompt w w' → call_frame userId prompt w (with_console c w').
Proof. done. Qed.

Lemma analyzeWeeklyPatterns_run reflections userId w :
  (3 ≤ length reflections)%nat →
  ∃ w', analyzeWeeklyPatterns reflections userId w
        = (Ok (analysis_of
                 (client_outcome
                    (reply (gemini w (length (generated w))
                              (WeeklyPrompt (List.map summarize reflections)))))), w')
        ∧ call_frame (or_else userId "") (WeeklyPrompt (List.map summarize reflections)) w w'
        ∧ clock w' = clock w
            + Z.max 0 (latency (gemini w (length (generated w))
                                  (WeeklyPrompt (List.map summarize reflections)))).
Proof.
  intros Hlen. unfold analyzeWeeklyPatterns.
  rewrite bool_decide_eq_false_2 by lia. unfold try_catch, bind.
  destruct (callGemini_run (WeeklyPrompt (List.map summarize reflections)) userId
              "weekly-analysis" "Weekly pattern analysis" w) as (w' & -> & Hframe & Hclock).
  destruct (client_outcome _) as [data|error]; simpl; by eexists.
Qed.

(** The analysis step of the weekly route: the answer of the client when
    it comes before the timeout, the fallback when it does not. *)
Lemma analyze_with_fallback_run reflections userId w :
  (3 ≤ length reflections)%nat →
  ∃ w', Analysis.analyze_with_fallback reflections userId w
        = (Ok (if bool_decide
                    (Z.max 0 (latency (gemini w (length (generated w))
                                         (WeeklyPrompt (List.map summarize reflections))))
                     < GEMINI_TIMEOUT)
               then analysis_of
                      (client_outcome
                         (reply (gemini w (length (generated w))
                                   (WeeklyPrompt (List.map summarize reflections)))))
               else syntheticAnalysis reflections), w')
        ∧ call_frame userId (WeeklyPrompt (List.map summarize reflections)) w w'.
Proof.
  intros Hlen. unfold Analysis.analyze_with_fallback, try_catch, race_timeout.
  destruct (analyzeWeeklyPatterns_run reflections (Some userId) w Hlen)
    as (w' & -> & Hframe & Hclock).
  assert (or_else (Some userId) "" = userId) as Hid.
  { simpl. rewrite string_eqb_decide. by case_bool_decide. }
  rewrite Hid in Hframe. rewrite Hclock.
  replace (clock w + _ - clock w) with
    (Z.max 0 (latency (gemini w (length (generated w))
                         (WeeklyPrompt (List.map summarize reflections))))) by lia.
  case_bool_decide; simpl; by eexists.
Qed.


Lemma generate_weekly_run userId w :
  (∀ n, storeFault w n = false) →
  let recent := query_recent 7 (reflections_of userId w) in
  let prompt := WeeklyPrompt (List.map summarize recent) in
  let outcome := gemini w (length (generated w)) prompt in
  let result :=
    if bool_decide (Z.max 0 (latency outcome) < GEMINI_TIMEOUT)
    then analysis_of (client_outcome (reply outcome))
    else syntheticAnalysis recent in
  ∃ w', Analysis.generate_weekly userId w = (Ok (weekly_answer recent result), w')
        ∧ reflections w' = reflections w
        ∧ generated w' = generated w
                         ++ (if bool_decide (length recent < 3)%nat then [] else [prompt])
        ∧ cache_of (users w' !! userId)
          = (if bool_decide (length recent < 3)%nat then cache_of (users w !! userId)
             else match result with
                  | Failure _ => cache_of (users w !! userId)
                  | Success data =>
                      Some (mkCacheEntry (clock w') (length recent)
                              (match cache_of (users w !! userId) with
                               | Some old => merge_json data (analysis old)
                               | None => data
                               end))
                  end).
Proof.
  intros Hstore. simpl.
  unfold Analysis.generate_weekly, bind, console_log, reflections_recent, store_op. simpl.
  rewrite Hstore. simpl. unfold weekly_answer.
  change (reflections_of userId (with_storeOps _ (with_console _ w)))
    with (reflections_of userId w).
  generalize (query_recent 7 (reflections_of userId w)). intros [|r rs].
  { simpl. eexists. split; [reflexivity|]. split_and!; simpl; rewrite ?app_nil_r; done. }
  case_bool_decide as Hlen.
  { eexists. split; [reflexivity|]. split_and!; simpl; rewrite ?app_nil_r; done. }
  match goal with |- context [Analysis.analyze_with_fallback _ _ ?w0] => set (w1 := w0) end.
  destruct (analyze_with_fallback_run (r :: rs) userId w1 ltac:(lia))
    as (w2 & Hrun & Hg & Hgen & Hrefl & Hbg & Hfault & Hother & Hcache).
  rewrite Hrun. subst w1. simpl in *.
  match goal with |- context [if ?b then analysis_of ?o else ?f] =>
    destruct (if b then analysis_of o else f) as [data|error] end.
  2:{ eexists. split_and!; done. }
  unfold dateNow, user_set_merge, store_op; simpl.
  rewrite Hfault, Hstore. simpl. eexists. split_and!; try done.
  simpl. rewrite lookup_insert_eq.
  unfold cache_of in Hcache |- *.
  destruct (users w2 !! userId) as [old2|], (users w !! userId) as [old|]; simpl in *.
  - destruct (weeklyAnalysisCache old2) as [[e2|]|], (weeklyAnalysisCache old) as [[e|]|];
      simpl; by simplify_eq.
  - destruct (weeklyAnalysisCache old2) as [[e2|]|]; simpl; by simplify_eq.
  - destruct (weeklyAnalysisCache old) as [[e|]|]; simpl; by simplify_eq.
  - done.
Qed.


Lemma or_else_truthy field d : truthy field = true → field = Some (or_else field d).
Proof.
  destruct field as [s|]; simpl; [|done]. by destruct (String.eqb s "").
Qed.

(** The weekly route when no fresh entry is in the cache. *)
Lemma analyze_weekly_miss body w :
  truthy (Body.userId body) = true →
  (∀ n, storeFault w n = false) →
  fresh_cache (clock w) (users w !! or_else (Body.userId body) "") = None →
  Analysis.analyze_weekly body w
  = Analysis.generate_weekly (or_else (Body.userId body) "")
      (with_storeOps (S (storeOps w)) w)
  ∨ ∃ err w', Analysis.generate_weekly (or_else (Body.userId body) "")
                (with_storeOps (S (storeOps w)) w) = (Throw err, w').
Proof.
  intros Hid Hstore Hfresh.
  unfold Analysis.analyze_weekly, try_catch, bind, user_get, store_op, dateNow.
  rewrite Hid. simpl. rewrite Hstore. simpl. unfold fresh_cache in Hfresh.
  destruct (cache_of _) as [entry|].
  - case_bool_decide; [done|].
    destruct (Analysis.generate_weekly _ _) as [[r|e] w']; [by left|right; by eauto].
  - destruct (Analysis.generate_weekly _ _) as [[r|e] w']; [by left|right; by eauto].
Qed.


Lemma console_after_log {A} line (k : M A) (handler : JsError → M A) w :
  steady k → (∀ e, steady (handler e)) →
  ∃ rest, console (try_catch (bind (console_log line) (λ _, k)) handler w).2
          = console w ++ line :: rest.
Proof.
  intros Hk Hh. unfold try_catch, bind, console_log.
  pose proof (Hk (with_console (console w ++ [line]) w)) as Hev.
  destruct (k _) as [[a|e] w1]; simpl in *.
  - destruct Hev as (_ & _ & [rest Hrest] & _). exists rest.
    rewrite Hrest. simpl. by rewrite <- app_assoc.
  - pose proof (Hh e w1) as (_ & _ & [rest' Hrest'] & _).
    destruct Hev as (_ & _ & [rest Hrest] & _). exists (rest ++ rest').
    rewrite Hrest', Hrest. simpl. by rewrite <- !app_assoc.
Qed.

(** Without a fresh entry the route goes on to generate the analysis: the
    first thing it logs is that it does. *)
Lemma analyze_weekly_miss_logs body w :
  truthy (Body.userId body) = true →
  storeFault w (storeOps w) = false →
  fresh_cache (clock w) (users w !! or_else (Body.userId body) "") = None →
  ∃ rest, console (Analysis.analyze_weekly body w).2 = console w ++ GeneratingFresh :: rest.
Proof.
  intros Hid Hstore Hfresh.
  assert (∀ userId handler w1,
            (∀ e, steady (handler e)) →
            ∃ rest, console (try_catch (Analysis.generate_weekly userId) handler w1).2
                    = console w1 ++ GeneratingFresh :: rest) as Hgen.
  { intros userId handler w1 Hh. unfold Analysis.generate_weekly.
    apply console_after_log; [|done].
    pose proof steady_analyze_with_fallback. steady. }
  unfold Analysis.analyze_weekly, fresh_cache in *.
  rewrite Hid. simpl.
  match goal with |- context [try_catch _ ?h] => set (handler := h) end.
  assert (∀ e, steady (handler e)) as Hh by (intros e; subst handler; steady).
  unfold try_catch at 1, bind at 1 2, user_get, store_op, dateNow. simpl.
  rewrite Hstore. simpl.
  destruct (cache_of _) as [entry|].
  - case_bool_decide; [done|].
    apply (Hgen _ handler (with_storeOps (S (storeOps w)) w) Hh).
  - apply (Hgen _ handler (with_storeOps (S (storeOps w)) w) Hh).
Qed.


(** The weekly route when nothing fresh is cached and the store works. *)
Lemma analyze_weekly_generates body w :
  truthy (Body.userId body) = true →
  (∀ n, storeFault w n = false) →
  fresh_cache (clock w) (users w !! or_else (Body.userId body) "") = None →
  Analysis.analyze_weekly body w
  = Analysis.generate_weekly (or_else (Body.userId body) "")
      (with_storeOps (S (storeOps w)) w).
Proof.
  intros Hid Hstore Hfresh.
  destruct (analyze_weekly_miss body w Hid Hstore Hfresh) as [?|(err & w' & Hthrow)]; [done|].
  destruct (generate_weekly_run (or_else (Body.userId body) "")
              (with_storeOps (S (storeOps w)) w) Hstore) as (w'' & Hrun & _).
  congruence.
Qed.


(** The same request on the route of routes/analysis_cached.js: there
    the answer says that it comes from the cache. *)
Lemma weekly_cache_fast_path_cached_variant (body : Body.t) (w : World) (entry : CacheEntry) :
  truthy (Body.userId body) = true →
  storeFault w (storeOps w) = false →
  cache_of (users w !! or_else (Body.userId body) "") = Some entry →
  clock w - timestamp entry < CACHE_DURATION →
  (AnalysisCached.analyze_weekly body w).1
  = Ok (respond 200
          (WeeklyBody
             (mkWeeklyAnswer true (Some (reflectionCount entry)) (Some (analysis entry))
                None (Some true)))).
Proof.
  intros Hid Hstore Hentry Hfresh.
  unfold AnalysisCached.analyze_weekly, try_catch, bind, user_get, store_op, dateNow.
  rewrite Hid. simpl. rewrite Hstore. simpl. rewrite Hentry.
  by rewrite bool_decide_eq_true_2.
Qed.

(** C4: with nothing fresh in the cache, the route reads the seven latest
    reflections, latest first.  A user without reflections is told that
    there are not enough; a user with one or two is told so with their
    number; in both cases the service is not called.  From three on the
    analysis is asked for, and the prompt sums up just the reflections
    read. *)
Theorem weekly_sample_threshold (body : Body.t) (w : World) :
  truthy (Body.userId body) = true →
  (∀ n, storeFault w n = false) →
  fresh_cache (clock w) (users w !! or_else (Body.userId body) "") = None →
  ∃ recent,
    recent = query_recent 7 (reflections_of (or_else (Body.userId body) "") w)
    ∧ length recent
      = (7 `min` size (reflections_of (or_else (Body.userId body) "") w))%nat
    ∧ (∀ id doc, (id, doc) ∈ recent →
         reflections_of (or_else (Body.userId body) "") w !! id = Some doc)
    ∧ StronglySorted (λ a b, createdAt b.2 ≤ createdAt a.2) recent
    ∧ (∀ id doc, reflections_of (or_else (Body.userId body) "") w !! id = Some doc →
         (id, doc) ∉ recent →
         ∀ taken, taken ∈ recent → createdAt doc ≤ createdAt taken.2)
    ∧ (size (reflections_of (or_else (Body.userId body) "") w) = 0%nat →
       (Analysis.analyze_weekly body w).1
       = Ok (respond 200
               (WeeklyBody
                  (mkWeeklyAnswer false None None (Some "Not enough reflections") None)))
       ∧ generated (Analysis.analyze_weekly body w).2 = generated w)
    ∧ ((0 < size (reflections_of (or_else (Body.userId body) "") w) < 3)%nat →
       (Analysis.analyze_weekly body w).1
       = Ok (respond 200
               (WeeklyBody
                  (mkWeeklyAnswer false
                     (Some (size (reflections_of (or_else (Body.userId body) "") w)))
                     None None None)))
       ∧ generated (Analysis.analyze_weekly body w).2 = generated w)
    ∧ ((3 ≤ size (reflections_of (or_else (Body.userId body) "") w))%nat →
       generated (Analysis.analyze_weekly body w).2
       = generated w ++ [WeeklyPrompt (List.map summarize recent)]).
Proof.
  intros Hid Hstore Hfresh. eexists. split; [reflexivity|].
  set (userId := or_else (Body.userId body) "").
  destruct (query_recent_spec 7 (reflections_of userId w)) as (Hlen & Hin & Hsorted & Hout).
  split_and!; [done..| | |].
  all: rewrite (analyze_weekly_generates body w Hid Hstore Hfresh); fold userId.
  all: destruct (generate_weekly_run userId (with_storeOps (S (storeOps w)) w) Hstore)
         as (w' & -> & _ & Hgen & _); simpl in Hgen |- *.
  all: change (reflections_of userId (with_storeOps _ w)) with (reflections_of userId w)
         in Hgen |- *.
  all: intros Hsize.
  - rewrite bool_decide_eq_true_2 in Hgen by lia. rewrite app_nil_r in Hgen.
    split; [|done]. unfold weekly_answer.
    destruct (query_recent 7 (reflections_of userId w)) as [|r rs]; [done|].
    rewrite Hsize in Hlen. done.
  - rewrite bool_decide_eq_true_2 in Hgen by lia. rewrite app_nil_r in Hgen.
    split; [|done]. unfold weekly_answer.
    assert (length (query_recent 7 (reflections_of userId w))
            = size (reflections_of userId w)) as Hsame by lia.
    destruct (query_recent 7 (reflections_of userId w)) as [|r rs].
    { simpl in Hsame. lia. }
    rewrite bool_decide_eq_true_2 by lia. by rewrite Hsame.
  - by rewrite bool_decide_eq_false_2 in Hgen by lia.
Qed.

(** C1, where the code departs from it: when the Analysis Client fails
    before the timeout, the route answers 500 with the message of the
    failure; the fallback is not used and the cache is left as it was. *)
Theorem weekly_failure_is_answered_500 (body : Body.t) (w : World) (err : JsError) :
  truthy (Body.userId body) = true →
  (∀ n, storeFault w n = false) →
  fresh_cache (clock w) (users w !! or_else (Body.userId body) "") = None →
  (3 ≤ size (reflections_of (or_else (Body.userId body) "") w))%nat →
  Z.max 0 (latency (gemini w (length (generated w))
                      (WeeklyPrompt
                         (List.map summarize
                            (query_recent 7
                               (reflections_of (or_else (Body.userId body) "") w))))))
  < GEMINI_TIMEOUT →
  client_outcome
    (reply (gemini w (length (generated w))
              (WeeklyPrompt
                 (List.map summarize
                    (query_recent 7 (reflections_of (or_else (Body.userId body) "") w))))))
  = Throw err →
  (Analysis.analyze_weekly body w).1 = Ok (respond 500 (ErrorBody (message err)))
  ∧ cache_of (users (Analysis.analyze_weekly body w).2 !! or_else (Body.userId body) "")
    = cache_of (users w !! or_else (Body.userId body) "").
Proof.
  intros Hid Hstore Hfresh Hsize Hintime Hfail.
  rewrite (analyze_weekly_generates body w Hid Hstore Hfresh).
  set (userId := or_else (Body.userId body) "") in *.
  destruct (query_recent_spec 7 (reflections_of userId w)) as (Hlen & _).
  destruct (generate_weekly_run userId (with_storeOps (S (storeOps w)) w) Hstore)
    as (w' & -> & _ & _ & Hcache); simpl in Hcache |- *.
  change (reflections_of userId (with_storeOps _ w)) with (reflections_of userId w)
    in Hcache |- *.
  rewrite (bool_decide_eq_true_2 _ Hintime), Hfail in Hcache |- *.
  rewrite bool_decide_eq_false_2 in Hcache by lia.
  split; [|done]. unfold weekly_answer.
  assert (3 ≤ length (query_recent 7 (reflections_of userId w)))%nat as Hmany by lia.
  destruct (query_recent 7 (reflections_of userId w)) as [|r rs].
  { simpl in Hmany. lia. }
  by rewrite bool_decide_eq_false_2 by lia.
Qed.

(** The part of C1 the code keeps: when the answer does not come before
    the timeout, the fallback stands in, and the route answers 200 with an
    aggregate that it has cached. *)
Lemma weekly_timeout_uses_fallback (body : Body.t) (w : World) :
  truthy (Body.userId body) = true →
  (∀ n, storeFault w n = false) →
  fresh_cache (clock w) (users w !! or_else (Body.userId body) "") = None →
  (3 ≤ size (reflections_of (or_else (Body.userId body) "") w))%nat →
  GEMINI_TIMEOUT
  ≤ Z.max 0 (latency (gemini w (length (generated w))
                        (WeeklyPrompt
                           (List.map summarize
                              (query_recent 7
                                 (reflections_of (or_else (Body.userId body) "") w)))))) →
  ∃ data,
    syntheticAnalysis (query_recent 7 (reflections_of (or_else (Body.userId body) "") w))
    = Success data
    ∧ (Analysis.analyze_weekly body w).1
      = Ok (respond 200
              (WeeklyBody
                 (mkWeeklyAnswer true
                    (Some (length (query_recent 7
                                     (reflections_of (or_else (Body.userId body) "") w))))
                    (Some data) None None))).
Proof.
  intros Hid Hstore Hfresh Hsize Hlate.
  rewrite (analyze_weekly_generates body w Hid Hstore Hfresh).
  set (userId := or_else (Body.userId body) "") in *.
  destruct (query_recent_spec 7 (reflections_of userId w)) as (Hlen & _).
  destruct (generate_weekly_run userId (with_storeOps (S (storeOps w)) w) Hstore)
    as (w' & -> & _); simpl.
  change (reflections_of userId (with_storeOps _ w)) with (reflections_of userId w).
  rewrite (bool_decide_eq_false_2 (_ < GEMINI_TIMEOUT)) by lia.
  assert (3 ≤ length (query_recent 7 (reflections_of userId w)))%nat as Hmany by lia.
  destruct (syntheticAnalysis (query_recent 7 (reflections_of userId w)))
    as [data|error] eqn:Hsyn; [|done].
  exists data. split; [done|]. unfold weekly_answer.
  destruct (query_recent 7 (reflections_of userId w)) as [|r rs].
  { simpl in Hmany. lia. }
  by rewrite bool_decide_eq_false_2 by lia.
Qed.

End WeeklyProps.

(** ** The weekly route on the sample worlds *)



Lemma weekly_sample_threshold_example :
  (Analysis.analyze_weekly (H := Reference.platform) Sample.weekly_request
     Sample.two_world).1
  = Ok (respond 200 (WeeklyBody (mkWeeklyAnswer false (Some 2%nat) None None None))).
Proof.
  destruct (@weekly_sample_threshold Reference.platform Sample.weekly_request
              Sample.two_world eq_refl (λ _, eq_refl) eq_refl)
    as (recent & _ & _ & _ & _ & _ & _ & Hfew & _).
  refine (proj1 (Hfew _)). vm_compute. split; lia.
Defined.

Lemma weekly_failure_is_answered_500_example :
  (Analysis.analyze_weekly (H := Reference.platform) Sample.weekly_request
     Sample.garbled_world).1
  = Ok (respond 500 (ErrorBody "Invalid AI response format - could not parse JSON")).
Proof.
  refine (proj1 (@weekly_failure_is_answered_500 Reference.platform Sample.weekly_request
                   Sample.garbled_world malformed_response eq_refl (λ _, eq_refl) eq_refl
                   _ _ _)).
  - vm_compute. lia.
  - vm_compute. reflexivity.
  - vm_compute. reflexivity.
Defined.

Lemma weekly_timeout_example :
  (Analysis.analyze_weekly (H := Reference.platform) Sample.weekly_request
     Sample.slow_world).1
  = Ok (respond 200
          (WeeklyBody
             (mkWeeklyAnswer true (Some 3%nat)
                (Some
                   (JObj
                      [("dominantEmotions", JArr [JStr "calm"; JStr "sad"]);
                       ("dominantThemes", JArr [JStr "work"; JStr "self"]);
                       ("emotionalPattern",
                        JStr "Your reflections show a consistent pattern of self-awareness.");
                       ("weeklyInsight",
                        JStr "This week you've reflected 3 times, exploring themes of work and self.");
                       ("reflectiveQuestion",
                        JStr "What would you like to explore more deeply in your next reflection?")]))
                None None))).
Proof. vm_compute. reflexivity. Qed.

(** ** Submitting and analysing a reflection *)

Section ReflectionProps.
Context `{Platform}.

(** C10: a reflection document that [POST /analyze-daily] has written
    holds the five analysis fields and names [text] as its input type, and
    it has no [analysisStatus] field: it is neither [pending] nor
    [completed] nor [failed]. *)
Theorem analyze_daily_writes_no_status (body : Body.t) (w : World)
    (userId docId : string) (doc : Reflection) :
  reflections_of userId (Analysis.analyze_daily body w).2 !! docId = Some doc →
  reflections_of userId w !! docId ≠ Some doc →
  daily_shape doc ∧ analysisStatus doc ≠ Some completed.
Proof.
  intros Hnew Hold.
  assert (keeps (adds_only daily_shape) (Analysis.analyze_daily body)) as Hkeeps.
  { unfold Analysis.analyze_daily. pose proof unchanged_analyzeTextReflection.
    keeps_go. by repeat split. }
  destruct (Hkeeps w _ _ _ Hnew) as [?|Hshape]; [done|].
  split; [done|]. destruct Hshape as (-> & _). done.
Qed.


Lemma reflection_by_id_found userId docId doc w :
  storeFault w (storeOps w) = false →
  reflections_of userId w !! docId = Some doc →
  (Analysis.reflection_by_id userId docId w).1 = Ok (respond 200 (FoundBody docId doc)).
Proof.
  intros Hstore Hdoc.
  unfold Analysis.reflection_by_id, try_catch, bind, reflection_get, store_op.
  rewrite Hstore. simpl.
  change (reflections_of userId (with_storeOps _ w)) with (reflections_of userId w).
  by rewrite Hdoc.
Qed.

(** C7: [POST /save-transcript] answers 400 when [userId] or [transcript]
    is missing or empty, and has then asked nothing of the store.  With
    both, and a store that takes the two writes, it answers at once with
    the reflection it has stored: its status is [pending], its input type
    [voice], its transcript the trimmed text.  No analysis has been asked
    for by then: the analysis waits in the background queue.  The stored
    document is the one the answer shows, and [GET /reflection-by-id]
    finds it under the id of the answer. *)
Theorem save_transcript_answers_pending (body : Body.t) (w : World) :
  (truthy (Body.userId body) = false ∨ truthy (Body.transcript body) = false →
   Analysis.save_transcript body w
   = (Ok (respond 400 (ErrorBody "userId and transcript are required")),
      with_console (console w ++ [SaveTranscriptReqBody]) w))
  ∧ (truthy (Body.userId body) = true → truthy (Body.transcript body) = true →
     storeFault w (storeOps w) = false → storeFault w (S (storeOps w)) = false →
     ∃ docId doc w',
       Analysis.save_transcript body w
       = (Ok (respond 200 (ReflectionBody docId (or_else (Body.userId body) "") doc)), w')
       ∧ analysisStatus doc = Some pending
       ∧ inputType doc = "voice"
       ∧ transcript doc = JStr (JsString.trim (or_else (Body.transcript body) ""))
       ∧ primaryEmotion doc = None
       ∧ generated w' = generated w
       ∧ background w'
         = background w
           ++ [TranscriptAnalysis (or_else (Body.userId body) "") docId
                 (JsString.trim (or_else (Body.transcript body) ""))]
       ∧ reflections_of (or_else (Body.userId body) "") w' !! docId = Some doc
       ∧ ∀ w'', reflections w'' = reflections w' →
                storeFault w'' (storeOps w'') = false →
                (Analysis.reflection_by_id (or_else (Body.userId body) "") docId w'').1
                = Ok (respond 200 (FoundBody docId doc))).
Proof.
  split.
  - intros Hmissing. unfold Analysis.save_transcript, try_catch, bind, console_log. simpl.
    by destruct Hmissing as [-> | ->]; rewrite ?orb_true_r.
  - intros Hid Htext Hstore1 Hstore2.
    unfold Analysis.save_transcript, try_catch, bind, console_log, dateNow,
      user_set_merge, reflection_set, start_background, store_op.
    rewrite Hid, Htext. simpl. rewrite Hstore1. simpl. rewrite Hstore2. simpl.
    do 3 eexists. split; [reflexivity|]. split_and!; try done.
    { unfold reflections_of. simpl. rewrite lookup_insert_eq. simpl.
      by rewrite lookup_insert_eq. }
    intros w'' Hsame Hstore. apply reflection_by_id_found; [done|].
    unfold reflections_of. rewrite Hsame. simpl.
    rewrite lookup_insert_eq. simpl. by rewrite lookup_insert_eq.
Qed.


(** A background analysis that reports success has set the status of the
    reflection to [completed]. *)
Lemma analyzeTranscriptBackground_success userId docId transcript w data w' :
  analyzeTranscriptBackground userId docId transcript w = (Ok (Success data), w') →
  ∃ doc, reflections_of userId w' !! docId = Some doc
         ∧ analysisStatus doc = Some completed
         ∧ is_Some (primaryEmotion doc) ∧ is_Some (dailyInsight doc).
Proof.
  unfold analyzeTranscriptBackground. unfold bind at 1, console_log.
  set (w0 := with_console _ w).
  unfold try_catch at 1.
  match goal with |- context [bind (callGemini ?p ?u ?o ?d) ?k w0] =>
    set (attempt := bind (callGemini p u o d) k)
  end.
  destruct (attempt w0) as [[result|err] w1] eqn:Hattempt; simpl.
  2:{ unfold bind at 1, console_log. unfold bind at 1.
      by destruct (try_catch _ _ _) as [[[]|?] ?]. }
  intros [= -> ->]. subst attempt. unfold bind at 1 in Hattempt.
  destruct (callGemini_run (TranscriptPrompt transcript) (Some userId) "voice-analysis"
              "Voice transcript analysis" w0) as (w1 & Hcall & _).
  rewrite Hcall in Hattempt. clear Hcall.
  destruct (client_outcome _) as [parsed|err]; [|done].
  unfold prop, firestore_value in Hattempt.
  destruct parsed as [| | | | |fields]; try done.
  unfold bind, ret, throw in Hattempt. simpl in Hattempt.
  repeat match type of Hattempt with
    | context [lookup_field ?k fields] =>
        destruct (lookup_field k fields); simpl in Hattempt; try done
    end.
  unfold reflection_update, store_op in Hattempt.
  destruct (storeFault w1 (storeOps w1)); [done|]. simpl in Hattempt.
  change (reflections_of userId (with_storeOps _ w1)) with (reflections_of userId w1)
    in Hattempt.
  destruct (reflections_of userId w1 !! docId) as [doc|] eqn:Hdoc; [|done].
  simpl in Hattempt. injection Hattempt as _ <-.
  exists (completed_fields j j0 j1 j2 j3 doc). split; [|by simpl; eauto].
  unfold reflections_of. simpl. rewrite lookup_insert_eq. simpl. by rewrite lookup_insert_eq.
Qed.

(** C2: when the background analysis of a reflection succeeds, so that
    its status has become [completed], the task sets the user's
    [weeklyAnalysisCache] to [null] (the store taking the write).  A
    weekly request that then meets this user document is not answered
    from the cache, whatever entry was there before: the route goes on to
    generate the analysis. *)
Theorem completion_clears_weekly_cache (userId docId transcript : string) (w : World)
    (data : json) :
  (analyzeTranscriptBackground userId docId transcript w).1 = Ok (Success data) →
  storeFault w (storeOps (analyzeTranscriptBackground userId docId transcript w).2) = false →
  ∃ w',
    Analysis.run_background (TranscriptAnalysis userId docId transcript) w = (Ok tt, w')
    ∧ (∃ doc, reflections_of userId w' !! docId = Some doc
              ∧ analysisStatus doc = Some completed)
    ∧ (∃ user, users w' !! userId = Some user ∧ weeklyAnalysisCache user = Some None)
    ∧ ∀ body w'',
        truthy (Body.userId body) = true → or_else (Body.userId body) "" = userId →
        users w'' !! userId = users w' !! userId →
        storeFault w'' (storeOps w'') = false →
        ∃ rest, console (Analysis.analyze_weekly body w'').2
                = console w'' ++ GeneratingFresh :: rest.
Proof.
  intros Hsuccess Hstore.
  pose proof (steady_analyzeTranscriptBackground userId docId transcript w)
    as (_ & Hfault & _).
  unfold Analysis.run_background, try_catch at 1, bind at 1.
  destruct (analyzeTranscriptBackground userId docId transcript w) as [r w1] eqn:Hrun.
  simpl in Hsuccess, Hstore, Hfault. subst r.
  destruct (analyzeTranscriptBackground_success _ _ _ _ _ _ Hrun)
    as (doc & Hdoc & Hstatus & _).
  unfold bind, console_log, not_awaited, try_catch, user_set_merge, store_op. simpl.
  rewrite Hfault, Hstore. simpl. eexists. split; [reflexivity|]. split_and!.
  - by exists doc.
  - simpl. rewrite lookup_insert_eq. eexists. split; [reflexivity|].
    by destruct (users w1 !! userId) as [old|]; simpl;
      [destruct (weeklyAnalysisCache old) as [[?|]|]|].
  - intros body w'' Hid Huser Hsame Hstore''.
    apply analyze_weekly_miss_logs; [done..|].
    unfold fresh_cache. rewrite Huser, Hsame. simpl. rewrite lookup_insert_eq.
    unfold cache_of.
    by destruct (users w1 !! userId) as [old|]; simpl;
      [destruct (weeklyAnalysisCache old) as [[?|]|]|].
Qed.

End ReflectionProps.

(** ** The routes of a reflection on the sample worlds *)

Lemma save_transcript_example :
  ∃ docId doc w',
    Analysis.save_transcript (H := Reference.platform) Sample.submit_request
      Sample.empty_world
    = (Ok (respond 200 (ReflectionBody docId "u1" doc)), w')
    ∧ analysisStatus doc = Some pending
    ∧ inputType doc = "voice"
    ∧ transcript doc = JStr "had a hard day"
    ∧ primaryEmotion doc = None
    ∧ generated w' = []
    ∧ background w' = [TranscriptAnalysis "u1" docId "had a hard day"]
    ∧ reflections_of "u1" w' !! docId = Some doc
    ∧ ∀ w'', reflections w'' = reflections w' →
             storeFault w'' (storeOps w'') = false →
             (Analysis.reflection_by_id "u1" docId w'').1
             = Ok (respond 200 (FoundBody docId doc)).
Proof.
  exact (proj2 (@save_transcript_answers_pending Reference.platform
                  Sample.submit_request Sample.empty_world)
           eq_refl eq_refl eq_refl eq_refl).
Defined.

Lemma completion_clears_weekly_cache_example :
  ∃ w',
    Analysis.run_background (H := Reference.platform)
      (TranscriptAnalysis "u1" "2026-01-18_11-30-45" "had a hard day") Sample.pending_world
    = (Ok tt, w')
    ∧ cache_of (users Sample.pending_world !! "u1") = Some Sample.cached_entry
    ∧ cache_of (users w' !! "u1") = None.
Proof.
  destruct (@completion_clears_weekly_cache Reference.platform
              "u1" "2026-01-18_11-30-45" "had a hard day" Sample.pending_world
              Sample.analysis_data)
    as (w' & Hrun & _ & (user & Huser & Hnull) & _).
  - vm_compute. reflexivity.
  - vm_compute. reflexivity.
  - exists w'. split_and!; [done..|]. unfold cache_of. by rewrite Huser, Hnull.
Defined.

Lemma analyze_daily_example :
  daily_shape
    (mkReflection "2026-01-18" (JStr "had a hard day") (Sample.noon + 100) "text" None
       (Some (JStr "A heavy day.")) (Some (JStr "tired")) (Some (JStr "sad"))
       (Some (JStr "medium")) (Some (JStr "work")) None).
Proof.
  refine (proj1 (@analyze_daily_writes_no_status Reference.platform Sample.daily_request
                   Sample.empty_world "u1" "2026-01-18_11-30-45" _ _ _)).
  - vm_compute. reflexivity.
  - vm_compute. discriminate.
Defined.

(** * Further properties *)

(** ** The Usage Recorder, when the store takes its write *)

Section RecorderProps.
Context `{Platform}.

(** The run of the recorder when the store answers and the stored logs,
    if any, are an array. *)
Lemma incrementAPICount_writes userId operation details w logs :
  truthy userId = true →
  storeFault w (storeOps w) = false →
  storeFault w (S (storeOps w)) = false →
  default (LogsArray []) (apiLogs (default no_fields (users w !! or_else userId "")))
  = LogsArray logs →
  let old := default no_fields (users w !! or_else userId "") in
  let today := isoDate (clock w) in
  let type := operationTypeOf operation in
  let data :=
    usage_fields (default 0 (apiRequestCount old) + 1)
      (drop (length logs - 99) logs ++ [mkApiLog (clock w) operation details])
      (mkApiUsage
         (<[today := default 0 (from_option byDate ∅ (apiUsage old) !! today) + 1]>
            (from_option byDate ∅ (apiUsage old)))
         (<[type := default 0 (from_option byType ∅ (apiUsage old) !! type) + 1]>
            (from_option byType ∅ (apiUsage old)))
         (clock w)) in
  users (incrementAPICount userId operation details w).2 !! or_else userId ""
  = Some (match users w !! or_else userId "" with
          | Some stored => merge_user data stored
          | None => data
          end).
Proof.
  intros Hid Hget Hset Hlogs. simpl.
  unfold incrementAPICount, try_catch, bind, user_get, store_op, dateNow. rewrite Hid. simpl.
  rewrite Hget. simpl. rewrite Hlogs. simpl.
  unfold user_set_merge, store_op. simpl. rewrite Hset. simpl.
  by rewrite lookup_insert_eq.
Qed.

(** X1: one more request is counted: in the total, under the day of the
    clock and under the type of the operation; the counts of the other
    days and types stay. *)
Theorem recorder_counts_request (userId : option string) (operation details : string)
    (w : World) (logs : list ApiLog) :
  truthy userId = true →
  storeFault w (storeOps w) = false →
  storeFault w (S (storeOps w)) = false →
  default (LogsArray []) (apiLogs (default no_fields (users w !! or_else userId "")))
  = LogsArray logs →
  let old := default no_fields (users w !! or_else userId "") in
  let oldByDate := from_option byDate ∅ (apiUsage old) in
  let oldByType := from_option byType ∅ (apiUsage old) in
  let today := isoDate (clock w) in
  let type := operationTypeOf operation in
  ∃ doc usage,
    users (incrementAPICount userId operation details w).2 !! or_else userId "" = Some doc
    ∧ apiRequestCount doc = Some (default 0 (apiRequestCount old) + 1)
    ∧ apiUsage doc = Some usage
    ∧ byDate usage !! today = Some (default 0 (oldByDate !! today) + 1)
    ∧ (∀ day, day ≠ today → byDate usage !! day = oldByDate !! day)
    ∧ byType usage !! type = Some (default 0 (oldByType !! type) + 1)
    ∧ (∀ other, other ≠ type → byType usage !! other = oldByType !! other)
    ∧ lastUpdated usage = clock w.
Proof.
  intros Hid Hget Hset Hlogs. simpl.
  rewrite (incrementAPICount_writes _ _ _ _ _ Hid Hget Hset Hlogs).
  destruct (users w !! or_else userId "") as [[n e la c cnt lg [u|]]|]; simpl.
  - eexists _, (mkApiUsage _ _ _). split_and!; [reflexivity..| | | | |]; simpl.
    + by rewrite lookup_union_l', lookup_insert_eq by (by rewrite lookup_insert_eq).
    + intros day Hday. rewrite lookup_union, lookup_insert_ne by done.
      by destruct (byDate u !! day).
    + by rewrite lookup_union_l', lookup_insert_eq by (by rewrite lookup_insert_eq).
    + intros other Hother. rewrite lookup_union, lookup_insert_ne by done.
      by destruct (byType u !! other).
    + done.
  - eexists _, (mkApiUsage _ _ _). split_and!; [reflexivity..| | | | |]; simpl.
    + by rewrite lookup_insert_eq.
    + intros day Hday. by rewrite lookup_insert_ne.
    + by rewrite lookup_insert_eq.
    + intros other Hother. by rewrite lookup_insert_ne.
    + done.
  - eexists _, (mkApiUsage _ _ _). split_and!; [reflexivity..| | | | |]; simpl.
    + by rewrite lookup_insert_eq.
    + intros day Hday. by rewrite lookup_insert_ne.
    + by rewrite lookup_insert_eq.
    + intros other Hother. by rewrite lookup_insert_ne.
    + done.
Qed.

(** X2: the log of the request is appended, and of the logs stored before
    the last 99 are kept: the stored logs never count more than 100. *)
Theorem recorder_keeps_last_logs (userId : option string) (operation details : string)
    (w : World) (logs : list ApiLog) :
  truthy userId = true →
  storeFault w (storeOps w) = false →
  storeFault w (S (storeOps w)) = false →
  default (LogsArray []) (apiLogs (default no_fields (users w !! or_else userId "")))
  = LogsArray logs →
  ∃ doc kept,
    users (incrementAPICount userId operation details w).2 !! or_else userId "" = Some doc
    ∧ apiLogs doc = Some (LogsArray (kept ++ [mkApiLog (clock w) operation details]))
    ∧ kept `suffix_of` logs
    ∧ length kept = Nat.min 99 (length logs)
    ∧ (length (kept ++ [mkApiLog (clock w) operation details]) ≤ 100)%nat.
Proof.
  intros Hid Hget Hset Hlogs.
  rewrite (incrementAPICount_writes _ _ _ _ _ Hid Hget Hset Hlogs).
  eexists _, (drop (length logs - 99) logs).
  split; [done|]. split_and!.
  - by destruct (users w !! or_else userId "").
  - apply suffix_drop.
  - rewrite length_drop. lia.
  - rewrite length_app, length_drop. simpl. lia.
Qed.

(** X3: stored logs that are no array stop the recorder before it writes:
    the request is not counted, and the recorder says so on the console. *)
Theorem recorder_needs_array_logs (userId : option string) (operation details : string)
    (w : World) (stored : UserDoc) :
  truthy userId = true →
  users w !! or_else userId "" = Some stored →
  apiLogs stored = Some LogsNotArray →
  ∃ msg w',
    incrementAPICount userId operation details w = (Ok tt, w')
    ∧ users w' = users w
    ∧ console w' = console w ++ [RecorderFailed msg].
Proof.
  intros Hid Hstored Hlogs.
  unfold incrementAPICount, try_catch, bind, user_get, store_op, dateNow, console_log.
  rewrite Hid. simpl. destruct (storeFault w (storeOps w)); simpl; [by do 2 eexists|].
  rewrite Hstored. simpl. rewrite Hlogs. simpl. by do 2 eexists.
Qed.

(** X4: the recorder writes with a merge: of a user document that is there it
    keeps the name, the email, the last activity and the weekly cache, and
    in no world does it touch another user or a reflection. *)
Theorem recorder_keeps_profile (userId : option string) (operation details : string)
    (w : World) :
  reflections (incrementAPICount userId operation details w).2 = reflections w
  ∧ (∀ other, other ≠ or_else userId "" →
       users (incrementAPICount userId operation details w).2 !! other = users w !! other)
  ∧ (∀ stored, users w !! or_else userId "" = Some stored →
       ∃ doc,
         users (incrementAPICount userId operation details w).2 !! or_else userId ""
         = Some doc
         ∧ name doc = name stored ∧ email doc = email stored
         ∧ lastActive doc = lastActive stored
         ∧ weeklyAnalysisCache doc = weeklyAnalysisCache stored).
Proof.
  unfold incrementAPICount. destruct (truthy userId); simpl; [|by eauto 10].
  unfold try_catch, bind, user_get, store_op, dateNow, console_log. simpl.
  destruct (storeFault w (storeOps w)); simpl; [by eauto 10|].
  unfold append_log.
  destruct (default (LogsArray []) (apiLogs (default no_fields (users w !! or_else userId ""))));
    simpl; [|by eauto 10].
  unfold user_set_merge, store_op. simpl.
  destruct (storeFault w (S (storeOps w))); simpl; [by eauto 10|].
  split_and!; [done| |].
  - intros other Hne. by rewrite lookup_insert_ne.
  - intros stored Hstored. rewrite lookup_insert_eq, Hstored. eexists. split; [done|].
    simpl. by destruct (weeklyAnalysisCache stored) as [[?|]|].
Qed.

End RecorderProps.

(** ** The recorder on the sample worlds *)

Lemma recorder_counts_request_example :
  let w' := (@incrementAPICount Reference.platform (Some "u1") "voice-analysis" ""
               Sample2.busy_world).2 in
  ∃ doc usage,
    users w' !! "u1" = Some doc
    ∧ apiRequestCount doc = Some 151
    ∧ apiUsage doc = Some usage
    ∧ byDate usage !! "2026-01-18" = Some 8
    ∧ byDate usage !! "2026-01-17" = Some 143
    ∧ byType usage !! "voice" = Some 1
    ∧ byType usage !! "text" = Some 150.
Proof.
  intros w'.
  destruct (@recorder_counts_request Reference.platform (Some "u1") "voice-analysis" ""
              Sample2.busy_world _ eq_refl eq_refl eq_refl eq_refl)
    as (doc & usage & Hdoc & Hcount & Husage & Hday & Hdays & Htype & Htypes & _).
  exists doc, usage. split_and!; [done..| | |done|].
  - exact Hday.
  - assert ("2026-01-17" ≠ @isoDate Reference.platform (clock Sample2.busy_world)) as Hne
      by (by vm_compute).
    rewrite (Hdays _ Hne). by vm_compute.
  - exact (Htypes "text" ltac:(done)).
Defined.

Lemma recorder_keeps_last_logs_example :
  let w' := (@incrementAPICount Reference.platform (Some "u1") "voice-analysis" ""
               Sample2.busy_world).2 in
  ∃ doc kept,
    users w' !! "u1" = Some doc
    ∧ apiLogs doc = Some (LogsArray (kept ++ [mkApiLog Sample.noon "voice-analysis" ""]))
    ∧ length kept = 99%nat.
Proof.
  intros w'.
  destruct (@recorder_keeps_last_logs Reference.platform (Some "u1") "voice-analysis" ""
              Sample2.busy_world _ eq_refl eq_refl eq_refl eq_refl)
    as (doc & kept & Hdoc & Hlogs & _ & Hlen & _).
  by exists doc, kept.
Defined.

Lemma recorder_needs_array_logs_example :
  ∃ msg w',
    @incrementAPICount Reference.platform (Some "u1") "voice-analysis" "" Sample2.odd_world
    = (Ok tt, w')
    ∧ users w' = users Sample2.odd_world
    ∧ console w' = [RecorderFailed msg].
Proof.
  exact (@recorder_needs_array_logs Reference.platform (Some "u1") "voice-analysis" ""
           Sample2.odd_world Sample2.odd_user eq_refl eq_refl eq_refl).
Defined.

(** ** Computations that do not throw *)

Section NeverThrows.

Lemma never_throws_ret {A} (a : A) : never_throws (ret a).
Proof. intros w. by eexists _, _. Qed.

Lemma never_throws_console_log line : never_throws (console_log line).
Proof. intros w. by eexists _, _. Qed.

Lemma never_throws_bind {A B} (m : M A) (k : A → M B) :
  never_throws m → (∀ a, never_throws (k a)) → never_throws (bind m k).
Proof.
  intros Hm Hk w. unfold bind. destruct (Hm w) as (a & w1 & ->). apply Hk.
Qed.

Lemma never_throws_try_catch {A} (m : M A) (handler : JsError → M A) :
  (∀ e, never_throws (handler e)) → never_throws (try_catch m handler).
Proof.
  intros Hh w. unfold try_catch. destruct (m w) as [[a|e] w1]; [by eexists _, _|apply Hh].
Qed.

End NeverThrows.

Create HintDb never_throws.

#[global] Hint Resolve never_throws_ret never_throws_console_log : never_throws.

Ltac never_throws_go :=
  repeat match goal with
    | |- ∀ _, _ => intro
    | |- never_throws (try_catch _ _) => apply never_throws_try_catch
    | |- never_throws (bind _ _) => apply never_throws_bind
    | |- never_throws _ => solve [eauto with never_throws]
    end.

Section AnalysisProps.
Context `{Platform}.

Lemma analyzeTextReflection_run textInput userId w :
  ∃ w', analyzeTextReflection textInput userId w
        = (Ok (analysis_of
                 (client_outcome
                    (reply (gemini w (length (generated w)) (TextPrompt textInput))))), w')
        ∧ call_frame (or_else userId "") (TextPrompt textInput) w w'
        ∧ clock w' = clock w
            + Z.max 0 (latency (gemini w (length (generated w)) (TextPrompt textInput))).
Proof.
  unfold analyzeTextReflection, try_catch, bind.
  destruct (callGemini_run (TextPrompt textInput) userId "text-analysis"
              "Daily text reflection" w) as (w' & -> & Hframe & Hclock).
  destruct (client_outcome _) as [data|error]; simpl; by eexists.
Qed.

Lemma never_throws_analyzeTranscriptBackground userId docId transcript :
  never_throws (analyzeTranscriptBackground userId docId transcript).
Proof. unfold analyzeTranscriptBackground. never_throws_go. Qed.

(** X5: the three analysis functions catch what the client throws: they
    return in every world, a failure carrying the message of the error.
    The weekly analysis of fewer than three reflections fails without a
    call of the service. *)
Theorem analysis_functions_never_reject (textInput : string) (userId : option string)
    (reflections : list (string * Reflection)) (uid docId transcript : string)
    (w : World) :
  (∃ w', analyzeTextReflection textInput userId w
         = (Ok (analysis_of
                  (client_outcome
                     (reply (gemini w (length (generated w)) (TextPrompt textInput))))),
            w'))
  ∧ (if bool_decide (length reflections < 3)%nat
     then analyzeWeeklyPatterns reflections userId w
          = (Ok (Failure "Not enough reflections for weekly analysis"), w)
     else ∃ w', analyzeWeeklyPatterns reflections userId w
                = (Ok (analysis_of
                         (client_outcome
                            (reply (gemini w (length (generated w))
                                      (WeeklyPrompt (List.map summarize reflections)))))),
                   w'))
  ∧ (∃ result w', analyzeTranscriptBackground uid docId transcript w = (Ok result, w')).
Proof.
  split_and!.
  - destruct (analyzeTextReflection_run textInput userId w) as (w' & Hrun & _). by exists w'.
  - case_bool_decide as Hlen.
    + unfold analyzeWeeklyPatterns. by rewrite bool_decide_eq_true_2.
    + destruct (analyzeWeeklyPatterns_run reflections userId w ltac:(lia))
        as (w' & Hrun & _). by exists w'.
  - apply never_throws_analyzeTranscriptBackground.
Qed.

(** The background analysis of a reflection that is in the store, when
    the store answers. *)
Lemma analyzeTranscriptBackground_settles userId docId transcript w doc :
  (∀ n, storeFault w n = false) →
  reflections_of userId w !! docId = Some doc →
  ∃ result w' doc',
    analyzeTranscriptBackground userId docId transcript w = (Ok result, w')
    ∧ reflections_of userId w' !! docId = Some doc'
    ∧ match result with
      | Success data =>
          ∃ fields insight primary secondary intensity theme,
            data = JObj fields
            ∧ client_outcome
                (reply (gemini w (length (generated w)) (TranscriptPrompt transcript)))
              = Ok data
            ∧ lookup_field "dailyInsight" fields = Some insight
            ∧ lookup_field "primaryEmotion" fields = Some primary
            ∧ lookup_field "secondaryEmotion" fields = Some secondary
            ∧ lookup_field "emotionalIntensity" fields = Some intensity
            ∧ lookup_field "theme" fields = Some theme
            ∧ doc' = completed_fields insight primary secondary intensity theme doc
      | Failure error => doc' = failed_fields error doc
      end.
Proof.
  intros Hstore Hdoc.
  unfold analyzeTranscriptBackground. unfold bind at 1, console_log.
  set (w0 := with_console _ w).
  match goal with |- context [try_catch ?m ?h] => set (attempt := m); set (handler := h) end.
  assert (∀ err w1,
            reflections w1 = reflections w → storeFault w1 = storeFault w →
            ∃ w', handler err w1 = (Ok (Failure (message err)), w')
                  ∧ reflections_of userId w' !! docId
                    = Some (failed_fields (message err) doc)) as Hhandler.
  { intros err w1 Hrefl Hfault. subst handler.
    unfold bind, console_log, try_catch, reflection_update, store_op. simpl.
    rewrite Hfault, Hstore. simpl.
    unfold reflections_of in Hdoc |- *. simpl. rewrite Hrefl, Hdoc. simpl.
    eexists. split; [reflexivity|]. simpl.
    rewrite lookup_insert_eq. simpl. by rewrite lookup_insert_eq. }
  unfold try_catch.
  destruct (attempt w0) as [[result|err] w1] eqn:Hattempt.
  - subst attempt. unfold bind at 1 in Hattempt.
    destruct (callGemini_run (TranscriptPrompt transcript) (Some userId) "voice-analysis"
                "Voice transcript analysis" w0)
      as (w2 & Hcall & (_ & _ & Hrefl & _ & Hfault & _) & _).
    rewrite Hcall in Hattempt. clear Hcall.
    change (reflections w0) with (reflections w) in Hrefl.
    change (storeFault w0) with (storeFault w) in Hfault.
    change (gemini w0) with (gemini w) in *. change (generated w0) with (generated w) in *.
    destruct (client_outcome _) as [parsed|err]; [|done].
    unfold prop, firestore_value in Hattempt.
    destruct parsed as [| | | | |fields]; try done.
    unfold bind, ret, throw in Hattempt. simpl in Hattempt.
    repeat match type of Hattempt with
      | context [lookup_field ?k fields] =>
          destruct (lookup_field k fields) eqn:?; simpl in Hattempt; try done
      end.
    unfold reflection_update, store_op in Hattempt.
    rewrite Hfault, Hstore in Hattempt. simpl in Hattempt.
    change (reflections_of userId (with_storeOps _ w2)) with (reflections_of userId w2)
      in Hattempt.
    assert (reflections_of userId w2 !! docId = Some doc) as Hdoc2.
    { unfold reflections_of in Hdoc |- *. by rewrite Hrefl. }
    rewrite Hdoc2 in Hattempt. simpl in Hattempt. injection Hattempt as <- <-.
    eexists _, _, _. split; [reflexivity|]. split.
    + unfold reflections_of. simpl. rewrite lookup_insert_eq. simpl.
      by rewrite lookup_insert_eq.
    + by eexists _, _, _, _, _, _.
  - assert (reflections w1 = reflections w ∧ storeFault w1 = storeFault w) as [Hrefl Hfault].
    { subst attempt. unfold bind at 1 in Hattempt.
      destruct (callGemini_run (TranscriptPrompt transcript) (Some userId) "voice-analysis"
                  "Voice transcript analysis" w0)
        as (w2 & Hcall & (_ & _ & Hrefl & _ & Hfault & _) & _).
      rewrite Hcall in Hattempt. clear Hcall.
      change (reflections w0) with (reflections w) in Hrefl.
      change (storeFault w0) with (storeFault w) in Hfault.
      destruct (client_outcome _) as [parsed|err']; [|by injection Hattempt as _ <-].
      unfold prop, firestore_value in Hattempt.
      assert (reflections_of userId w2 !! docId = Some doc) as Hdoc2.
      { unfold reflections_of in Hdoc |- *. by rewrite Hrefl. }
      destruct parsed as [| | | | |fields];
        unfold bind, ret, throw in Hattempt; simpl in Hattempt;
        try (by injection Hattempt as _ <-).
      repeat match type of Hattempt with
        | context [lookup_field ?k fields] =>
            destruct (lookup_field k fields); simpl in Hattempt;
            try (by injection Hattempt as _ <-)
        end.
      unfold reflection_update, store_op in Hattempt.
      rewrite Hfault, Hstore in Hattempt. simpl in Hattempt.
      change (reflections_of userId (with_storeOps _ w2)) with (reflections_of userId w2)
        in Hattempt.
      by rewrite Hdoc2 in Hattempt. }
    destruct (Hhandler err w1 Hrefl Hfault) as (w' & -> & Hdoc').
    by eexists _, _, _.
Qed.

(** X6: once the background analysis of a stored reflection has run, and the
    store has answered, the reflection is no longer pending.  It is
    [completed] when the client returned an object that has the five
    analysis fields: each is then the field of that object, and the date,
    the transcript, the time of creation, the input type and the error of
    the reflection are as they were.  It is [failed] when not: it then
    bears the message of the error, and every other field, the five
    analysis fields among them, is as it was. *)
Theorem background_settles_status (userId docId text : string) (w : World)
    (doc : Reflection) :
  (∀ n, storeFault w n = false) →
  reflections_of userId w !! docId = Some doc →
  ∃ result w' doc',
    analyzeTranscriptBackground userId docId text w = (Ok result, w')
    ∧ reflections_of userId w' !! docId = Some doc'
    ∧ transcript doc' = transcript doc
    ∧ match result with
      | Success data =>
          analysisStatus doc' = Some completed
          ∧ is_Some (dailyInsight doc') ∧ is_Some (primaryEmotion doc')
          ∧ is_Some (secondaryEmotion doc') ∧ is_Some (emotionalIntensity doc')
          ∧ is_Some (theme doc')
          ∧ ∃ fields,
              data = JObj fields
              ∧ client_outcome
                  (reply (gemini w (length (generated w)) (TranscriptPrompt text)))
                = Ok data
              ∧ doc'
                = {| date := date doc; transcript := transcript doc;
                     createdAt := createdAt doc; inputType := inputType doc;
                     analysisStatus := Some completed;
                     dailyInsight := lookup_field "dailyInsight" fields;
                     primaryEmotion := lookup_field "primaryEmotion" fields;
                     secondaryEmotion := lookup_field "secondaryEmotion" fields;
                     emotionalIntensity := lookup_field "emotionalIntensity" fields;
                     theme := lookup_field "theme" fields;
                     analysisError := analysisError doc |}
      | Failure error =>
          analysisStatus doc' = Some failed
          ∧ analysisError doc' = Some error
          ∧ primaryEmotion doc' = primaryEmotion doc
          ∧ dailyInsight doc' = dailyInsight doc
          ∧ doc'
            = {| date := date doc; transcript := transcript doc;
                 createdAt := createdAt doc; inputType := inputType doc;
                 analysisStatus := Some failed;
                 dailyInsight := dailyInsight doc;
                 primaryEmotion := primaryEmotion doc;
                 secondaryEmotion := secondaryEmotion doc;
                 emotionalIntensity := emotionalIntensity doc;
                 theme := theme doc;
                 analysisError := Some error |}
      end.
Proof.
  intros Hstore Hdoc.
  destruct (analyzeTranscriptBackground_settles userId docId text w doc Hstore Hdoc)
    as (result & w' & doc' & Hrun & Hdoc' & Hresult).
  exists result, w', doc'. split_and!; [done..| |].
  - destruct result as [data|error].
    + by destruct Hresult as (? & ? & ? & ? & ? & ? & _ & _ & _ & _ & _ & _ & _ & ->).
    + by subst doc'.
  - destruct result as [data|error].
    + destruct Hresult
        as (fields & ? & ? & ? & ? & ? & -> & Hok & Hi & Hp & Hs & He & Ht & ->).
      simpl. split_and!; [by eauto..|].
      exists fields. split_and!; [done..|].
      unfold completed_fields. by rewrite Hi, Hp, Hs, He, Ht.
    + by subst doc'.
Qed.

End AnalysisProps.

(** The reflection of [u1] waits for its analysis, and the service
    answers with the six fields. *)
Lemma background_settles_status_example :
  ∃ w' doc',
    @analyzeTranscriptBackground Reference.platform "u1" "2026-01-18_11-30-45"
      "had a hard day" Sample.pending_world
    = (Ok (Success Sample.analysis_data), w')
    ∧ reflections_of "u1" w' !! "2026-01-18_11-30-45" = Some doc'
    ∧ transcript doc' = JStr "had a hard day"
    ∧ analysisStatus doc' = Some completed
    ∧ is_Some (primaryEmotion doc')
    ∧ doc'
      = mkReflection "2026-01-18" (JStr "had a hard day") Sample.noon "voice" (Some completed)
          (Some (JStr "A heavy day.")) (Some (JStr "tired")) (Some (JStr "sad"))
          (Some (JStr "medium")) (Some (JStr "work")) None.
Proof.
  destruct (@background_settles_status Reference.platform "u1" "2026-01-18_11-30-45"
              "had a hard day" Sample.pending_world Sample.pending_reflection
              (λ _, eq_refl) ltac:(by vm_compute))
    as (result & w' & doc' & Hrun & Hdoc & Htext & Hresult).
  assert ((@analyzeTranscriptBackground Reference.platform "u1" "2026-01-18_11-30-45"
             "had a hard day" Sample.pending_world).1
          = Ok (Success Sample.analysis_data)) as Hfirst by (by vm_compute).
  rewrite Hrun in Hfirst. simpl in Hfirst. injection Hfirst as ->.
  destruct Hresult as (Hstatus & _ & Hprimary & _ & _ & _ & fields & Hfields & _ & Hdoc').
  injection Hfields as <-.
  exists w', doc'. by split_and!.
Defined.

(** ** What the background task touches *)

#[global] Instance touches_only_preorder userId docId : PreOrder (touches_only userId docId).
Proof.
  split; [by left|].
  intros w1 w2 w3 H12 H23 u d.
  destruct (H23 u d) as [Hsame2|(Hu & Hd & doc2 & doc3 & Hdoc2 & Hdoc3 & ? & ? & ? & ?)],
    (H12 u d) as [Hsame1|(Hu' & Hd' & doc1 & doc2' & Hdoc1 & Hdoc2' & ? & ? & ? & ?)].
  - left. congruence.
  - right. split_and!; [done..|]. exists doc1, doc2'. split_and!; congruence.
  - right. split_and!; [done..|]. exists doc2, doc3. split_and!; congruence.
  - right. split_and!; [done..|]. exists doc1, doc3.
    assert (doc2' = doc2) as -> by congruence. split_and!; congruence.
Qed.

Lemma touches_only_unchanged userId docId {A} (m : M A) :
  keeps same_reflections m → keeps (touches_only userId docId) m.
Proof. intros Hm w u d. left. unfold reflections_of. by rewrite (Hm w). Qed.

Lemma touches_only_reflection_update userId docId (f : Reflection → Reflection) :
  (∀ doc, date (f doc) = date doc ∧ transcript (f doc) = transcript doc
          ∧ createdAt (f doc) = createdAt doc ∧ inputType (f doc) = inputType doc) →
  keeps (touches_only userId docId) (reflection_update userId docId f).
Proof.
  intros Hf. apply keeps_store_op; [apply _|by left|].
  intros w u d.
  change (reflections_of userId (with_storeOps _ w)) with (reflections_of userId w).
  destruct (reflections_of userId w !! docId) as [doc|] eqn:Hdoc; simpl; [|by left].
  rewrite reflections_of_insert. case_decide as Hcase; [|by left].
  destruct Hcase as [-> ->]. right. split_and!; [done..|].
  exists doc, (f doc). split; [done|]. split; [done|]. apply Hf.
Qed.

Section TouchesProps.
Context `{Platform}.

Lemma touches_only_callGemini userId docId prompt uid operation details :
  keeps (touches_only userId docId) (callGemini prompt uid operation details).
Proof.
  apply keeps_callGemini; [apply _|intros; apply touches_only_unchanged; eauto with keeps..].
Qed.

Lemma touches_only_analyzeTranscriptBackground userId docId transcript :
  keeps (touches_only userId docId) (analyzeTranscriptBackground userId docId transcript).
Proof.
  unfold analyzeTranscriptBackground. pose proof touches_only_callGemini.
  repeat match goal with
    | |- ∀ _, _ => intro
    | |- keeps _ (bind _ _) => apply keeps_bind; [apply _| |]
    | |- keeps _ (try_catch _ _) => apply keeps_try_catch; [apply _| |]
    | |- keeps _ (reflection_update _ _ _) =>
        apply touches_only_reflection_update; by intros []
    | |- keeps _ _ => solve [eauto with keeps]
    | |- keeps _ _ => apply touches_only_unchanged; solve [eauto with keeps]
    end.
Qed.

(** X7: the background task of a reflection changes no other reflection, of
    no user; it neither creates nor deletes a reflection; and of its own
    reflection it leaves the date, the transcript, the time of creation
    and the input type as the submit route wrote them. *)
Theorem background_touches_one_document (userId docId text : string) (w : World)
    (u d : string) :
  let w' := (Analysis.run_background (TranscriptAnalysis userId docId text) w).2 in
  (reflections_of u w' !! d = reflections_of u w !! d
   ∨ (u = userId ∧ d = docId))
  ∧ (is_Some (reflections_of u w' !! d) ↔ is_Some (reflections_of u w !! d))
  ∧ ∀ doc', reflections_of u w' !! d = Some doc' →
            ∃ doc, reflections_of u w !! d = Some doc
                   ∧ date doc' = date doc ∧ transcript doc' = transcript doc
                   ∧ createdAt doc' = createdAt doc ∧ inputType doc' = inputType doc.
Proof.
  assert (keeps (touches_only userId docId)
            (Analysis.run_background (TranscriptAnalysis userId docId text))) as Hkeeps.
  { unfold Analysis.run_background, not_awaited.
    pose proof touches_only_analyzeTranscriptBackground.
    repeat match goal with
      | |- ∀ _, _ => intro
      | |- keeps _ (bind _ _) => apply keeps_bind; [apply _| |]
      | |- keeps _ (try_catch _ _) => apply keeps_try_catch; [apply _| |]
      | |- keeps _ (match ?x with _ => _ end) => destruct x
      | |- keeps _ _ => solve [eauto with keeps]
      | |- keeps _ _ => apply touches_only_unchanged; solve [eauto with keeps]
      end. }
  intros w'. subst w'.
  destruct (Hkeeps w u d) as [Hsame|(-> & -> & doc & doc' & Hdoc & Hdoc' & Hfields)].
  - rewrite Hsame. split_and!; [by left|done|]. intros doc' Hdoc'. by exists doc'.
  - rewrite Hdoc, Hdoc'. split_and!; [by right|done|].
    intros ? [= <-]. by exists doc.
Qed.

End TouchesProps.

(** ** What leaves the weekly cache alone *)

#[global] Instance same_caches_preorder : PreOrder same_caches.
Proof.
  split; [done|]. intros w1 w2 w3 H12 H23 userId. by rewrite H23, H12.
Qed.

Lemma same_caches_users {A} (m : M A) :
  (∀ w, users (m w).2 = users w) → keeps same_caches m.
Proof. intros Hm w userId. by rewrite Hm. Qed.

Lemma same_caches_console_log line : keeps same_caches (console_log line).
Proof. by apply same_caches_users. Qed.

Lemma same_caches_reflection_update userId docId f :
  keeps same_caches (reflection_update userId docId f).
Proof.
  apply same_caches_users. intros w. unfold reflection_update, store_op.
  destruct (storeFault w (storeOps w)); [done|].
  change (reflections_of userId (with_storeOps _ w)) with (reflections_of userId w).
  by destruct (reflections_of userId w !! docId).
Qed.

Section CacheProps.
Context `{Platform}.

Lemma same_caches_callGemini prompt userId operation details :
  keeps same_caches (callGemini prompt userId operation details).
Proof.
  intros w uid.
  destruct (callGemini_run prompt userId operation details w)
    as (w' & -> & (_ & _ & _ & _ & _ & Hother & Hcache) & _). simpl.
  destruct (decide (uid = or_else userId "")) as [->|Hne]; [done|].
  by rewrite Hother.
Qed.

Lemma same_caches_analyzeTranscriptBackground userId docId transcript :
  keeps same_caches (analyzeTranscriptBackground userId docId transcript).
Proof.
  unfold analyzeTranscriptBackground.
  pose proof same_caches_callGemini. pose proof same_caches_console_log.
  pose proof same_caches_reflection_update.
  keeps_go.
Qed.

(** X8: a background analysis that fails leaves the weekly cache of every
    user as it was: the cache is cleared by a success only. *)
Theorem failed_analysis_keeps_cache (userId docId text error : string) (w : World) :
  (analyzeTranscriptBackground userId docId text w).1 = Ok (Failure error) →
  ∀ uid,
    cache_of (users (Analysis.run_background (TranscriptAnalysis userId docId text) w).2
                !! uid)
    = cache_of (users w !! uid).
Proof.
  intros Hfail uid.
  pose proof (same_caches_analyzeTranscriptBackground userId docId text w uid) as Hsame.
  unfold Analysis.run_background, try_catch, bind.
  destruct (analyzeTranscriptBackground userId docId text w) as [r w1].
  simpl in Hfail, Hsame. by subst r.
Qed.

End CacheProps.

Lemma failed_analysis_keeps_cache_example :
  cache_of
    (users
       (Analysis.run_background (H := Reference.platform)
          (TranscriptAnalysis "u1" "2026-01-18_11-30-45" "had a hard day")
          Sample2.garbled_pending_world).2 !! "u1")
  = Some Sample.cached_entry.
Proof.
  rewrite (@failed_analysis_keeps_cache Reference.platform "u1" "2026-01-18_11-30-45"
             "had a hard day" "Invalid AI response format - could not parse JSON"
             Sample2.garbled_pending_world); [reflexivity|].
  vm_compute. reflexivity.
Defined.

(** ** The weekly route: what it caches and serves again *)

Section WeeklyCacheProps.
Context `{Platform}.

(** A fresh entry is served. *)
Lemma analyze_weekly_hit body w entry :
  truthy (Body.userId body) = true →
  storeFault w (storeOps w) = false →
  cache_of (users w !! or_else (Body.userId body) "") = Some entry →
  clock w - timestamp entry < CACHE_DURATION →
  Analysis.analyze_weekly body w
  = (Ok (respond 200
           (WeeklyBody
              (mkWeeklyAnswer true (Some (reflectionCount entry)) (Some (analysis entry))
                 None None))),
     with_console (console w ++ [CachedWeekly ((clock w - timestamp entry) / 60000)])
       (with_storeOps (S (storeOps w)) w)).
Proof.
  intros Hid Hstore Hentry Hfresh.
  unfold Analysis.analyze_weekly, try_catch, bind, user_get, store_op, dateNow.
  rewrite Hid. simpl. rewrite Hstore. simpl. rewrite Hentry.
  by rewrite bool_decide_eq_true_2.
Qed.

(** An answer with an analysis that was not served from the cache: the
    analysis is the client's when it came in time and the fallback's when
    not, and it has been written into the cache, over what was there. *)
Lemma analyze_weekly_generated body w a w' :
  truthy (Body.userId body) = true →
  (∀ n, storeFault w n = false) →
  fresh_cache (clock w) (users w !! or_else (Body.userId body) "") = None →
  Analysis.analyze_weekly body w = (Ok (respond 200 (WeeklyBody a)), w') →
  hasEnoughData a = true →
  let userId := or_else (Body.userId body) "" in
  let recent := query_recent 7 (reflections_of userId w) in
  let outcome := gemini w (length (generated w)) (WeeklyPrompt (List.map summarize recent)) in
  ∃ data,
    a = mkWeeklyAnswer true (Some (length recent)) (Some data) None None
    ∧ (3 ≤ length recent)%nat
    ∧ (if bool_decide (Z.max 0 (latency outcome) < GEMINI_TIMEOUT)
       then client_outcome (reply outcome) = Ok data
       else syntheticAnalysis recent = Success data)
    ∧ generated w' = generated w ++ [WeeklyPrompt (List.map summarize recent)]
    ∧ cache_of (users w' !! userId)
      = Some (mkCacheEntry (clock w') (length recent)
                match cache_of (users w !! userId) with
                | Some old => merge_json data (analysis old)
                | None => data
                end).
Proof.
  intros Hid Hstore Hfresh Hrun Henough. simpl.
  rewrite (analyze_weekly_generates body w Hid Hstore Hfresh) in Hrun.
  set (userId := or_else (Body.userId body) "") in *.
  destruct (generate_weekly_run userId (with_storeOps (S (storeOps w)) w) Hstore)
    as (w0 & Hgen & _ & Hprompts & Hcache).
  simpl in Hgen, Hprompts, Hcache.
  change (reflections_of userId (with_storeOps _ w)) with (reflections_of userId w) in *.
  rewrite Hgen in Hrun. injection Hrun as Hanswer <-.
  unfold weekly_answer in Hanswer.
  destruct (query_recent 7 (reflections_of userId w)) as [|r rs] eqn:Hrecent.
  { injection Hanswer as <-. done. }
  case_bool_decide as Hlen.
  { injection Hanswer as <-. done. }
  match type of Hanswer with context [if ?b then analysis_of ?o else ?f] =>
    destruct (if b then analysis_of o else f) as [data|error] eqn:Hresult end; [|done].
  injection Hanswer as <-. exists data. split_and!; [done|lia| |done|done].
  case_bool_decide.
  - by destruct (client_outcome _); simplify_eq/=.
  - done.
Qed.

(** X9: a weekly analysis that has been generated for a user without cache
    entry is served again, as it was answered and without a call of the
    service, to every request that reads the user's document within 24
    hours. *)
Theorem weekly_answer_is_served_again (body : Body.t) (w w' : World) (a : WeeklyAnswer) :
  truthy (Body.userId body) = true →
  (∀ n, storeFault w n = false) →
  cache_of (users w !! or_else (Body.userId body) "") = None →
  Analysis.analyze_weekly body w = (Ok (respond 200 (WeeklyBody a)), w') →
  hasEnoughData a = true →
  ∀ later,
    users later !! or_else (Body.userId body) "" = users w' !! or_else (Body.userId body) "" →
    storeFault later (storeOps later) = false →
    clock later - clock w' < CACHE_DURATION →
    (Analysis.analyze_weekly body later).1 = Ok (respond 200 (WeeklyBody a))
    ∧ generated (Analysis.analyze_weekly body later).2 = generated later.
Proof.
  intros Hid Hstore Hnone Hrun Henough later Husers Hlater Hage.
  assert (fresh_cache (clock w) (users w !! or_else (Body.userId body) "") = None) as Hfresh
    by (unfold fresh_cache; by rewrite Hnone).
  destruct (analyze_weekly_generated body w a w' Hid Hstore Hfresh Hrun Henough)
    as (data & -> & _ & _ & _ & Hcache).
  rewrite Hnone in Hcache.
  rewrite (analyze_weekly_hit body later _ Hid Hlater (eq_trans (f_equal cache_of Husers) Hcache))
    by done.
  done.
Qed.

(** X10: a weekly analysis that is generated over a stale entry is merged into
    it: the cache keeps the fields of the old analysis that the new one
    does not name, and the requests of the next 24 hours are served the
    merged analysis, not the one that was answered. *)
Theorem weekly_regeneration_merges_stale_entry (body : Body.t) (w w' : World)
    (a : WeeklyAnswer) (old : CacheEntry) :
  truthy (Body.userId body) = true →
  (∀ n, storeFault w n = false) →
  cache_of (users w !! or_else (Body.userId body) "") = Some old →
  CACHE_DURATION ≤ clock w - timestamp old →
  Analysis.analyze_weekly body w = (Ok (respond 200 (WeeklyBody a)), w') →
  hasEnoughData a = true →
  ∃ data,
    answerAnalysis a = Some data
    ∧ ∀ later,
        users later !! or_else (Body.userId body) ""
        = users w' !! or_else (Body.userId body) "" →
        storeFault later (storeOps later) = false →
        clock later - clock w' < CACHE_DURATION →
        (Analysis.analyze_weekly body later).1
        = Ok (respond 200
                (WeeklyBody
                   (mkWeeklyAnswer true (answerReflectionCount a)
                      (Some (merge_json data (analysis old))) None None))).
Proof.
  intros Hid Hstore Hold Hstale Hrun Henough.
  assert (fresh_cache (clock w) (users w !! or_else (Body.userId body) "") = None) as Hfresh
    by (unfold fresh_cache; rewrite Hold; by rewrite bool_decide_eq_false_2 by lia).
  destruct (analyze_weekly_generated body w a w' Hid Hstore Hfresh Hrun Henough)
    as (data & -> & _ & _ & _ & Hcache).
  rewrite Hold in Hcache. exists data. split; [done|].
  intros later Husers Hlater Hage.
  by rewrite (analyze_weekly_hit body later _ Hid Hlater
                (eq_trans (f_equal cache_of Husers) Hcache)) by done.
Qed.


End WeeklyCacheProps.

(** ** The weekly cache on the sample worlds *)

Lemma weekly_answer_is_served_again_example :
  let first := Analysis.analyze_weekly (H := Reference.platform) Sample.weekly_request
                 Sample2.uncached_world in
  let a := mkWeeklyAnswer true (Some 3%nat) (Some (JObj [("a", JNum 1)])) None None in
  first.1 = Ok (respond 200 (WeeklyBody a))
  ∧ (Analysis.analyze_weekly (H := Reference.platform) Sample.weekly_request first.2).1
    = Ok (respond 200 (WeeklyBody a))
  ∧ generated (Analysis.analyze_weekly (H := Reference.platform) Sample.weekly_request
                 first.2).2
    = generated first.2.
Proof.
  intros first a.
  assert (first = (Ok (respond 200 (WeeklyBody a)), first.2)) as Hrun.
  { rewrite (surjective_pairing first) at 1; f_equal; by vm_compute. }
  split; [by rewrite Hrun|].
  apply (@weekly_answer_is_served_again Reference.platform Sample.weekly_request
           Sample2.uncached_world first.2 a eq_refl (λ _, eq_refl) eq_refl Hrun eq_refl
           first.2 eq_refl).
  - by vm_compute.
  - by vm_compute.
Defined.

(** The stale entry holds [weeklyInsight]; the service answers [{a: 1}],
    which is what the request is answered; the next request is served
    both fields. *)
Lemma weekly_regeneration_merges_stale_entry_example :
  let first := Analysis.analyze_weekly (H := Reference.platform) Sample.weekly_request
                 Sample.stale_world in
  first.1
  = Ok (respond 200
          (WeeklyBody
             (mkWeeklyAnswer true (Some 3%nat) (Some (JObj [("a", JNum 1)])) None None)))
  ∧ (Analysis.analyze_weekly (H := Reference.platform) Sample.weekly_request first.2).1
    = Ok (respond 200
            (WeeklyBody
               (mkWeeklyAnswer true (Some 3%nat)
                  (Some (JObj [("weeklyInsight", JStr "A calm week."); ("a", JNum 1)]))
                  None None))).
Proof.
  intros first.
  set (a := mkWeeklyAnswer true (Some 3%nat) (Some (JObj [("a", JNum 1)])) None None).
  assert (first = (Ok (respond 200 (WeeklyBody a)), first.2)) as Hrun.
  { rewrite (surjective_pairing first) at 1; f_equal; by vm_compute. }
  split; [by rewrite Hrun|].
  destruct (@weekly_regeneration_merges_stale_entry Reference.platform Sample.weekly_request
              Sample.stale_world first.2 a Sample.cached_entry eq_refl (λ _, eq_refl)
              eq_refl ltac:(by vm_compute) Hrun eq_refl) as (data & Hdata & Hlater).
  injection Hdata as <-.
  apply (Hlater first.2 eq_refl); by vm_compute.
Defined.


(** ** The daily route *)

Section DailyProps.
Context `{Platform}.

(** The route up to the answer of the analysis. *)
Lemma analyze_daily_analysed body w :
  truthy (Body.userId body) = true →
  truthy (Body.textInput body) = true →
  let userId := or_else (Body.userId body) "" in
  let textInput := or_else (Body.textInput body) "" in
  let outcome := gemini w (length (generated w)) (TextPrompt textInput) in
  ∃ w1,
    analyzeTextReflection textInput (Some userId)
      (with_console (console w ++ [DailyReqBody]) w)
    = (Ok (analysis_of (client_outcome (reply outcome))), w1)
    ∧ reflections w1 = reflections w
    ∧ storeFault w1 = storeFault w
    ∧ generated w1 = generated w ++ [TextPrompt textInput]
    ∧ clock w1 = clock w + Z.max 0 (latency outcome)
    ∧ (∀ other, other ≠ userId → users w1 !! other = users w !! other)
    ∧ cache_of (users w1 !! userId) = cache_of (users w !! userId).
Proof.
  intros Hid Htext. simpl.
  destruct (analyzeTextReflection_run (or_else (Body.textInput body) "")
              (Some (or_else (Body.userId body) ""))
              (with_console (console w ++ [DailyReqBody]) w))
    as (w1 & Hrun & (_ & Hgen & Hrefl & _ & Hfault & Hother & Hcache) & Hclock).
  exists w1. split; [exact Hrun|].
  assert (or_else (Some (or_else (Body.userId body) "")) "" = or_else (Body.userId body) "")
    as Hsame.
  { destruct (Body.userId body) as [s|]; [|done]. simpl in *.
    destruct (String.eqb s "") eqn:Hs; [done|]. simpl. by rewrite Hs. }
  rewrite Hsame in Hother, Hcache. done.
Qed.

(** X12: when the client fails, the daily route answers 500 with the message
    of the failure and has written no reflection; the weekly cache is as
    it was, and the service has been called once. *)
Theorem analyze_daily_failure_writes_nothing (body : Body.t) (w : World) (err : JsError) :
  truthy (Body.userId body) = true →
  truthy (Body.textInput body) = true →
  client_outcome
    (reply (gemini w (length (generated w))
              (TextPrompt (or_else (Body.textInput body) ""))))
  = Throw err →
  ∃ w',
    Analysis.analyze_daily body w = (Ok (respond 500 (ErrorBody (message err))), w')
    ∧ reflections w' = reflections w
    ∧ cache_of (users w' !! or_else (Body.userId body) "")
      = cache_of (users w !! or_else (Body.userId body) "")
    ∧ generated w' = generated w ++ [TextPrompt (or_else (Body.textInput body) "")].
Proof.
  intros Hid Htext Hfail.
  destruct (analyze_daily_analysed body w Hid Htext)
    as (w1 & Hrun & Hrefl & _ & Hgen & _ & _ & Hcache).
  rewrite Hfail in Hrun. simpl in Hrun.
  unfold Analysis.analyze_daily, try_catch. unfold bind at 1, console_log at 1.
  rewrite Hid, Htext. simpl. unfold bind at 1, dateNow at 1. unfold bind at 1.
  rewrite Hrun. by exists w1.
Qed.

(** X13: when the client returns an object with the six fields and the store
    takes the writes, the daily route stores the reflection it answers,
    under an id made of the date of the request and the time of the
    answer, writes the profile of the user, and sets the weekly cache to
    [null]: the next weekly request generates its analysis afresh. *)
Theorem analyze_daily_stores_and_invalidates (body : Body.t) (w : World)
    (fields : list (string * json))
    (text primary secondary topic intensity insight : json) :
  truthy (Body.userId body) = true →
  truthy (Body.textInput body) = true →
  (∀ n, storeFault w n = false) →
  client_outcome
    (reply (gemini w (length (generated w))
              (TextPrompt (or_else (Body.textInput body) ""))))
  = Ok (JObj fields) →
  lookup_field "transcript" fields = Some text →
  lookup_field "primaryEmotion" fields = Some primary →
  lookup_field "secondaryEmotion" fields = Some secondary →
  lookup_field "theme" fields = Some topic →
  lookup_field "emotionalIntensity" fields = Some intensity →
  lookup_field "dailyInsight" fields = Some insight →
  let userId := or_else (Body.userId body) "" in
  let now :=
    clock w
    + Z.max 0 (latency (gemini w (length (generated w))
                          (TextPrompt (or_else (Body.textInput body) "")))) in
  let dateStr := or_else (Body.date body) (isoDate (clock w)) in
  let docId := dateStr +:+ "_" +:+ JsString.replaceAll ":" "-" (timeOfDay now) in
  let doc :=
    mkReflection dateStr text now "text" None (Some insight) (Some primary)
      (Some secondary) (Some intensity) (Some topic) None in
  ∃ w',
    Analysis.analyze_daily body w = (Ok (respond 200 (AnalysisBody docId userId doc)), w')
    ∧ reflections_of userId w' !! docId = Some doc
    ∧ (∃ user,
         users w' !! userId = Some user
         ∧ weeklyAnalysisCache user = Some None
         ∧ name user = Some (or_else (Body.userName body) "Anonymous")
         ∧ email user = Some (or_else (Body.userEmail body) "")
         ∧ lastActive user = Some now)
    ∧ ∀ request later,
        truthy (Body.userId request) = true →
        or_else (Body.userId request) "" = userId →
        users later !! userId = users w' !! userId →
        storeFault later (storeOps later) = false →
        ∃ rest, console (Analysis.analyze_weekly request later).2
                = console later ++ GeneratingFresh :: rest.
Proof.
  intros Hid Htext Hstore Hok Ht Hp Hs Hth Hi Hin. simpl.
  destruct (analyze_daily_analysed body w Hid Htext)
    as (w1 & Hrun & Hrefl & Hfault & Hgen & Hclock & _ & _).
  rewrite Hok in Hrun. simpl in Hrun.
  unfold Analysis.analyze_daily, try_catch. unfold bind at 1, console_log at 1.
  rewrite Hid, Htext. simpl. unfold bind at 1, dateNow at 1. unfold bind at 1.
  rewrite Hrun. clear Hrun.
  unfold bind, dateNow, prop, ret, firestore_value, user_set_merge, reflection_set, store_op.
  simpl. rewrite Ht, Hp, Hs, Hth, Hi, Hin. simpl.
  rewrite !Hfault, !Hstore. simpl. rewrite !Hfault, !Hstore. simpl.
  rewrite !Hfault, !Hstore. simpl. rewrite Hclock.
  eexists. split; [reflexivity|]. simpl.
  assert (∀ (users0 : gmap string UserDoc) data,
            ∃ user,
              (<[or_else (Body.userId body) "" :=
                   match (<[or_else (Body.userId body) "" := data]> users0)
                         !! or_else (Body.userId body) "" with
                   | Some old => merge_user (cache_field None) old
                   | None => cache_field None
                   end]> (<[or_else (Body.userId body) "" := data]> users0))
              !! or_else (Body.userId body) "" = Some user
              ∧ weeklyAnalysisCache user = Some None
              ∧ name user = name data ∧ email user = email data
              ∧ lastActive user = lastActive data) as Huser.
  { intros users0 data. rewrite !lookup_insert_eq. eexists. split; [done|].
    by destruct (weeklyAnalysisCache data) as [[?|]|]. }
  split_and!.
  - unfold reflections_of. simpl. rewrite lookup_insert_eq. simpl.
    by rewrite lookup_insert_eq.
  - match goal with |- context [<[_ := ?data]> (users w1)] =>
      destruct (Huser (users w1) data) as (user & Huser1 & Hcache & Hname & Hemail & Hactive)
    end.
    exists user. split; [exact Huser1|]. split; [done|].
    rewrite Hname, Hemail, Hactive.
    by destruct (users w1 !! or_else (Body.userId body) "").
  - intros request later Hid' Hsame Husers Hlater.
    apply analyze_weekly_miss_logs; [done..|].
    unfold fresh_cache. rewrite Hsame, Husers.
    match goal with |- context [<[_ := ?data]> (users w1)] =>
      destruct (Huser (users w1) data) as (user & Huser1 & Hcache & _)
    end.
    simpl. rewrite Huser1. unfold cache_of. by rewrite Hcache.
Qed.

(** X14: when the object of the client lacks one of the six fields, the store
    refuses the reflection: the route answers 500 and no reflection is
    written, but the profile of the user has been written before, and the
    weekly cache is as it was. *)
Theorem analyze_daily_incomplete_object (body : Body.t) (w : World)
    (fields : list (string * json)) (missing : string) :
  truthy (Body.userId body) = true →
  truthy (Body.textInput body) = true →
  (∀ n, storeFault w n = false) →
  client_outcome
    (reply (gemini w (length (generated w))
              (TextPrompt (or_else (Body.textInput body) ""))))
  = Ok (JObj fields) →
  missing ∈ ["transcript"; "primaryEmotion"; "secondaryEmotion"; "theme";
             "emotionalIntensity"; "dailyInsight"] →
  lookup_field missing fields = None →
  let userId := or_else (Body.userId body) "" in
  let now :=
    clock w
    + Z.max 0 (latency (gemini w (length (generated w))
                          (TextPrompt (or_else (Body.textInput body) "")))) in
  ∃ w',
    Analysis.analyze_daily body w
    = (Ok (respond 500 (ErrorBody "Failed to analyze reflection")), w')
    ∧ reflections w' = reflections w
    ∧ cache_of (users w' !! userId) = cache_of (users w !! userId)
    ∧ ∃ user,
        users w' !! userId = Some user
        ∧ name user = Some (or_else (Body.userName body) "Anonymous")
        ∧ email user = Some (or_else (Body.userEmail body) "")
        ∧ lastActive user = Some now.
Proof.
  intros Hid Htext Hstore Hok Hkey Hmissing. simpl.
  destruct (analyze_daily_analysed body w Hid Htext)
    as (w1 & Hrun & Hrefl & Hfault & Hgen & Hclock & _ & Hcache).
  rewrite Hok in Hrun. simpl in Hrun.
  unfold Analysis.analyze_daily, try_catch. unfold bind at 1, console_log at 1.
  rewrite Hid, Htext. simpl. unfold bind at 1, dateNow at 1. unfold bind at 1.
  rewrite Hrun. clear Hrun.
  unfold bind, dateNow, prop, ret, throw, firestore_value, user_set_merge, reflection_set,
    store_op, console_log.
  simpl. rewrite !Hfault, !Hstore. simpl. rewrite Hclock.
  assert (∀ data,
            cache_of
              (<[or_else (Body.userId body) "" :=
                   match users w1 !! or_else (Body.userId body) "" with
                   | Some old =>
                       merge_user
                         (profile_fields (or_else (Body.userName body) "Anonymous")
                            (or_else (Body.userEmail body) "") data) old
                   | None =>
                       profile_fields (or_else (Body.userName body) "Anonymous")
                         (or_else (Body.userEmail body) "") data
                   end]> (users w1) !! or_else (Body.userId body) "")
            = cache_of (users w !! or_else (Body.userId body) "")) as Hkept.
  { intros data. rewrite lookup_insert_eq, <- Hcache.
    destruct (users w1 !! or_else (Body.userId body) "") as [old|]; [|done].
    unfold cache_of. simpl. by destruct (weeklyAnalysisCache old) as [[?|]|]. }
  assert (lookup_field "transcript" fields = None
          ∨ lookup_field "primaryEmotion" fields = None
          ∨ lookup_field "secondaryEmotion" fields = None
          ∨ lookup_field "theme" fields = None
          ∨ lookup_field "emotionalIntensity" fields = None
          ∨ lookup_field "dailyInsight" fields = None) as Hnone.
  { set_unfold in Hkey. naive_solver. }
  clear Hkey Hmissing.
  repeat match goal with
    | |- context [match lookup_field ?k fields with _ => _ end] =>
        destruct (lookup_field k fields) eqn:?; simpl
    end;
    try (exfalso; naive_solver);
    (eexists; split; [reflexivity|]; simpl; split; [done|]; split; [apply Hkept|];
     rewrite lookup_insert_eq; eexists; split; [reflexivity|];
     by destruct (users w1 !! or_else (Body.userId body) "")).
Qed.

End DailyProps.

(** ** The daily route on the sample worlds *)

Lemma analyze_daily_failure_writes_nothing_example :
  ∃ w',
    Analysis.analyze_daily (H := Reference.platform) Sample.daily_request
      Sample2.garbled_empty_world
    = (Ok (respond 500 (ErrorBody "Invalid AI response format - could not parse JSON")), w')
    ∧ reflections w' = ∅
    ∧ generated w' = [TextPrompt "had a hard day"].
Proof.
  destruct (@analyze_daily_failure_writes_nothing Reference.platform Sample.daily_request
              Sample2.garbled_empty_world malformed_response eq_refl eq_refl
              ltac:(by vm_compute))
    as (w' & Hrun & Hrefl & _ & Hgen).
  by exists w'.
Defined.

Lemma analyze_daily_stores_and_invalidates_example :
  ∃ w' doc user,
    Analysis.analyze_daily (H := Reference.platform) Sample.daily_request Sample.empty_world
    = (Ok (respond 200 (AnalysisBody "2026-01-18_11-30-45" "u1" doc)), w')
    ∧ reflections_of "u1" w' !! "2026-01-18_11-30-45" = Some doc
    ∧ primaryEmotion doc = Some (JStr "tired")
    ∧ users w' !! "u1" = Some user
    ∧ weeklyAnalysisCache user = Some None
    ∧ name user = Some "Anonymous".
Proof.
  destruct (@analyze_daily_stores_and_invalidates Reference.platform Sample.daily_request
              Sample.empty_world
              [("transcript", JStr "had a hard day"); ("dailyInsight", JStr "A heavy day.");
               ("primaryEmotion", JStr "tired"); ("secondaryEmotion", JStr "sad");
               ("emotionalIntensity", JStr "medium"); ("theme", JStr "work")]
              (JStr "had a hard day") (JStr "tired") (JStr "sad") (JStr "work")
              (JStr "medium") (JStr "A heavy day.")
              eq_refl eq_refl (λ _, eq_refl) ltac:(by vm_compute)
              eq_refl eq_refl eq_refl eq_refl eq_refl eq_refl)
    as (w' & Hrun & Hdoc & (user & Huser & Hcache & Hname & _) & _).
  eexists w', _, user. split; [exact Hrun|]. split; [exact Hdoc|]. by split_and!.
Defined.

Lemma analyze_daily_incomplete_object_example :
  ∃ w' user,
    Analysis.analyze_daily (H := Reference.platform) Sample.daily_request Sample2.meagre_world
    = (Ok (respond 500 (ErrorBody "Failed to analyze reflection")), w')
    ∧ reflections w' = ∅
    ∧ users w' !! "u1" = Some user
    ∧ name user = Some "Anonymous".
Proof.
  destruct (@analyze_daily_incomplete_object Reference.platform Sample.daily_request
              Sample2.meagre_world [("a", JNum 1)] "theme" eq_refl eq_refl (λ _, eq_refl)
              ltac:(by vm_compute) ltac:(set_solver) eq_refl)
    as (w' & Hrun & Hrefl & _ & user & Huser & Hname & _).
  by exists w', user.
Defined.

(** ** The submit route: ids and profiles *)

Section SubmitProps.
Context `{Platform}.

(** The submit route when the store takes its two writes. *)
Lemma save_transcript_run body w :
  truthy (Body.userId body) = true →
  truthy (Body.transcript body) = true →
  storeFault w (storeOps w) = false →
  storeFault w (S (storeOps w)) = false →
  let userId := or_else (Body.userId body) "" in
  let dateStr := or_else (Body.date body) (isoDate (clock w)) in
  let docId := dateStr +:+ "_" +:+ JsString.replaceAll ":" "-" (timeOfDay (clock w)) in
  let doc :=
    mkReflection dateStr (JStr (JsString.trim (or_else (Body.transcript body) "")))
      (clock w) "voice" (Some pending) None None None None None None in
  let profile :=
    profile_fields (or_else (Body.userName body) "Anonymous")
      (or_else (Body.userEmail body) "") (clock w) in
  ∃ w',
    Analysis.save_transcript body w = (Ok (respond 200 (ReflectionBody docId userId doc)), w')
    ∧ reflections w'
      = <[userId := <[docId := doc]> (reflections_of userId w)]> (reflections w)
    ∧ users w'
      = <[userId := match users w !! userId with
                    | Some old => merge_user profile old
                    | None => profile
                    end]> (users w).
Proof.
  intros Hid Htext Hstore1 Hstore2. simpl.
  unfold Analysis.save_transcript, try_catch, bind, console_log, dateNow,
    user_set_merge, reflection_set, start_background, store_op.
  rewrite Hid, Htext. simpl. rewrite Hstore1. simpl. rewrite Hstore2. simpl.
  by eexists.
Qed.

(** X15: the id of a submitted reflection is the date of the request, the
    date of the day when the request has none, then an underscore and the
    time of day with a hyphen for each colon.  A second submit of the same
    user for the same date within the same second gets the same id, and its
    reflection replaces the first: the store holds one reflection for the
    two submits. *)
Theorem save_transcript_same_second_overwrites (first second : Body.t) (w later : World) :
  truthy (Body.userId first) = true → truthy (Body.transcript first) = true →
  truthy (Body.userId second) = true → truthy (Body.transcript second) = true →
  or_else (Body.userId second) "" = or_else (Body.userId first) "" →
  storeFault w (storeOps w) = false → storeFault w (S (storeOps w)) = false →
  storeFault later (storeOps later) = false →
  storeFault later (S (storeOps later)) = false →
  reflections later = reflections (Analysis.save_transcript first w).2 →
  or_else (Body.date second) (isoDate (clock later))
  = or_else (Body.date first) (isoDate (clock w)) →
  timeOfDay (clock later) = timeOfDay (clock w) →
  let userId := or_else (Body.userId first) "" in
  let id :=
    or_else (Body.date first) (isoDate (clock w)) +:+ "_"
    +:+ JsString.replaceAll ":" "-" (timeOfDay (clock w)) in
  ∃ doc1 doc2 w1 w2,
    Analysis.save_transcript first w = (Ok (respond 200 (ReflectionBody id userId doc1)), w1)
    ∧ Analysis.save_transcript second later
      = (Ok (respond 200 (ReflectionBody id userId doc2)), w2)
    ∧ transcript doc1 = JStr (JsString.trim (or_else (Body.transcript first) ""))
    ∧ transcript doc2 = JStr (JsString.trim (or_else (Body.transcript second) ""))
    ∧ reflections_of userId w1 !! id = Some doc1
    ∧ reflections_of userId w2 !! id = Some doc2
    ∧ dom (reflections_of userId w2) = dom (reflections_of userId w1).
Proof.
  intros Hid1 Htext1 Hid2 Htext2 Hsame Hs1 Hs2 Hs3 Hs4 Hlater Hdate Htime userId id.
  destruct (save_transcript_run first w Hid1 Htext1 Hs1 Hs2) as (w1 & Hrun1 & Hrefl1 & _).
  destruct (save_transcript_run second later Hid2 Htext2 Hs3 Hs4)
    as (w2 & Hrun2 & Hrefl2 & _).
  rewrite Hrun1 in Hlater. simpl in Hlater.
  rewrite Hsame, Hdate, Htime in Hrun2, Hrefl2.
  fold userId id in Hrun1, Hrefl1, Hrun2, Hrefl2.
  eexists _, _, w1, w2. split; [exact Hrun1|]. split; [exact Hrun2|].
  split; [done|]. split; [done|].
  assert (∀ docs (v : gmap string Reflection) (world : World),
            reflections world = <[userId := v]> docs → reflections_of userId world = v)
    as Hof.
  { intros docs v world Hworld. unfold reflections_of.
    by rewrite Hworld, lookup_insert_eq. }
  assert (reflections_of userId later = reflections_of userId w1) as Hlater'.
  { unfold reflections_of. by rewrite Hlater. }
  rewrite (Hof _ _ _ Hrefl2), Hlater', (Hof _ _ _ Hrefl1).
  split; [by rewrite lookup_insert_eq|]. split; [by rewrite lookup_insert_eq|].
  rewrite !dom_insert_L. set_solver.
Qed.

(** X16: the submit route writes the name and the email of the request over
    the stored ones, [Anonymous] and the empty string standing in for a
    missing one; the counters, the logs and the weekly cache of the user
    stay. *)
Theorem save_transcript_overwrites_profile (body : Body.t) (w : World) (stored : UserDoc) :
  truthy (Body.userId body) = true →
  truthy (Body.transcript body) = true →
  storeFault w (storeOps w) = false →
  storeFault w (S (storeOps w)) = false →
  users w !! or_else (Body.userId body) "" = Some stored →
  ∃ user,
    users (Analysis.save_transcript body w).2 !! or_else (Body.userId body) "" = Some user
    ∧ name user = Some (or_else (Body.userName body) "Anonymous")
    ∧ email user = Some (or_else (Body.userEmail body) "")
    ∧ lastActive user = Some (clock w)
    ∧ apiRequestCount user = apiRequestCount stored
    ∧ apiLogs user = apiLogs stored
    ∧ apiUsage user = apiUsage stored
    ∧ weeklyAnalysisCache user = weeklyAnalysisCache stored.
Proof.
  intros Hid Htext Hs1 Hs2 Hstored.
  destruct (save_transcript_run body w Hid Htext Hs1 Hs2) as (w' & -> & _ & Husers).
  simpl. rewrite Husers, lookup_insert_eq, Hstored. eexists. split; [done|].
  simpl. by split_and!.
Qed.

End SubmitProps.

(** ** The submit route on the sample worlds *)

(** Two submits of user [u1] at 11:30:45: both are answered the same id,
    under which the second transcript is stored. *)
Lemma save_transcript_same_second_overwrites_example :
  let second := Body.make (Some "u1") None None None (Some "and a long night") None in
  let w1 := (Analysis.save_transcript (H := Reference.platform) Sample.submit_request
               Sample.empty_world).2 in
  ∃ doc1 doc2 w2,
    (Analysis.save_transcript (H := Reference.platform) Sample.submit_request
       Sample.empty_world).1
    = Ok (respond 200 (ReflectionBody "2026-01-18_11-30-45" "u1" doc1))
    ∧ Analysis.save_transcript (H := Reference.platform) second w1
      = (Ok (respond 200 (ReflectionBody "2026-01-18_11-30-45" "u1" doc2)), w2)
    ∧ transcript doc1 = JStr "had a hard day"
    ∧ transcript doc2 = JStr "and a long night"
    ∧ reflections_of "u1" w2 !! "2026-01-18_11-30-45" = Some doc2.
Proof.
  intros second w1.
  pose proof (@save_transcript_same_second_overwrites Reference.platform
                Sample.submit_request second Sample.empty_world w1
                eq_refl eq_refl eq_refl eq_refl eq_refl eq_refl eq_refl eq_refl eq_refl
                eq_refl eq_refl eq_refl) as Hboth.
  cbv zeta in Hboth.
  assert (or_else (Body.date Sample.submit_request)
            (@isoDate Reference.platform (clock Sample.empty_world)) +:+ "_"
          +:+ JsString.replaceAll ":" "-" (@timeOfDay Reference.platform (clock Sample.empty_world))
          = "2026-01-18_11-30-45") as Hid by (by vm_compute).
  rewrite Hid in Hboth.
  destruct Hboth as (doc1 & doc2 & w1' & w2 & Hrun1 & Hrun2 & Htext1 & Htext2 & _ & Hdoc2 & _).
  exists doc1, doc2, w2. split; [by rewrite Hrun1|]. split; [exact Hrun2|].
  by split_and!.
Defined.

(** User [u1] is stored as [Ada] with 150 requests; a submit without a
    name leaves her [Anonymous], with her 150 requests. *)
Lemma save_transcript_overwrites_profile_example :
  ∃ user,
    users (Analysis.save_transcript (H := Reference.platform) Sample.submit_request
             Sample2.busy_world).2 !! "u1" = Some user
    ∧ name Sample2.busy_user = Some "Ada"
    ∧ name user = Some "Anonymous"
    ∧ apiRequestCount user = Some 150.
Proof.
  destruct (@save_transcript_overwrites_profile Reference.platform Sample.submit_request
              Sample2.busy_world Sample2.busy_user eq_refl eq_refl eq_refl eq_refl eq_refl)
    as (user & Huser & Hname & _ & _ & Hcount & _).
  by exists user.
Defined.

(** ** What the submit route starts *)

Section SubmitStarts.
Context `{Platform}.

(** X17: the submit route starts a background analysis only for a reflection
    it has stored: in every world it either starts nothing and answers
    400 or 500, or it has stored a pending reflection, starts the analysis
    of that reflection and of its trimmed transcript, and answers 200.
    It never calls the service itself. *)
Theorem save_transcript_starts_stored_analysis (body : Body.t) (w : World) :
  let result := Analysis.save_transcript body w in
  generated result.2 = generated w
  ∧ ((background result.2 = background w
      ∧ ∃ error, result.1 = Ok (respond 400 (ErrorBody error))
                 ∨ result.1 = Ok (respond 500 (ErrorBody error)))
     ∨ ∃ docId doc,
         result.1 = Ok (respond 200 (ReflectionBody docId (or_else (Body.userId body) "") doc))
         ∧ background result.2
           = background w
             ++ [TranscriptAnalysis (or_else (Body.userId body) "") docId
                   (JsString.trim (or_else (Body.transcript body) ""))]
         ∧ reflections_of (or_else (Body.userId body) "") result.2 !! docId = Some doc
         ∧ analysisStatus doc = Some pending
         ∧ transcript doc = JStr (JsString.trim (or_else (Body.transcript body) ""))).
Proof.
  intros result. subst result.
  unfold Analysis.save_transcript, try_catch, bind, console_log, dateNow,
    user_set_merge, reflection_set, start_background, store_op.
  destruct (truthy (Body.userId body)); simpl; [|by eauto 10].
  destruct (truthy (Body.transcript body)); simpl; [|by eauto 10].
  destruct (storeFault w (storeOps w)); simpl; [by eauto 10|].
  destruct (storeFault w (S (storeOps w))); simpl; [by eauto 10|].
  split; [done|]. right. eexists _, _. split; [reflexivity|]. split; [done|].
  split; [|done]. unfold reflections_of. simpl. rewrite lookup_insert_eq. simpl.
  by rewrite lookup_insert_eq.
Qed.

End SubmitStarts.

(** ** Every route answers *)

Section Returns.
Context {A : Type} (P : A → Prop).

Lemma returns_ret (a : A) : P a → returns P (ret a).
Proof. intros Ha w a' w' [= <- _]. done. Qed.

Lemma returns_bind {B} (m : M B) (k : B → M A) :
  (∀ b, returns P (k b)) → returns P (bind m k).
Proof.
  intros Hk w a w'. unfold bind. destruct (m w) as [[b|e] w1]; [apply Hk|done].
Qed.

Lemma returns_try_catch (m : M A) (handler : JsError → M A) :
  returns P m → (∀ e, returns P (handler e)) → returns P (try_catch m handler).
Proof.
  intros Hm Hh w a w'. unfold try_catch. destruct (m w) as [[b|e] w1] eqn:Hrun.
  - intros [= <- <-]. by apply (Hm w b w1).
  - apply Hh.
Qed.

End Returns.

Ltac returns_go :=
  repeat match goal with
    | |- ∀ _, _ => intro
    | |- returns _ (try_catch _ _) => apply returns_try_catch
    | |- returns _ (bind _ _) => apply returns_bind
    | |- returns _ (ret _) => apply returns_ret; simpl; by eauto
    | |- returns _ (match ?x with _ => _ end) => destruct x
    | |- returns _ (if ?b then _ else _) => destruct b
    | |- returns _ _ => progress cbv zeta
    end.

Section RoutesAnswer.
Context `{Platform}.

(** X18: no route lets an error escape: each answers in every world, whatever
    the store and the service do, and its status is 200, 400 or 500. *)
Theorem routes_always_answer (body : Body.t) (userId docId day : string) :
  let answered := λ r : Response, status r = 200%nat ∨ status r = 400%nat ∨ status r = 500%nat in
  let read := λ r : ReadResponse * list ErrorLine,
                readStatus r.1 = 200%nat ∨ readStatus r.1 = 500%nat in
  (never_throws (Analysis.save_transcript body)
   ∧ returns answered (Analysis.save_transcript body))
  ∧ (never_throws (Analysis.analyze_daily body)
     ∧ returns answered (Analysis.analyze_daily body))
  ∧ (never_throws (Analysis.analyze_weekly body)
     ∧ returns answered (Analysis.analyze_weekly body))
  ∧ (never_throws (Analysis.reflection_by_id userId docId)
     ∧ returns answered (Analysis.reflection_by_id userId docId))
  ∧ (never_throws (Reading.reflection_by_date userId day)
     ∧ returns (λ r, answered r.1) (Reading.reflection_by_date userId day))
  ∧ (never_throws (Reading.today_reflection userId)
     ∧ returns read (Reading.today_reflection userId))
  ∧ (never_throws (Reading.user_stats userId)
     ∧ returns read (Reading.user_stats userId)).
Proof.
  intros answered read. subst answered read.
  split_and!.
  - unfold Analysis.save_transcript. never_throws_go.
  - unfold Analysis.save_transcript. returns_go.
  - unfold Analysis.analyze_daily. never_throws_go.
  - unfold Analysis.analyze_daily. returns_go.
  - unfold Analysis.analyze_weekly. never_throws_go.
  - unfold Analysis.analyze_weekly, Analysis.generate_weekly. returns_go.
  - unfold Analysis.reflection_by_id. never_throws_go.
  - unfold Analysis.reflection_by_id. returns_go.
  - unfold Reading.reflection_by_date. never_throws_go.
  - unfold Reading.reflection_by_date. returns_go.
  - unfold Reading.today_reflection. never_throws_go.
  - unfold Reading.today_reflection. returns_go.
  - unfold Reading.user_stats. never_throws_go.
  - unfold Reading.user_stats. returns_go.
Qed.

End RoutesAnswer.

(** ** The routes that read *)

#[local] Instance by_name_total : Total by_name.
Proof. intros a b. unfold by_name. apply (total String.le). Qed.

#[local] Instance by_name_refl : Reflexive by_name.
Proof. intros a. unfold by_name. done. Qed.

#[local] Instance by_name_trans : Transitive by_name.
Proof. intros a b c. unfold by_name. apply (transitivity (R := String.le)). Qed.

(** The first element with [P] of a sorted list comes before all others
    with [P]. *)
Lemma filter_sorted_head {A} (R : relation A) `{!Reflexive R} (P : A → Prop)
    `{!∀ x, Decision (P x)} (l : list A) :
  StronglySorted R l →
  match filter P l with
  | [] => ∀ y, y ∈ l → ¬ P y
  | x :: _ => x ∈ l ∧ P x ∧ ∀ y, y ∈ l → P y → R x y
  end.
Proof.
  induction 1 as [|a l Hl IH Ha]; simpl.
  - by intros y Hy%elem_of_nil.
  - rewrite filter_cons. destruct (decide (P a)) as [HPa|HPa].
    + split; [by left|]. split; [done|].
      intros y [->|Hy]%elem_of_cons _; [done|].
      rewrite Forall_forall in Ha. by apply Ha.
    + destruct (filter P l) as [|x rest].
      * intros y [->|Hy]%elem_of_cons; [done|by apply IH].
      * destruct IH as (Hx & HPx & Hmin). split; [by right|]. split; [done|].
        intros y [->|Hy]%elem_of_cons HPy; [done|by apply Hmin].
Qed.

(** A query for one reflection of a day finds the one of the least name,
    when there is one. *)
Lemma query_by_date_first (day : string) (docs : gmap string Reflection) :
  match query_by_date day 1 docs with
  | [] => ∀ id doc, docs !! id = Some doc → date doc ≠ day
  | (id, doc) :: rest =>
      rest = [] ∧ docs !! id = Some doc ∧ date doc = day
      ∧ ∀ id' doc', docs !! id' = Some doc' → date doc' = day → String.le id id'
  end.
Proof.
  unfold query_by_date.
  pose proof (filter_sorted_head by_name (λ r : string * Reflection, date r.2 = day)
                (merge_sort by_name (map_to_list docs))
                (StronglySorted_merge_sort _ _)) as Hhead.
  assert (∀ r, r ∈ merge_sort by_name (map_to_list docs) ↔ docs !! r.1 = Some r.2) as Hin.
  { intros [id doc]. rewrite merge_sort_Permutation. apply elem_of_map_to_list. }
  destruct (filter _ _) as [|[id doc] rest]; simpl.
  - intros id doc Hdoc. apply (Hhead (id, doc)). by apply Hin.
  - destruct Hhead as (Hmem & Hday & Hmin). split; [by destruct rest|].
    split; [by apply Hin in Hmem|]. split; [done|].
    intros id' doc' Hdoc' Hday'. apply (Hmin (id', doc')); [by apply Hin|done].
Qed.

Section ReadingProps.
Context `{Platform}.

(** X19: [GET /reflection/:userId/:date] answers with one reflection of that
    date, the first by name: with the ids the routes make, the one of the
    earliest time of day, not the latest.  It answers that none is found
    only when the user has no reflection of that date. *)
Theorem reflection_by_date_finds_first (userId day : string) (w : World) :
  storeFault w (storeOps w) = false →
  match (Reading.reflection_by_date userId day w).1 with
  | Ok (respond 200 NotFoundBody, []) =>
      ∀ id doc, reflections_of userId w !! id = Some doc → date doc ≠ day
  | Ok (respond 200 (FoundBody id doc), []) =>
      reflections_of userId w !! id = Some doc ∧ date doc = day
      ∧ ∀ id' doc', reflections_of userId w !! id' = Some doc' → date doc' = day →
                    String.le id id'
  | _ => False
  end.
Proof.
  intros Hstore.
  unfold Reading.reflection_by_date, try_catch, bind, reflections_where_date, store_op.
  rewrite Hstore.
  change (reflections_of userId (with_storeOps _ w)) with (reflections_of userId w).
  pose proof (query_by_date_first day (reflections_of userId w)) as Hfirst.
  destruct (query_by_date day 1 (reflections_of userId w)) as [|[id doc] rest]; simpl.
  - done.
  - by destruct Hfirst as (_ & ? & ? & ?).
Qed.

(** X20: [GET /today-reflection/:userId] answers as the route by date does for
    the day of the clock: with the first reflection dated that day, and
    with none when no reflection bears that date. *)
Theorem today_reflection_is_by_date (userId : string) (w : World) :
  storeFault w (storeOps w) = false →
  match (Reading.reflection_by_date userId (isoDate (clock w)) w).1 with
  | Ok (respond 200 NotFoundBody, []) =>
      (Reading.today_reflection userId w).1 = Ok (respondRead 200 TodayNone, [])
  | Ok (respond 200 (FoundBody id doc), []) =>
      (Reading.today_reflection userId w).1 = Ok (respondRead 200 (TodayFound id doc), [])
      ∧ date doc = isoDate (clock w)
  | _ => False
  end.
Proof.
  intros Hstore.
  unfold Reading.reflection_by_date, Reading.today_reflection, try_catch, bind, dateNow,
    reflections_where_date, store_op.
  rewrite Hstore.
  change (reflections_of userId (with_storeOps _ w)) with (reflections_of userId w).
  pose proof (query_by_date_first (isoDate (clock w)) (reflections_of userId w)) as Hfirst.
  destruct (query_by_date _ 1 (reflections_of userId w)) as [|[id doc] rest]; simpl.
  - done.
  - by destruct Hfirst as (_ & ? & ? & ?).
Qed.

(** X21: after a submit, the route by date finds a reflection of the date of
    the submit, but not always the submitted one: it finds the one of the
    least id, which the route by id tells from the submitted one. *)
Theorem submitted_day_is_found (body : Body.t) (w later : World) :
  truthy (Body.userId body) = true →
  truthy (Body.transcript body) = true →
  storeFault w (storeOps w) = false →
  storeFault w (S (storeOps w)) = false →
  reflections later = reflections (Analysis.save_transcript body w).2 →
  storeFault later (storeOps later) = false →
  let userId := or_else (Body.userId body) "" in
  let day := or_else (Body.date body) (isoDate (clock w)) in
  let docId := day +:+ "_" +:+ JsString.replaceAll ":" "-" (timeOfDay (clock w)) in
  ∃ id doc,
    (Reading.reflection_by_date userId day later).1
    = Ok (respond 200 (FoundBody id doc), [])
    ∧ date doc = day
    ∧ String.le id docId
    ∧ (id = docId → analysisStatus doc = Some pending).
Proof.
  intros Hid Htext Hs1 Hs2 Hlater Hs3. simpl.
  unfold Analysis.save_transcript, try_catch, bind, console_log, dateNow,
    user_set_merge, reflection_set, start_background, store_op in Hlater.
  rewrite Hid, Htext in Hlater. simpl in Hlater. rewrite Hs1 in Hlater. simpl in Hlater.
  rewrite Hs2 in Hlater. simpl in Hlater.
  set (userId := or_else (Body.userId body) "") in *.
  set (day := or_else (Body.date body) (isoDate (clock w))) in *.
  set (docId := day +:+ "_" +:+ JsString.replaceAll ":" "-" (timeOfDay (clock w))) in *.
  match type of Hlater with context [<[docId := ?d]> _] => set (submitted := d) in * end.
  assert (reflections_of userId later !! docId = Some submitted) as Hdoc.
  { unfold reflections_of at 1. rewrite Hlater, lookup_insert_eq. simpl.
    by rewrite lookup_insert_eq. }
  unfold Reading.reflection_by_date, try_catch, bind, reflections_where_date, store_op.
  rewrite Hs3.
  change (reflections_of userId (with_storeOps _ later)) with (reflections_of userId later).
  pose proof (query_by_date_first day (reflections_of userId later)) as Hfirst.
  destruct (query_by_date day 1 (reflections_of userId later)) as [|[id doc] rest]; simpl.
  - by destruct (Hfirst docId submitted Hdoc).
  - destruct Hfirst as (_ & Hfound & Hday & Hmin). exists id, doc.
    split_and!; [done..|by apply (Hmin docId submitted)|].
    intros ->. rewrite Hdoc in Hfound. by injection Hfound as <-.
Qed.

(** A map with one key set anew, merged over itself. *)
Lemma insert_union_self {V} (k : string) (v : V) (m : gmap string V) :
  <[k := v]> m ∪ m = <[k := v]> m.
Proof.
  apply map_eq. intros i. rewrite lookup_union.
  destruct (decide (i = k)) as [->|Hne].
  - rewrite lookup_insert_eq. by destruct (m !! k).
  - rewrite lookup_insert_ne by done. by destruct (m !! i).
Qed.

(** X22: the stats route reads what the recorder wrote.  Before the request
    it reports the stored count, 0 when none is stored, with the stored
    logs and counters; after a request that the recorder has counted it
    reports that count plus one, the last 99 of the stored logs with the
    log of the request behind them, one more under the day and under the
    type of the request, and the time of the request. *)
Theorem user_stats_reports_recorder (userId : option string) (operation details : string)
    (w : World) (logs : list ApiLog) :
  truthy userId = true →
  storeFault w (storeOps w) = false →
  storeFault w (S (storeOps w)) = false →
  storeFault w (S (S (storeOps w))) = false →
  default (LogsArray []) (apiLogs (default no_fields (users w !! or_else userId "")))
  = LogsArray logs →
  let old := default no_fields (users w !! or_else userId "") in
  let count := default 0 (apiRequestCount old) in
  let oldByDate := from_option byDate ∅ (apiUsage old) in
  let oldByType := from_option byType ∅ (apiUsage old) in
  let today := isoDate (clock w) in
  let type := operationTypeOf operation in
  let kept := drop (length logs - 99) logs in
  (Reading.user_stats (or_else userId "") w).1
  = Ok (respondRead 200
          (StatsBody count (LogsArray logs) oldByDate oldByType
             (lastUpdated <$> (users w !! or_else userId "" ≫= apiUsage))), [])
  ∧ (Reading.user_stats (or_else userId "")
       (incrementAPICount userId operation details w).2).1
    = Ok (respondRead 200
            (StatsBody (count + 1)
               (LogsArray (kept ++ [mkApiLog (clock w) operation details]))
               (<[today := default 0 (oldByDate !! today) + 1]> oldByDate)
               (<[type := default 0 (oldByType !! type) + 1]> oldByType)
               (Some (clock w))), [])
  ∧ kept `suffix_of` logs.
Proof.
  intros Hid Hs1 Hs2 Hs3 Hlogs.
  pose proof (incrementAPICount_writes userId operation details w logs Hid Hs1 Hs2 Hlogs)
    as Hwritten.
  simpl in Hwritten.
  assert (storeFault (incrementAPICount userId operation details w).2
            (storeOps (incrementAPICount userId operation details w).2) = false) as Hs3'.
  { unfold incrementAPICount, try_catch, bind, user_get, store_op, dateNow. rewrite Hid.
    simpl. rewrite Hs1. simpl. rewrite Hlogs. simpl.
    unfold user_set_merge, store_op. simpl. rewrite Hs2. simpl. done. }
  unfold Reading.user_stats, try_catch, bind, user_get, store_op.
  rewrite Hs1, Hs3'. simpl. rewrite Hwritten. clear Hwritten Hs3'.
  destruct (users w !! or_else userId "") as [[n e la c cnt lg [u|]]|]; simpl in *.
  - rewrite Hlogs, !insert_union_self. split; [done|]. split; [done|apply suffix_drop].
  - rewrite Hlogs. split; [done|]. split; [done|apply suffix_drop].
  - injection Hlogs as <-. split; [done|]. split; [done|apply suffix_drop].
Qed.

End ReadingProps.

(** ** The reading routes on the sample worlds *)

(** User [u1] has two reflections of 2026-01-18: the route by date
    answers with the one of 09:00:00. *)
Lemma reflection_by_date_finds_first_example :
  reflections_of "u1" Sample2.day_world !! "2026-01-18_09-00-00" = Some Sample2.morning
  ∧ date Sample2.morning = "2026-01-18"
  ∧ ∀ id' doc', reflections_of "u1" Sample2.day_world !! id' = Some doc' →
                date doc' = "2026-01-18" → String.le "2026-01-18_09-00-00" id'.
Proof.
  pose proof (@reflection_by_date_finds_first "u1" "2026-01-18" Sample2.day_world eq_refl)
    as Hfirst.
  assert ((Reading.reflection_by_date "u1" "2026-01-18" Sample2.day_world).1
          = Ok (respond 200 (FoundBody "2026-01-18_09-00-00" Sample2.morning), []))
    as Hrun by (by vm_compute).
  rewrite Hrun in Hfirst. exact Hfirst.
Defined.

Lemma today_reflection_is_by_date_example :
  (Reading.today_reflection (H := Reference.platform) "u1" Sample2.day_world).1
  = Ok (respondRead 200 (TodayFound "2026-01-18_09-00-00" Sample2.morning), [])
  ∧ date Sample2.morning = "2026-01-18".
Proof.
  pose proof (@today_reflection_is_by_date Reference.platform "u1" Sample2.day_world eq_refl)
    as Htoday.
  assert (@isoDate Reference.platform (clock Sample2.day_world) = "2026-01-18") as Hday
    by (by vm_compute).
  rewrite Hday in Htoday.
  assert ((Reading.reflection_by_date "u1" "2026-01-18" Sample2.day_world).1
          = Ok (respond 200 (FoundBody "2026-01-18_09-00-00" Sample2.morning), []))
    as Hrun by (by vm_compute).
  rewrite Hrun in Htoday. exact Htoday.
Defined.

Lemma submitted_day_is_found_example :
  let later := (Analysis.save_transcript (H := Reference.platform) Sample.submit_request
                  Sample2.day_world).2 in
  ∃ id doc,
    (Reading.reflection_by_date "u1" "2026-01-18" later).1
    = Ok (respond 200 (FoundBody id doc), [])
    ∧ date doc = "2026-01-18"
    ∧ String.le id "2026-01-18_11-30-45".
Proof.
  intros later.
  destruct (@submitted_day_is_found Reference.platform Sample.submit_request
              Sample2.day_world later eq_refl eq_refl eq_refl eq_refl eq_refl
              ltac:(by vm_compute))
    as (id & doc & Hrun & Hday & Hle & _).
  assert (or_else (Body.date Sample.submit_request)
            (@isoDate Reference.platform (clock Sample2.day_world)) = "2026-01-18") as Hdate
    by (by vm_compute).
  assert (JsString.replaceAll ":" "-" (@timeOfDay Reference.platform (clock Sample2.day_world))
          = "11-30-45") as Htime by (by vm_compute).
  rewrite Hdate in Hrun, Hday, Hle. rewrite Htime in Hle.
  exists id, doc. split; [exact Hrun|]. split; [exact Hday|exact Hle].
Defined.

(** User [u1] has 150 requests and 150 logs: after a voice analysis the
    route reports 151 requests and 100 logs. *)
Lemma user_stats_reports_recorder_example :
  (Reading.user_stats "u1" Sample2.busy_world).1
  = Ok (respondRead 200
          (StatsBody 150
             (LogsArray (replicate 150 (mkApiLog 0 "text-analysis" "Daily text reflection")))
             {[ "2026-01-18" := 7; "2026-01-17" := 143 ]} {[ "text" := 150 ]} (Some 0)),
        [])
  ∧ (Reading.user_stats "u1"
       (@incrementAPICount Reference.platform (Some "u1") "voice-analysis" ""
          Sample2.busy_world).2).1
    = Ok (respondRead 200
            (StatsBody 151
               (LogsArray (replicate 99 (mkApiLog 0 "text-analysis" "Daily text reflection")
                           ++ [mkApiLog Sample.noon "voice-analysis" ""]))
               {[ "2026-01-18" := 8; "2026-01-17" := 143 ]}
               {[ "voice" := 1; "text" := 150 ]} (Some Sample.noon)), []).
Proof.
  pose proof (@user_stats_reports_recorder Reference.platform (Some "u1") "voice-analysis"
                "" Sample2.busy_world _ eq_refl eq_refl eq_refl eq_refl eq_refl) as Hstats.
  cbv zeta in Hstats. destruct Hstats as (Hbefore & Hafter & _).
  split.
  - etrans; [exact Hbefore|]. by vm_compute.
  - etrans; [exact Hafter|]. by vm_compute.
Defined.

(** ** server.js: the origins the server answers *)

Lemma after_prefix_app (p s rest : string) :
  Server.after_prefix p s = Some rest ↔ s = p +:+ rest.
Proof.
  revert s. induction p as [|a p IH]; intros s; simpl.
  - rewrite string_app_nil. naive_solver.
  - destruct s as [|b s]; [by rewrite string_app_cons|].
    rewrite string_app_cons. destruct (Ascii.eqb_spec a b) as [->|Hne].
    + rewrite IH. naive_solver.
    + naive_solver.
Qed.

(** The origins the pattern of the server matches are [http://localhost:]
    followed by a port of one digit or more, and nothing else. *)
Lemma is_localhost_spec (origin : string) :
  Server.is_localhost origin = true
  ↔ ∃ port, origin = "http://localhost:" +:+ port
            ∧ port ≠ "" ∧ Server.all_digits port = true.
Proof.
  unfold Server.is_localhost.
  destruct (Server.after_prefix "http://localhost:" origin) as [port|] eqn:Hport.
  - apply after_prefix_app in Hport as ->. rewrite andb_true_iff, negb_true_iff.
    rewrite string_eqb_decide, bool_decide_eq_false. split.
    + intros [? ?]. by exists port.
    + intros (port' & Heq & ? & ?). by apply (inj (String.app _)) in Heq as ->.
  - split; [done|]. intros (port & -> & _).
    by rewrite (proj2 (after_prefix_app _ _ port) eq_refl) in Hport.
Qed.

(** The two [localhost] origins of the list add nothing to the pattern:
    what decides is the pattern and the front end of the environment. *)
Lemma cors_origin_decision (FRONTEND_URL origin : option string) :
  Server.cors_origin FRONTEND_URL origin
  = if negb (truthy origin)
       || Server.is_localhost (or_else origin "")
       || bool_decide (FRONTEND_URL = origin)
    then Server.CorsAllowed
    else Server.CorsBlocked (or_else origin "").
Proof.
  unfold Server.cors_origin. destruct (truthy origin) eqn:Horigin; simpl; [|done].
  destruct (Server.is_localhost (or_else origin "")) eqn:Hlocal; simpl; [done|].
  assert (origin = Some (or_else origin "")) as Heq by by apply or_else_truthy.
  assert (bool_decide (Some (or_else origin "") ∈ Server.allowedOrigins FRONTEND_URL)
          = bool_decide (FRONTEND_URL = origin)) as ->; [|done].
  apply bool_decide_ext. unfold Server.allowedOrigins. simpl.
  rewrite <- Heq. split.
  - intros Hin. destruct (truthy FRONTEND_URL) eqn:Hfront; simpl in Hin.
    + apply elem_of_cons in Hin as [->|Hin]; [done|].
      exfalso. rewrite Heq in Hin, Hlocal.
      set_unfold in Hin. destruct Hin as [[= Hin]|[[= Hin]|[]]];
        rewrite Hin in Hlocal; by vm_compute in Hlocal.
    + exfalso. rewrite Heq in Hin, Hlocal.
      set_unfold in Hin. destruct Hin as [[= Hin]|[[= Hin]|[]]];
        rewrite Hin in Hlocal; by vm_compute in Hlocal.
  - intros ->. rewrite Horigin. simpl. by left.
Qed.

(** X23: the server answers a request without origin, a request from
    [localhost] over http on any port, and a request from the front end
    of the environment; it blocks every other origin, also [localhost]
    over https or without a port. *)
Theorem cors_allows_frontend_and_localhost (FRONTEND_URL origin : option string) :
  Server.cors_origin FRONTEND_URL origin = Server.CorsAllowed
  ↔ truthy origin = false
    ∨ (∃ port, origin = Some ("http://localhost:" +:+ port)
               ∧ port ≠ "" ∧ Server.all_digits port = true)
    ∨ origin = FRONTEND_URL.
Proof.
  rewrite cors_origin_decision. destruct (truthy origin) eqn:Horigin; simpl; [|naive_solver].
  pose proof (or_else_truthy origin "" Horigin) as Heq.
  destruct (Server.is_localhost (or_else origin "")) eqn:Hlocal; simpl.
  - apply is_localhost_spec in Hlocal as (port & Hport & ? & ?).
    split; [|done]. intros _. right. left. exists port. by rewrite Heq, Hport.
  - case_bool_decide as Hfront; [naive_solver|].
    split; [done|]. intros [?|[(port & Hport & ? & ?)|?]]; [done| |done].
    assert (Server.is_localhost (or_else origin "") = true) as Hyes; [|congruence].
    apply is_localhost_spec. exists port. split; [|done].
    apply (inj Some). by rewrite <- Heq.
Qed.

(** Some origins, with [https://mindmirror.example] as the front end. *)
Lemma cors_origin_examples :
  let decide := Server.cors_origin (Some "https://mindmirror.example") in
  decide None = Server.CorsAllowed
  ∧ decide (Some "http://localhost:8080") = Server.CorsAllowed
  ∧ decide (Some "https://mindmirror.example") = Server.CorsAllowed
  ∧ decide (Some "https://localhost:3000") = Server.CorsBlocked "https://localhost:3000"
  ∧ decide (Some "http://localhost") = Server.CorsBlocked "http://localhost"
  ∧ decide (Some "http://localhost:3000/") = Server.CorsBlocked "http://localhost:3000/"
  ∧ decide (Some "http://localhost:3000.evil.example")
    = Server.CorsBlocked "http://localhost:3000.evil.example".
Proof. by vm_compute. Qed.

(** ** firebase-admin.js: the private key *)

(** Replacing a pattern that does not occur changes nothing. *)
Lemma replaceAll_absent (pat rep s : string) :
  JsString.includes pat s = false → JsString.replaceAll pat rep s = s.
Proof.
  unfold JsString.replaceAll. induction s as [|c s IH]; [done|].
  rewrite includes_cons. intros [Hpre Hin]%orb_false_iff.
  cbn [JsString.replace_from]. rewrite Hpre. by rewrite IH.
Qed.

Section PrivateKey.
Let pat := FirebaseAdmin.escaped_newline.

Lemma replace_escape_start s :
  starts_with "n" (JsString.replace_from pat newline 0 s) = true →
  starts_with "n" s = true.
Proof.
  destruct s as [|c s]; [done|]. cbn [JsString.replace_from].
  destruct (String.prefix pat (String c s)) eqn:Hpre; [|done].
  unfold newline. by rewrite string_app_cons, string_app_nil.
Qed.

(** No escaped line end is left once they are replaced by line ends. *)
Lemma replace_escape_free skip s :
  JsString.includes pat (JsString.replace_from pat newline skip s) = false.
Proof.
  revert skip. induction s as [|c s IH]; intros skip; [done|].
  cbn [JsString.replace_from]. destruct skip as [|k]; [|apply IH].
  destruct (String.prefix pat (String c s)) eqn:Hpre.
  - unfold newline. rewrite string_app_cons, string_app_nil, includes_cons, IH.
    by rewrite orb_false_r.
  - rewrite includes_cons, IH, orb_false_r. apply not_true_is_false. intros Hpre'.
    unfold pat, FirebaseAdmin.escaped_newline in Hpre, Hpre'.
    rewrite prefix_cons in Hpre, Hpre'. apply andb_true_iff in Hpre' as [Hc Hrest].
    rewrite Hc in Hpre. simpl in Hpre.
    assert (starts_with "n" s = true) as Hs.
    { apply replace_escape_start. unfold pat, FirebaseAdmin.escaped_newline.
      destruct (JsString.replace_from _ newline 0 s) as [|d u]; [done|].
      rewrite prefix_cons in Hrest. by apply andb_true_iff in Hrest as [? _]. }
    destruct s as [|d s]; [done|]. rewrite prefix_cons in Hpre. simpl in Hs.
    by rewrite Hs, prefix_nil in Hpre.
Qed.

(** The escaped line end behind a line that has none is the first to be
    replaced. *)
Lemma replace_escape_line (line rest : string) :
  JsString.includes pat line = false →
  JsString.replaceAll pat newline (line +:+ pat +:+ rest)
  = line +:+ newline +:+ JsString.replaceAll pat newline rest.
Proof.
  unfold JsString.replaceAll. induction line as [|c line IH]; intros Hfree.
  - rewrite !string_app_nil. unfold pat, FirebaseAdmin.escaped_newline.
    rewrite !string_app_cons, string_app_nil. cbn [JsString.replace_from].
    by rewrite prefix_cons, bool_decide_eq_true_2, prefix_cons, bool_decide_eq_true_2,
      prefix_nil by done.
  - rewrite includes_cons in Hfree. apply orb_false_iff in Hfree as [Hpre Hfree].
    rewrite !string_app_cons. cbn [JsString.replace_from].
    assert (String.prefix pat (String c (line +:+ pat +:+ rest)) = false) as ->.
    { unfold pat, FirebaseAdmin.escaped_newline in Hpre |- *.
      rewrite prefix_cons in Hpre |- *. case_bool_decide; [|done]. simpl in Hpre |- *.
      destruct line as [|d line].
      - rewrite string_app_nil, !string_app_cons. by rewrite prefix_cons.
      - rewrite string_app_cons. rewrite prefix_cons in Hpre |- *.
        rewrite prefix_nil, andb_true_r in Hpre |- *. done. }
    by rewrite IH.
Qed.

(** The lines of a key, joined by escaped line ends, come out joined by
    line ends. *)
Lemma replace_escape_join (lines : list string) :
  (∀ line, line ∈ lines → JsString.includes pat line = false) →
  JsString.replaceAll pat newline (JsString.join pat lines) = JsString.join newline lines.
Proof.
  induction lines as [|line [|next lines] IH]; intros Hfree.
  - done.
  - apply replaceAll_absent, Hfree. set_solver.
  - change (JsString.join pat (line :: next :: lines))
      with (line +:+ pat +:+ JsString.join pat (next :: lines)).
    change (JsString.join newline (line :: next :: lines))
      with (line +:+ newline +:+ JsString.join newline (next :: lines)).
    rewrite replace_escape_line by (apply Hfree; set_solver).
    rewrite IH; [done|]. intros l Hl. apply Hfree. set_solver.
Qed.

End PrivateKey.

(** X24: when the module initializes the application, the three variables of
    the credential are set and not empty, and the private key it passes
    on has no escaped line end left.  Each has become a line end: a key
    that is lines joined by escaped line ends is passed on as the same
    lines joined by line ends, and so a key without escaped line ends is
    passed on as it is.  The storage bucket is passed on as set. *)
Theorem initialize_unescapes_private_key (apps : nat) (env : FirebaseAdmin.Env)
    (options : FirebaseAdmin.AppOptions) :
  FirebaseAdmin.initialize apps env = FirebaseAdmin.Initialized options →
  apps = O
  ∧ FirebaseAdmin.FIREBASE_PROJECT_ID env = Some (FirebaseAdmin.projectId options)
  ∧ FirebaseAdmin.FIREBASE_CLIENT_EMAIL env = Some (FirebaseAdmin.clientEmail options)
  ∧ FirebaseAdmin.projectId options ≠ ""
  ∧ FirebaseAdmin.clientEmail options ≠ ""
  ∧ JsString.includes FirebaseAdmin.escaped_newline (FirebaseAdmin.privateKey options) = false
  ∧ (∀ key, FirebaseAdmin.FIREBASE_PRIVATE_KEY env = Some key →
            JsString.includes FirebaseAdmin.escaped_newline key = false →
            FirebaseAdmin.privateKey options = key)
  ∧ (∀ lines,
       FirebaseAdmin.FIREBASE_PRIVATE_KEY env
       = Some (JsString.join FirebaseAdmin.escaped_newline lines) →
       (∀ line, line ∈ lines →
                JsString.includes FirebaseAdmin.escaped_newline line = false) →
       FirebaseAdmin.privateKey options = JsString.join newline lines)
  ∧ FirebaseAdmin.storageBucket options = FirebaseAdmin.FIREBASE_STORAGE_BUCKET env.
Proof.
  unfold FirebaseAdmin.initialize. case_bool_decide as Happs; simpl; [|done].
  destruct (truthy (FirebaseAdmin.FIREBASE_PROJECT_ID env)) eqn:Hproject; simpl; [|done].
  destruct (truthy (FirebaseAdmin.FIREBASE_CLIENT_EMAIL env)) eqn:Hemail; simpl; [|done].
  destruct (truthy (FirebaseAdmin.FIREBASE_PRIVATE_KEY env)) eqn:Hkey; simpl; [|done].
  intros [= <-]. simpl.
  assert (∀ field, truthy field = true → or_else field "" ≠ "") as Hne.
  { intros [s|]; simpl; [|done]. destruct (String.eqb_spec s ""); [done|]. by intros _. }
  split_and!; [done|by apply or_else_truthy..|by apply Hne|by apply Hne| | | |done].
  - apply replace_escape_free.
  - intros key Hsome Hfree. rewrite (or_else_truthy _ "" Hkey) in Hsome.
    injection Hsome as ->. by apply replaceAll_absent.
  - intros lines Hsome Hfree. rewrite (or_else_truthy _ "" Hkey) in Hsome.
    injection Hsome as ->. by apply replace_escape_join.
Qed.

(** A key as the environment holds it, its two lines joined by an escaped
    line end. *)
Lemma initialize_unescapes_private_key_example :
  let escaped := "-----BEGIN-----" +:+ FirebaseAdmin.escaped_newline +:+ "-----END-----" in
  let env := FirebaseAdmin.mkEnv (Some "mindmirror") (Some "admin@mindmirror.example")
               (Some escaped) None in
  ∃ options,
    FirebaseAdmin.initialize 0 env = FirebaseAdmin.Initialized options
    ∧ FirebaseAdmin.privateKey options = "-----BEGIN-----" +:+ newline +:+ "-----END-----"
    ∧ JsString.includes FirebaseAdmin.escaped_newline (FirebaseAdmin.privateKey options)
      = false.
Proof.
  intros escaped env. eexists. split; [reflexivity|].
  destruct (initialize_unescapes_private_key 0 env _ eq_refl)
    as (_ & _ & _ & _ & _ & Hfree & _ & Hlines & _).
  split; [|exact Hfree].
  apply (Hlines ["-----BEGIN-----"; "-----END-----"]); [done|].
  intros line Hline. rewrite !elem_of_cons, elem_of_nil in Hline.
  by destruct Hline as [->|[->|[]]].
Defined.

(** ** The extraction, when the text holds no object *)

Lemma has_char_app (c : ascii) (before rest : string) :
  has_char c (before +:+ String c rest) = true.
Proof.
  induction before as [|d before IH]; string_simpl.
  - by rewrite Ascii.eqb_refl.
  - rewrite IH. apply orb_true_r.
Qed.

Section WholeText.
Context `{Platform}.

(** X25: when the text that is left after the fences has no [{] with a [}]
    somewhere after it, the client hands the whole of it to [JSON.parse]:
    an array, a number, a string or [null] that the model answers is
    returned as the analysis. *)
Theorem callGemini_parses_whole_text (prompt : Prompt) (userId : option string)
    (operation details : string) (w : World) (text : string) :
  reply (gemini w (length (generated w)) prompt) = ReplyText text →
  (∀ before inner after,
     strip_fences text ≠ before +:+ "{" +:+ inner +:+ "}" +:+ after) →
  extract_json text = strip_fences text
  ∧ match JSON_parse (strip_fences text) with
    | Parsed parsed => (callGemini prompt userId operation details w).1 = Ok parsed
    | SyntaxError _ => ∃ err, (callGemini prompt userId operation details w).1 = Throw err
    end.
Proof.
  intros Hreply Hnone.
  assert (extract_json text = strip_fences text) as Hwhole.
  { unfold extract_json. cbv zeta.
    destruct (bool_decide (JsString.indexOf "{" (strip_fences text) ≠ -1)
              && bool_decide (JsString.lastIndexOf "}" (strip_fences text) ≠ -1)
              && bool_decide (JsString.lastIndexOf "}" (strip_fences text)
                              > JsString.indexOf "{" (strip_fences text))) eqn:Hcond;
      [|done].
    apply andb_true_iff in Hcond as [[Hfirst Hlast]%andb_true_iff Horder].
    apply bool_decide_eq_true in Hfirst, Hlast, Horder.
    destruct (extract_json_braces text Hfirst Hlast Horder)
      as (before & inner & after & Hcut & _).
    by destruct (Hnone before inner after). }
  split; [done|].
  destruct (callGemini_run prompt userId operation details w) as (w' & -> & _).
  rewrite Hreply. simpl. rewrite Hwhole.
  destruct (JSON_parse _) as [parsed|msg]; [done|].
  destruct (_ || _); by eexists.
Qed.

End WholeText.

(** The model answers with a fenced array. *)
Lemma callGemini_parses_whole_text_example :
  let text := "```json" +:+ newline +:+ "[1,2]" +:+ newline +:+ "```" in
  let w := Sample.world ∅ ∅ (Sample.answering text) Sample.reliable in
  (@callGemini Reference.platform (TextPrompt "hello") None "text-analysis" "" w).1
  = Ok (JArr [JNum 1; JNum 2]).
Proof.
  intros text w.
  assert (strip_fences text = "[1,2]") as Hstrip by (by vm_compute).
  assert (∀ before inner after,
            strip_fences text ≠ before +:+ "{" +:+ inner +:+ "}" +:+ after) as Hnone.
  { intros before inner after Hcut.
    pose proof (has_char_app "{" before (inner +:+ "}" +:+ after)) as Hhas.
    change (before +:+ String "{" (inner +:+ "}" +:+ after))
      with (before +:+ "{" +:+ inner +:+ "}" +:+ after) in Hhas.
    rewrite <- Hcut, Hstrip in Hhas. by vm_compute in Hhas. }
  pose proof (proj2 (@callGemini_parses_whole_text Reference.platform (TextPrompt "hello")
                       None "text-analysis" "" w text eq_refl Hnone)) as Hparse.
  exact Hparse.
Defined.

(** ** routes/analysis_cached.js: the weekly route without timeout *)

Section CachedVariantProps.
Context `{Platform}.

(** The weekly analysis without user identity. *)
Lemma analyzeWeeklyPatterns_anonymous reflections w :
  (3 ≤ length reflections)%nat →
  ∃ w', analyzeWeeklyPatterns reflections None w
        = (Ok (analysis_of
                 (client_outcome
                    (reply (gemini w (length (generated w))
                              (WeeklyPrompt (List.map summarize reflections)))))), w')
        ∧ users w' = users w ∧ storeFault w' = storeFault w
        ∧ storeOps w' = storeOps w.
Proof.
  intros Hlen. unfold analyzeWeeklyPatterns.
  rewrite bool_decide_eq_false_2 by lia. unfold try_catch, bind.
  destruct (callGemini_anonymous (WeeklyPrompt (List.map summarize reflections)) None
              "weekly-analysis" "Weekly pattern analysis" w eq_refl)
    as (w' & -> & (_ & _ & _ & _ & Hfault & _) & _ & Husers & Hops).
  destruct (client_outcome _) as [data|error]; simpl; by eexists.
Qed.

(** X26: the weekly route of routes/analysis_cached.js has no timeout and no
    fallback: however late the service answers, the route answers with
    the analysis of the service, marked as not cached, or with 500 and
    the message of its failure.  It passes no user identity to the
    client, so that the request is not counted. *)
Theorem cached_variant_waits_and_counts_nothing (body : Body.t) (w : World) :
  truthy (Body.userId body) = true →
  (∀ n, storeFault w n = false) →
  fresh_cache (clock w) (users w !! or_else (Body.userId body) "") = None →
  (3 ≤ size (reflections_of (or_else (Body.userId body) "") w))%nat →
  let userId := or_else (Body.userId body) "" in
  let recent := query_recent 7 (reflections_of userId w) in
  let outcome := gemini w (length (generated w)) (WeeklyPrompt (List.map summarize recent)) in
  (AnalysisCached.analyze_weekly body w).1
  = Ok match analysis_of (client_outcome (reply outcome)) with
       | Success data =>
           respond 200
             (WeeklyBody
                (mkWeeklyAnswer true (Some (length recent)) (Some data) None (Some false)))
       | Failure error => respond 500 (ErrorBody error)
       end
  ∧ ∀ user, users w !! userId = Some user →
            ∃ user', users (AnalysisCached.analyze_weekly body w).2 !! userId = Some user'
                     ∧ apiRequestCount user' = apiRequestCount user
                     ∧ apiLogs user' = apiLogs user
                     ∧ apiUsage user' = apiUsage user.
Proof.
  intros Hid Hstore Hfresh Hsize. simpl.
  set (userId := or_else (Body.userId body) "") in *.
  destruct (query_recent_spec 7 (reflections_of userId w)) as (Hlen & _).
  assert (3 ≤ length (query_recent 7 (reflections_of userId w)))%nat as Hmany by lia.
  unfold AnalysisCached.analyze_weekly, try_catch, bind, user_get, store_op, dateNow.
  rewrite Hid. simpl. rewrite Hstore. simpl. fold userId.
  assert (∀ k : M Response,
            match cache_of (users w !! userId) with
            | Some entry =>
                if bool_decide (clock w - timestamp entry < CACHE_DURATION)
                then (console_log (CachedWeekly ((clock w - timestamp entry) / 1000 / 60));;
                      ret (respond 200
                             (WeeklyBody
                                (mkWeeklyAnswer true (Some (reflectionCount entry))
                                   (Some (analysis entry)) None (Some true)))))%js
                else k
            | None => k
            end = k) as Hmiss.
  { intros k. unfold fresh_cache in Hfresh. destruct (cache_of _) as [entry|]; [|done].
    by case_bool_decide. }
  unfold bind, console_log in Hmiss. rewrite Hmiss. clear Hmiss.
  unfold AnalysisCached.generate_weekly, bind, console_log, reflections_recent, store_op.
  simpl. rewrite Hstore. simpl.
  change (reflections_of userId (with_storeOps _ (with_console _ (with_storeOps _ w))))
    with (reflections_of userId w).
  destruct (query_recent 7 (reflections_of userId w)) as [|r rs] eqn:Hrecent;
    [simpl in Hmany; lia|].
  rewrite bool_decide_eq_false_2 by lia.
  match goal with |- context [analyzeWeeklyPatterns _ None ?w0] => set (w1 := w0) end.
  destruct (analyzeWeeklyPatterns_anonymous (r :: rs) w1 Hmany)
    as (w2 & Hrun & Husers & Hfault & Hops).
  change (gemini w1) with (gemini w) in Hrun. change (generated w1) with (generated w) in Hrun.
  rewrite Hrun.
  destruct (analysis_of _) as [data|error]; simpl.
  - unfold user_set_merge, store_op. rewrite Hfault. simpl. rewrite Hstore. simpl.
    split; [done|]. intros user Huser. rewrite lookup_insert_eq, Husers. simpl.
    rewrite Huser. eexists. split; [done|]. by simpl.
  - split; [done|]. intros user Huser. rewrite Husers. by exists user.
Qed.

End CachedVariantProps.

(** The service answers after 20 seconds: the route of
    routes/analysis_cached.js answers with its object, where the route of
    routes/analysis.js answers with the fallback. *)
Lemma cached_variant_waits_and_counts_nothing_example :
  (AnalysisCached.analyze_weekly (H := Reference.platform) Sample.weekly_request
     Sample.slow_world).1
  = Ok (respond 200
          (WeeklyBody
             (mkWeeklyAnswer true (Some 3%nat) (Some (JObj [("a", JNum 1)])) None
                (Some false)))).
Proof.
  pose proof (proj1 (@cached_variant_waits_and_counts_nothing Reference.platform
                       Sample.weekly_request Sample.slow_world eq_refl (λ _, eq_refl) eq_refl
                       ltac:(by vm_compute))) as Hrun.
  etrans; [exact Hrun|]. by vm_compute.
Defined.
